(** * The x86 CPUID feature algebra and model resolver of [src/cpu/cpu_x86.c]

    A shallow embedding of the CPU driver for CPUs with an x86 compatible
    CPUID instruction, and the properties of it that its specification
    states.

    Conventions of the embedding.

    - A [uint32_t] is a [Z]; where the C code wraps (a conversion to
      [uint32_t], [unsigned int] or [int], the complement [~]) the wrap is
      written out with [wrap32], [int_of_Z] and [not32].
    - An array with its length field ([basic] / [basic_len]) is a list; the
      length field is the length of the list.  A pointer into one of the two
      arrays of a [cpuX86Data] is a [cpuid_ptr].  Reading or writing through
      a pointer outside its array is undefined in C; here a read gives the
      null tuple and a write is dropped, and the theorems that depend on a
      store state the bounds under which it stays inside.
    - Memory allocation never fails, so the [-1] / [NULL] results that only
      an allocation failure produces do not appear.
    - A singly linked list ([next] pointers) is a list in link order: the
      head of the list is the element inserted last.
    - Functions that mutate an argument return its new value. *)

From Stdlib Require Import ZArith Lia Bool.
From stdpp Require Import base list strings.

Local Open Scope Z_scope.

(** ** Machine integers *)

Definition wrap32 (z : Z) : Z := z mod 2 ^ 32.

(** The value of a C [int] that receives [z] (two's complement). *)
Definition int_of_Z (z : Z) : Z := (z + 2 ^ 31) mod 2 ^ 32 - 2 ^ 31.

(** [~x] on a [uint32_t]. *)
Definition not32 (x : Z) : Z := wrap32 (Z.lnot x).

(** A counted loop [for (i = 0; i < n; i++) body], started at [i]. *)
Fixpoint for_loop {St : Type} (n : nat) (i : nat)
         (body : nat -> St -> St) (s : St) : St :=
  match n with
  | O => s
  | S n' => for_loop n' (S i) body (body i s)
  end.

(** ** CPUID tuples ([struct cpuX86cpuid]) *)

Record cpuX86cpuid : Type := mk_cpuid {
  function : Z;
  eax : Z;
  ebx : Z;
  ecx : Z;
  edx : Z
}.

Definition cpuidNull : cpuX86cpuid := mk_cpuid 0 0 0 0 0.

#[global] Instance cpuX86cpuid_inhabited : Inhabited cpuX86cpuid :=
  populate cpuidNull.

#[global] Instance cpuX86cpuid_eq_dec : EqDecision cpuX86cpuid.
Proof. solve_decision. Defined.

Definition CPUX86_BASIC : Z := 0.
Definition CPUX86_EXTENDED : Z := 0x80000000.

Definition x86cpuidMatch (cpuid1 cpuid2 : cpuX86cpuid) : bool :=
  (eax cpuid1 =? eax cpuid2) &&
  (ebx cpuid1 =? ebx cpuid2) &&
  (ecx cpuid1 =? ecx cpuid2) &&
  (edx cpuid1 =? edx cpuid2).

Definition x86cpuidMatchMasked (cpuid mask : cpuX86cpuid) : bool :=
  (Z.land (eax cpuid) (eax mask) =? eax mask) &&
  (Z.land (ebx cpuid) (ebx mask) =? ebx mask) &&
  (Z.land (ecx cpuid) (ecx mask) =? ecx mask) &&
  (Z.land (edx cpuid) (edx mask) =? edx mask).

Definition x86cpuidSetBits (cpuid mask : cpuX86cpuid) : cpuX86cpuid :=
  {| function := function cpuid;
     eax := Z.lor (eax cpuid) (eax mask);
     ebx := Z.lor (ebx cpuid) (ebx mask);
     ecx := Z.lor (ecx cpuid) (ecx mask);
     edx := Z.lor (edx cpuid) (edx mask) |}.

Definition x86cpuidClearBits (cpuid mask : cpuX86cpuid) : cpuX86cpuid :=
  {| function := function cpuid;
     eax := Z.land (eax cpuid) (not32 (eax mask));
     ebx := Z.land (ebx cpuid) (not32 (ebx mask));
     ecx := Z.land (ecx cpuid) (not32 (ecx mask));
     edx := Z.land (edx cpuid) (not32 (edx mask)) |}.

Definition x86cpuidAndBits (cpuid mask : cpuX86cpuid) : cpuX86cpuid :=
  {| function := function cpuid;
     eax := Z.land (eax cpuid) (eax mask);
     ebx := Z.land (ebx cpuid) (ebx mask);
     ecx := Z.land (ecx cpuid) (ecx mask);
     edx := Z.land (edx cpuid) (edx mask) |}.

(** ** The CPUID data store ([struct cpuX86Data]) *)

Record cpuX86Data : Type := mk_data {
  basic : list cpuX86cpuid;
  extended : list cpuX86cpuid
}.

Definition basic_len (data : cpuX86Data) : Z := Z.of_nat (length (basic data)).
Definition extended_len (data : cpuX86Data) : Z :=
  Z.of_nat (length (extended data)).

(** What [VIR_ALLOC(data)] gives: both arrays [NULL], both lengths 0. *)
Definition x86DataNew : cpuX86Data := mk_data [] [].

(** A pointer to a tuple of a data store: [data->basic + i] or
    [data->extended + i]. *)
Record cpuid_ptr : Type := mk_ptr {
  in_extended : bool;
  index : nat
}.

#[global] Instance cpuid_ptr_eq_dec : EqDecision cpuid_ptr.
Proof. solve_decision. Defined.

Definition load (data : cpuX86Data) (p : cpuid_ptr) : cpuX86cpuid :=
  (if in_extended p then extended data else basic data) !!! index p.

Definition store (data : cpuX86Data) (p : cpuid_ptr)
           (f : cpuX86cpuid -> cpuX86cpuid) : cpuX86Data :=
  if in_extended p
  then mk_data (basic data) (alter f (index p) (extended data))
  else mk_data (alter f (index p) (basic data)) (extended data).

(** *** The iterator *)

Record data_iterator : Type := mk_iter {
  pos : Z;
  it_extended : bool
}.

Definition DATA_ITERATOR_INIT : data_iterator := mk_iter (-1) false.

(** One round of the [do ... while] of [x86DataCpuidNext]: the pointer it
    computes and the iterator it leaves. *)
Definition x86DataCpuidNext_step (data : cpuX86Data) (iterator : data_iterator)
  : option cpuid_ptr * data_iterator :=
  let pos1 := pos iterator + 1 in
  let '(ret, it1) :=
    if negb (it_extended iterator) then
      if pos1 <? basic_len data
      then (Some (mk_ptr false (Z.to_nat pos1)), mk_iter pos1 false)
      else (None, mk_iter 0 true)
    else (None, mk_iter pos1 true) in
  if it_extended it1 && (pos it1 <? extended_len data)
  then (Some (mk_ptr true (Z.to_nat (pos it1))), it1)
  else (ret, it1).

(** The [do ... while (ret && x86cpuidMatch(ret, &cpuidNull))] loop; [fuel]
    bounds the number of rounds. *)
Fixpoint x86DataCpuidNext_loop (fuel : nat) (data : cpuX86Data)
         (iterator : data_iterator) : option cpuid_ptr * data_iterator :=
  match fuel with
  | O => (None, iterator)
  | S fuel' =>
      match x86DataCpuidNext_step data iterator with
      | (Some ret, it1) =>
          if x86cpuidMatch (load data ret) cpuidNull
          then x86DataCpuidNext_loop fuel' data it1
          else (Some ret, it1)
      | (None, it1) => (None, it1)
      end
  end.

(** Every round but the last moves over one tuple, so one round per tuple
    and two more always suffice ([x86DataCpuidNext_fuel] below). *)
Definition iter_fuel (data : cpuX86Data) : nat :=
  S (S (length (basic data) + length (extended data))).

(** skips all zero CPUID leafs *)
Definition x86DataCpuidNext (data : cpuX86Data) (iterator : data_iterator)
  : option cpuid_ptr * data_iterator :=
  x86DataCpuidNext_loop (iter_fuel data) data iterator.

(** A loop [while ((cpuid = x86DataCpuidNext(&iter))) body] over the data
    held in the loop state.  The body either continues with a new state or
    leaves the function with a result. *)
Fixpoint while_next {St R : Type} (fuel : nat) (data_of : St -> cpuX86Data)
         (body : cpuid_ptr -> St -> St + R)
         (s : St) (iter : data_iterator) : St + R :=
  match fuel with
  | O => inl s
  | S fuel' =>
      match x86DataCpuidNext (data_of s) iter with
      | (Some cpuid, iter') =>
          match body cpuid s with
          | inl s' => while_next fuel' data_of body s' iter'
          | inr r => inr r
          end
      | (None, _) => inl s
      end
  end.

Definition x86DataCpuid (data : cpuX86Data) (function : Z) : option cpuid_ptr :=
  let '(in_ext, len, i) :=
    if function <? CPUX86_EXTENDED
    then (false, basic_len data, function)
    else (true, extended_len data, function - CPUX86_EXTENDED) in
  let p := mk_ptr in_ext (Z.to_nat i) in
  if (i <? len) && negb (x86cpuidMatch (load data p) cpuidNull)
  then Some p
  else None.

Definition x86DataCopy (data : cpuX86Data) : cpuX86Data :=
  let copy_basic := replicate (length (basic data)) cpuidNull in
  let copy_extended := replicate (length (extended data)) cpuidNull in
  mk_data
    (for_loop (length (basic data)) 0
       (fun i l => <[i := basic data !!! i]> l) copy_basic)
    (for_loop (length (extended data)) 0
       (fun i l => <[i := extended data !!! i]> l) copy_extended).

(** [VIR_EXPAND_N(ptr, count, add)]: [add] zeroed elements at the end. *)
Definition VIR_EXPAND_N (l : list cpuX86cpuid) (add : Z) : list cpuX86cpuid :=
  l ++ replicate (Z.to_nat add) cpuidNull.

Definition set_function (fn : Z) (c : cpuX86cpuid) : cpuX86cpuid :=
  {| function := wrap32 fn; eax := eax c; ebx := ebx c;
     ecx := ecx c; edx := edx c |}.

Definition x86DataExpand (data : cpuX86Data) (basic_by extended_by : Z)
  : cpuX86Data :=
  let data1 :=
    if basic_by >? 0 then
      let len := length (basic data) in
      mk_data
        (for_loop (Z.to_nat basic_by) 0
           (fun i l =>
              alter (set_function (Z.of_nat (len + i))) (len + i)%nat l)
           (VIR_EXPAND_N (basic data) basic_by))
        (extended data)
    else data in
  if extended_by >? 0 then
    let len := length (extended data1) in
    mk_data
      (basic data1)
      (for_loop (Z.to_nat extended_by) 0
         (fun i l =>
            alter (set_function (Z.of_nat (len + i) + CPUX86_EXTENDED))
                  (len + i)%nat l)
         (VIR_EXPAND_N (extended data1) extended_by))
  else data1.

(** The counts are [unsigned int] here and [int] in [x86DataExpand].  For
    function 0x7fffffff or 0xffffffff and an empty array the count is
    0x80000000, a negative [int]: nothing is added, and the write that
    follows is outside the array (undefined in C, dropped here).
    [function_in_reach] below names the other functions. *)
Definition x86DataAddCpuid (data : cpuX86Data) (cpuid : cpuX86cpuid)
  : cpuX86Data :=
  let '(in_ext, pos, basic_by, extended_by) :=
    if function cpuid <? CPUX86_EXTENDED then
      let pos := function cpuid in
      (false, pos, wrap32 (wrap32 (pos + 1) - basic_len data), 0)
    else
      let pos := wrap32 (function cpuid - CPUX86_EXTENDED) in
      (true, pos, 0, wrap32 (wrap32 (pos + 1) - extended_len data)) in
  let data' := x86DataExpand data (int_of_Z basic_by) (int_of_Z extended_by) in
  store data' (mk_ptr in_ext (Z.to_nat pos))
        (fun c => x86cpuidSetBits c cpuid).

(** The differences of the lengths become the [int] counts of
    [x86DataExpand].  When an array of [data2] is [2^31] tuples longer than
    that of [data1] the count is negative, nothing is added and the loops
    write outside the array (undefined in C, dropped here); [x86DataShort]
    below bounds [data2] so that this does not happen. *)
Definition x86DataAdd (data1 data2 : cpuX86Data) : cpuX86Data :=
  let data1' :=
    x86DataExpand data1
      (int_of_Z (basic_len data2 - basic_len data1))
      (int_of_Z (extended_len data2 - extended_len data1)) in
  let b :=
    for_loop (length (basic data2)) 0
      (fun i l => alter (fun c => x86cpuidSetBits c (basic data2 !!! i)) i l)
      (basic data1') in
  let e :=
    for_loop (length (extended data2)) 0
      (fun i l => alter (fun c => x86cpuidSetBits c (extended data2 !!! i)) i l)
      (extended data1') in
  mk_data b e.

Definition x86DataSubtract (data1 data2 : cpuX86Data) : cpuX86Data :=
  let len := wrap32 (Z.min (basic_len data1) (basic_len data2)) in
  let b :=
    for_loop (Z.to_nat len) 0
      (fun i l => alter (fun c => x86cpuidClearBits c (basic data2 !!! i)) i l)
      (basic data1) in
  let len := wrap32 (Z.min (extended_len data1) (extended_len data2)) in
  let e :=
    for_loop (Z.to_nat len) 0
      (fun i l =>
         alter (fun c => x86cpuidClearBits c (extended data2 !!! i)) i l)
      (extended data1) in
  mk_data b e.

Definition x86DataIntersect (data1 data2 : cpuX86Data) : cpuX86Data :=
  match
    while_next (R := Empty_set) (iter_fuel data1) (fun d => d)
      (fun cpuid1 d =>
         match x86DataCpuid data2 (function (load d cpuid1)) with
         | Some cpuid2 =>
             inl (store d cpuid1 (fun c => x86cpuidAndBits c (load data2 cpuid2)))
         | None =>
             inl (store d cpuid1 (fun c => x86cpuidClearBits c c))
         end)
      data1 DATA_ITERATOR_INIT
  with
  | inl d => d
  | inr r => Empty_set_rect _ r
  end.

Definition x86DataIsEmpty (data : cpuX86Data) : bool :=
  match fst (x86DataCpuidNext data DATA_ITERATOR_INIT) with
  | None => true
  | Some _ => false
  end.

Definition x86DataIsSubset (data subset : cpuX86Data) : bool :=
  match
    while_next (iter_fuel subset) (fun _ : unit => subset)
      (fun cpuidSubset _ =>
         match x86DataCpuid data (function (load subset cpuidSubset)) with
         | None => inr false
         | Some cpuid =>
             if negb (x86cpuidMatchMasked (load data cpuid)
                                          (load subset cpuidSubset))
             then inr false
             else inl tt
         end)
      tt DATA_ITERATOR_INIT
  with
  | inl _ => true
  | inr r => r
  end.

(** ** CPU definitions ([virCPUDef], the part the driver touches) *)

Inductive virArch : Type :=
| VIR_ARCH_NONE
| VIR_ARCH_I686
| VIR_ARCH_X86_64
| VIR_ARCH_OTHER (tag : nat).

Inductive virCPUType : Type := VIR_CPU_TYPE_HOST | VIR_CPU_TYPE_GUEST.

Inductive virCPUMode : Type :=
| VIR_CPU_MODE_CUSTOM
| VIR_CPU_MODE_HOST_MODEL
| VIR_CPU_MODE_HOST_PASSTHROUGH
| VIR_CPU_MODE_LAST.

Inductive virCPUMatch : Type :=
| VIR_CPU_MATCH_MINIMUM
| VIR_CPU_MATCH_EXACT
| VIR_CPU_MATCH_STRICT.

Inductive virCPUFallback : Type :=
| VIR_CPU_FALLBACK_ALLOW
| VIR_CPU_FALLBACK_FORBID.

(** The five policies and the value [-1] that [x86Decode] writes into the
    features of a host CPU. *)
Inductive virCPUFeaturePolicy : Type :=
| VIR_CPU_FEATURE_FORCE
| VIR_CPU_FEATURE_REQUIRE
| VIR_CPU_FEATURE_OPTIONAL
| VIR_CPU_FEATURE_DISABLE
| VIR_CPU_FEATURE_FORBID
| VIR_CPU_FEATURE_UNSET.

#[global] Instance virArch_eq_dec : EqDecision virArch.
Proof. solve_decision. Defined.
#[global] Instance virCPUType_eq_dec : EqDecision virCPUType.
Proof. solve_decision. Defined.
#[global] Instance virCPUMatch_eq_dec : EqDecision virCPUMatch.
Proof. solve_decision. Defined.
#[global] Instance virCPUFallback_eq_dec : EqDecision virCPUFallback.
Proof. solve_decision. Defined.
#[global] Instance virCPUFeaturePolicy_eq_dec : EqDecision virCPUFeaturePolicy.
Proof. solve_decision. Defined.

Record virCPUFeatureDef : Type := mk_feature_def {
  fd_name : string;
  fd_policy : virCPUFeaturePolicy
}.

Record virCPUDef : Type := mk_cpu_def {
  cpu_type : virCPUType;
  cpu_mode : virCPUMode;
  cpu_arch : virArch;
  cpu_match : virCPUMatch;
  cpu_fallback : virCPUFallback;
  cpu_model : string;
  cpu_vendor : option string;
  cpu_features : list virCPUFeatureDef
}.

#[global] Instance virCPUMode_eq_dec : EqDecision virCPUMode.
Proof. solve_decision. Defined.
#[global] Instance virCPUFeatureDef_eq_dec : EqDecision virCPUFeatureDef.
Proof. solve_decision. Defined.
#[global] Instance virCPUDef_eq_dec : EqDecision virCPUDef.
Proof. solve_decision. Defined.

Definition nfeatures (cpu : virCPUDef) : nat := length (cpu_features cpu).

(** Assignments to one field of a [virCPUDef]. *)
Definition set_type (t : virCPUType) (cpu : virCPUDef) : virCPUDef :=
  mk_cpu_def t (cpu_mode cpu) (cpu_arch cpu) (cpu_match cpu)
             (cpu_fallback cpu) (cpu_model cpu) (cpu_vendor cpu)
             (cpu_features cpu).
Definition set_match (m : virCPUMatch) (cpu : virCPUDef) : virCPUDef :=
  mk_cpu_def (cpu_type cpu) (cpu_mode cpu) (cpu_arch cpu) m
             (cpu_fallback cpu) (cpu_model cpu) (cpu_vendor cpu)
             (cpu_features cpu).
Definition set_model (m : string) (cpu : virCPUDef) : virCPUDef :=
  mk_cpu_def (cpu_type cpu) (cpu_mode cpu) (cpu_arch cpu) (cpu_match cpu)
             (cpu_fallback cpu) m (cpu_vendor cpu) (cpu_features cpu).
Definition set_vendor (v : option string) (cpu : virCPUDef) : virCPUDef :=
  mk_cpu_def (cpu_type cpu) (cpu_mode cpu) (cpu_arch cpu) (cpu_match cpu)
             (cpu_fallback cpu) (cpu_model cpu) v (cpu_features cpu).
Definition set_features (fs : list virCPUFeatureDef) (cpu : virCPUDef)
  : virCPUDef :=
  mk_cpu_def (cpu_type cpu) (cpu_mode cpu) (cpu_arch cpu) (cpu_match cpu)
             (cpu_fallback cpu) (cpu_model cpu) (cpu_vendor cpu) fs.

(** What [VIR_ALLOC(cpu)] gives: every field zero.  The model name, a
    [NULL] pointer there, is the empty string here. *)
Definition virCPUDefNew : virCPUDef :=
  mk_cpu_def VIR_CPU_TYPE_HOST VIR_CPU_MODE_CUSTOM VIR_ARCH_NONE
             VIR_CPU_MATCH_MINIMUM VIR_CPU_FALLBACK_ALLOW EmptyString None [].

(** [STREQ] / [STRNEQ]. *)
Definition STREQ (a b : string) : bool := String.eqb a b.
Definition STRNEQ (a b : string) : bool := negb (String.eqb a b).

(** ** The catalog ([struct x86_map]) *)

Record x86_vendor : Type := mk_vendor {
  vendor_name : string;
  vendor_cpuid : cpuX86cpuid
}.

Record x86_feature : Type := mk_feature {
  feature_name : string;
  feature_data : cpuX86Data
}.

(** [model_name] is [NULL] in a model made by [x86ModelNew] until a name is
    stored; [model_vendor] points to a vendor of the catalog, or is [NULL]. *)
Record x86_model : Type := mk_model {
  model_name : option string;
  model_vendor : option x86_vendor;
  model_data : cpuX86Data
}.

Record x86_map : Type := mk_map {
  map_vendors : list x86_vendor;
  map_features : list x86_feature;
  map_models : list x86_model
}.

Inductive compare_result : Type := SUBSET | EQUAL | SUPERSET | UNRELATED.

#[global] Instance compare_result_eq_dec : EqDecision compare_result.
Proof. solve_decision. Defined.

(** also removes all detected features from data *)
Section DataToCPU.

(** [virCPUDefAddFeature] of the CPU configuration module: its [int]
    result and the definition it leaves. *)
Variable virCPUDefAddFeature :
  virCPUDef -> string -> virCPUFeaturePolicy -> Z * virCPUDef.

Fixpoint x86DataToCPUFeatures_list (cpu : virCPUDef)
         (policy : virCPUFeaturePolicy) (data : cpuX86Data)
         (feature : list x86_feature) : Z * virCPUDef * cpuX86Data :=
  match feature with
  | [] => (0, cpu, data)
  | f :: next =>
      if x86DataIsSubset data (feature_data f) then
        let data' := x86DataSubtract data (feature_data f) in
        let '(r, cpu') := virCPUDefAddFeature cpu (feature_name f) policy in
        if r <? 0 then (-1, cpu', data')
        else x86DataToCPUFeatures_list cpu' policy data' next
      else x86DataToCPUFeatures_list cpu policy data next
  end.

Definition x86DataToCPUFeatures (cpu : virCPUDef)
           (policy : virCPUFeaturePolicy) (data : cpuX86Data)
           (map : x86_map) : Z * virCPUDef * cpuX86Data :=
  x86DataToCPUFeatures_list cpu policy data (map_features map).

(** also removes bits corresponding to vendor string from data *)
Fixpoint x86DataToVendor_list (data : cpuX86Data) (vendor : list x86_vendor)
  : option x86_vendor * cpuX86Data :=
  match vendor with
  | [] => (None, data)
  | v :: next =>
      match x86DataCpuid data (function (vendor_cpuid v)) with
      | Some cpuid =>
          if x86cpuidMatchMasked (load data cpuid) (vendor_cpuid v)
          then (Some v,
                store data cpuid
                      (fun c => x86cpuidClearBits c (vendor_cpuid v)))
          else x86DataToVendor_list data next
      | None => x86DataToVendor_list data next
      end
  end.

Definition x86DataToVendor (data : cpuX86Data) (map : x86_map)
  : option x86_vendor * cpuX86Data :=
  x86DataToVendor_list data (map_vendors map).

Definition x86DataToCPU (data : cpuX86Data) (model : x86_model)
           (map : x86_map) : option virCPUDef :=
  let cpu := set_model (default EmptyString (model_name model))
                       virCPUDefNew in
  let copy := x86DataCopy data in
  let modelData := x86DataCopy (model_data model) in
  let '(vendor, copy) := x86DataToVendor copy map in
  let cpu := set_vendor (vendor_name <$> vendor) cpu in
  let copy := x86DataSubtract copy modelData in
  let modelData := x86DataSubtract modelData data in
  (* because feature policy is ignored for host CPU *)
  let cpu := set_type VIR_CPU_TYPE_GUEST cpu in
  match x86DataToCPUFeatures cpu VIR_CPU_FEATURE_REQUIRE copy map with
  | (0, cpu, _) =>
      match x86DataToCPUFeatures cpu VIR_CPU_FEATURE_DISABLE modelData map
      with
      | (0, cpu, _) => Some cpu
      | _ => None
      end
  | _ => None
  end.

End DataToCPU.

(** ** Loading the catalog *)

Fixpoint x86VendorFind_list (vendor : list x86_vendor) (name : string)
  : option x86_vendor :=
  match vendor with
  | [] => None
  | v :: next =>
      if STREQ (vendor_name v) name then Some v
      else x86VendorFind_list next name
  end.

Definition x86VendorFind (map : x86_map) (name : string) : option x86_vendor :=
  x86VendorFind_list (map_vendors map) name.

Fixpoint x86FeatureFind_list (feature : list x86_feature) (name : string)
  : option x86_feature :=
  match feature with
  | [] => None
  | f :: next =>
      if STREQ (feature_name f) name then Some f
      else x86FeatureFind_list next name
  end.

Definition x86FeatureFind (map : x86_map) (name : string)
  : option x86_feature :=
  x86FeatureFind_list (map_features map) name.

Fixpoint x86ModelFind_list (model : list x86_model) (name : string)
  : option x86_model :=
  match model with
  | [] => None
  | m :: next =>
      match model_name m with
      | Some n => if STREQ n name then Some m else x86ModelFind_list next name
      | None => x86ModelFind_list next name
      end
  end.

Definition x86ModelFind (map : x86_map) (name : string) : option x86_model :=
  x86ModelFind_list (map_models map) name.

(** What a load function reports through [virReportError]. *)
Inductive load_error : Type :=
| Missing_CPU_vendor_name
| CPU_vendor_already_defined (name : string)
| Missing_vendor_string (name : string)
| Invalid_CPU_vendor_string (s : string)
| Missing_CPU_feature_name
| CPU_feature_already_defined (name : string)
| Invalid_cpuid_in_feature (i : nat) (name : string)
| Missing_CPU_model_name
| Missing_ancestors_name (model_name : string)
| Ancestor_model_not_found (name model_name : string)
| Invalid_vendor_element (model_name : string)
| Unknown_vendor_referenced (vendor model_name : string)
| Missing_feature_name_for_model (model_name : string)
| Feature_required_by_model_not_found (name model_name : string).

(** The result of a load function: its [int] result, the catalog it leaves
    and the error it reported, if any. *)
Record load_result : Type := mk_load_result {
  load_ret : Z;
  load_map : x86_map;
  load_reported : option load_error
}.

(** The XML context of an element, as far as the load functions query it. *)

(** [virXPathULongHex]: 0 and a value, [-1] when the attribute is missing,
    [-2] when it is not a hexadecimal number. *)
Inductive xpath_ulong : Type :=
| XPathValue (v : Z)
| XPathMissing
| XPathInvalid.

Definition xpath_ret (x : xpath_ulong) : Z :=
  match x with XPathValue _ => 0 | XPathMissing => -1 | XPathInvalid => -2 end.

Definition xpath_value (x : xpath_ulong) : Z :=
  match x with XPathValue v => v | _ => 0 end.

Record xml_cpuid : Type := mk_xml_cpuid {
  attr_function : xpath_ulong;
  attr_eax : xpath_ulong;
  attr_ebx : xpath_ulong;
  attr_ecx : xpath_ulong;
  attr_edx : xpath_ulong
}.

Record xml_vendor : Type := mk_xml_vendor {
  xml_vendor_name : option string;      (* string(@name) *)
  xml_vendor_string : option string     (* string(@string) *)
}.

Record xml_feature : Type := mk_xml_feature {
  xml_feature_name : option string;         (* string(@name) *)
  xml_feature_cpuid : option (list xml_cpuid) (* ./cpuid; None when n < 0 *)
}.

Record xml_model : Type := mk_xml_model {
  xml_model_name : option string;             (* string(@name) *)
  xml_model_model : option (option string);   (* ./model and its @name *)
  xml_model_vendor : option (option string);  (* ./vendor and its @name *)
  xml_model_feature : option (list (option string))
                                              (* ./feature and their name *)
}.

Definition VENDOR_STRING_LENGTH : nat := 12.

(** Modelled from the spec: [virReadBufInt32LE] of virendian.h, which is
    not among the sources; the spec has the 12-byte vendor string split
    little-endian into three registers. *)
Definition virReadBufInt32LE (buf : list Ascii.ascii) : Z :=
  let byte i := Z.of_N (Ascii.N_of_ascii (nth i buf Ascii.zero)) in
  Z.lor (byte 0%nat)
    (Z.lor (Z.shiftl (byte 1%nat) 8)
       (Z.lor (Z.shiftl (byte 2%nat) 16) (Z.shiftl (byte 3%nat) 24))).

Definition x86VendorLoad (ctxt : xml_vendor) (map : x86_map) : load_result :=
  let ignore e := mk_load_result 0 map e in
  match xml_vendor_name ctxt with
  | None => ignore (Some Missing_CPU_vendor_name)
  | Some vname =>
      match x86VendorFind map vname with
      | Some _ => ignore (Some (CPU_vendor_already_defined vname))
      | None =>
        match xml_vendor_string ctxt with
        | None => ignore (Some (Missing_vendor_string vname))
        | Some str =>
            if negb (Nat.eqb (String.length str) VENDOR_STRING_LENGTH)
            then ignore (Some (Invalid_CPU_vendor_string str))
            else
              let s := String.list_ascii_of_string str in
              let vendor :=
                {| vendor_name := vname;
                   vendor_cpuid :=
                     {| function := 0;
                        eax := 0;
                        ebx := virReadBufInt32LE s;
                        ecx := virReadBufInt32LE (drop 8 s);
                        edx := virReadBufInt32LE (drop 4 s) |} |} in
              mk_load_result 0
                (mk_map (vendor :: map_vendors map) (map_features map) (map_models map))
                None
        end
      end
  end.

(** The loop of [x86FeatureLoad] over the [cpuid] nodes, from node [i]:
    the data of the feature, or the error that makes the element ignored. *)
Fixpoint x86FeatureLoad_cpuids (feature_name : string) (i : nat)
         (nodes : list xml_cpuid) (data : cpuX86Data)
  : cpuX86Data + load_error :=
  match nodes with
  | [] => inl data
  | node :: rest =>
      let ret_fun := xpath_ret (attr_function node) in
      let ret_eax := xpath_ret (attr_eax node) in
      let ret_ebx := xpath_ret (attr_ebx node) in
      let ret_ecx := xpath_ret (attr_ecx node) in
      let ret_edx := xpath_ret (attr_edx node) in
      if (ret_fun <? 0) || (ret_eax =? -2) || (ret_ebx =? -2)
         || (ret_ecx =? -2) || (ret_edx =? -2)
      then inr (Invalid_cpuid_in_feature i feature_name)
      else
        let cpuid :=
          {| function := wrap32 (xpath_value (attr_function node));
             eax := wrap32 (xpath_value (attr_eax node));
             ebx := wrap32 (xpath_value (attr_ebx node));
             ecx := wrap32 (xpath_value (attr_ecx node));
             edx := wrap32 (xpath_value (attr_edx node)) |} in
        x86FeatureLoad_cpuids feature_name (S i) rest
                              (x86DataAddCpuid data cpuid)
  end.

Definition x86FeatureLoad (ctxt : xml_feature) (map : x86_map) : load_result :=
  let ignore e := mk_load_result 0 map e in
  match xml_feature_name ctxt with
  | None => ignore (Some Missing_CPU_feature_name)
  | Some fname =>
      match x86FeatureFind map fname with
      | Some _ => ignore (Some (CPU_feature_already_defined fname))
      | None =>
        match xml_feature_cpuid ctxt with
        | None => ignore None
        | Some nodes =>
            match x86FeatureLoad_cpuids fname 0 nodes x86DataNew with
            | inr e => ignore (Some e)
            | inl data =>
                let feature :=
                  {| feature_name := fname; feature_data := data |} in
                mk_load_result 0
                  (mk_map (map_vendors map) (feature :: map_features map)
                          (map_models map))
                  None
            end
        end
      end
  end.

Definition x86FeatureNames_step (separator : string) (data : cpuX86Data)
           (st : string * bool) (next_feature : x86_feature) : string * bool :=
  let '(ret, first) := st in
  if x86DataIsSubset data (feature_data next_feature) then
    let ret := if negb first then (ret ++ separator)%string else ret in
    ((ret ++ feature_name next_feature)%string, false)
  else (ret, first).

Definition x86FeatureNames (map : x86_map) (separator : string)
           (data : cpuX86Data) : string :=
  fst (foldl (x86FeatureNames_step separator data) (EmptyString, true)
             (map_features map)).

Definition x86ModelNew : x86_model := mk_model None None x86DataNew.

Definition x86ModelCopy (model : x86_model) : x86_model :=
  mk_model (model_name model) (model_vendor model)
           (x86DataCopy (model_data model)).

(** The loop of [x86ModelLoad] over the [feature] nodes. *)
Fixpoint x86ModelLoad_features (map : x86_map) (mname : string)
         (nodes : list (option string)) (data : cpuX86Data)
  : cpuX86Data + load_error :=
  match nodes with
  | [] => inl data
  | None :: _ => inr (Missing_feature_name_for_model mname)
  | Some fname :: rest =>
      match x86FeatureFind map fname with
      | None => inr (Feature_required_by_model_not_found fname mname)
      | Some feature =>
          x86ModelLoad_features map mname rest
                                (x86DataAdd data (feature_data feature))
      end
  end.

Definition x86ModelLoad (ctxt : xml_model) (map : x86_map) : load_result :=
  let ignore e := mk_load_result 0 map e in
  let model := x86ModelNew in
  match xml_model_name ctxt with
  | None => ignore (Some Missing_CPU_model_name)
  | Some mname =>
      let model := mk_model (Some mname) (model_vendor model)
                            (model_data model) in
      let with_ancestor : x86_model + load_error :=
        match xml_model_model ctxt with
        | None => inl model
        | Some None => inr (Missing_ancestors_name mname)
        | Some (Some aname) =>
            match x86ModelFind map aname with
            | None => inr (Ancestor_model_not_found aname mname)
            | Some ancestor =>
                inl (mk_model (model_name model) (model_vendor ancestor)
                              (x86DataCopy (model_data ancestor)))
            end
        end in
      match with_ancestor with
      | inr e => ignore (Some e)
      | inl model =>
          let with_vendor : x86_model + load_error :=
            match xml_model_vendor ctxt with
            | None => inl model
            | Some None => inr (Invalid_vendor_element mname)
            | Some (Some vname) =>
                match x86VendorFind map vname with
                | None => inr (Unknown_vendor_referenced vname mname)
                | Some v =>
                    inl (mk_model (model_name model) (Some v)
                                  (model_data model))
                end
            end in
          match with_vendor with
          | inr e => ignore (Some e)
          | inl model =>
              match xml_model_feature ctxt with
              | None => ignore None
              | Some nodes =>
                  match x86ModelLoad_features map mname nodes
                                              (model_data model) with
                  | inr e => ignore (Some e)
                  | inl data =>
                      let model :=
                        mk_model (model_name model) (model_vendor model)
                                 data in
                      mk_load_result 0
                        (mk_map (map_vendors map) (map_features map)
                                (model :: map_models map))
                        None
                  end
              end
          end
      end
  end.

(** An element of the CPU map with its XML context. *)
Inductive cpuMapElement : Type :=
| CPU_MAP_ELEMENT_VENDOR (ctxt : xml_vendor)
| CPU_MAP_ELEMENT_FEATURE (ctxt : xml_feature)
| CPU_MAP_ELEMENT_MODEL (ctxt : xml_model)
| CPU_MAP_ELEMENT_LAST.

Definition x86MapLoadCallback (element : cpuMapElement) (map : x86_map)
  : load_result :=
  match element with
  | CPU_MAP_ELEMENT_VENDOR ctxt => x86VendorLoad ctxt map
  | CPU_MAP_ELEMENT_FEATURE ctxt => x86FeatureLoad ctxt map
  | CPU_MAP_ELEMENT_MODEL ctxt => x86ModelLoad ctxt map
  | CPU_MAP_ELEMENT_LAST => mk_load_result 0 map None
  end.

(** Modelled from the spec: [cpuMapLoad] of cpu_map.c, which is not among
    the sources.  The loader hands the elements of the map to the callback
    one after the other and fails when the callback has a negative
    result. *)
Fixpoint cpuMapLoad (elements : list cpuMapElement) (map : x86_map)
  : option x86_map :=
  match elements with
  | [] => Some map
  | element :: rest =>
      let r := x86MapLoadCallback element map in
      if load_ret r <? 0 then None else cpuMapLoad rest (load_map r)
  end.

(** [x86LoadMap], for a CPU map file with the given elements. *)
Definition x86LoadMap (cpu_map : list cpuMapElement) : option x86_map :=
  cpuMapLoad cpu_map (mk_map [] [] []).

(** ** Models from CPU definitions *)

Fixpoint x86DataFromCPUFeatures_list (map : x86_map)
         (features : list virCPUFeatureDef) (data : cpuX86Data)
  : option cpuX86Data :=
  match features with
  | [] => Some data
  | f :: rest =>
      match x86FeatureFind map (fd_name f) with
      | None => None
      | Some feature =>
          x86DataFromCPUFeatures_list map rest
                                      (x86DataAdd data (feature_data feature))
      end
  end.

Definition x86DataFromCPUFeatures (cpu : virCPUDef) (map : x86_map)
  : option cpuX86Data :=
  x86DataFromCPUFeatures_list map (cpu_features cpu) x86DataNew.

(** The loop of [x86ModelFromCPU] over [cpu->features]. *)
Fixpoint x86ModelFromCPU_features (cpu : virCPUDef) (map : x86_map)
         (policy : virCPUFeaturePolicy) (features : list virCPUFeatureDef)
         (model : x86_model) : option x86_model :=
  match features with
  | [] => Some model
  | f :: rest =>
      if bool_decide (cpu_type cpu = VIR_CPU_TYPE_GUEST)
         && negb (bool_decide (fd_policy f = policy))
      then x86ModelFromCPU_features cpu map policy rest model
      else
        match x86FeatureFind map (fd_name f) with
        | None => None
        | Some feature =>
            x86ModelFromCPU_features cpu map policy rest
              (mk_model (model_name model) (model_vendor model)
                        (x86DataAdd (model_data model) (feature_data feature)))
        end
  end.

Definition x86ModelFromCPU (cpu : virCPUDef) (map : x86_map)
           (policy : virCPUFeaturePolicy) : option x86_model :=
  if bool_decide (policy = VIR_CPU_FEATURE_REQUIRE) then
    match x86ModelFind map (cpu_model cpu) with
    | None => None
    | Some model =>
        x86ModelFromCPU_features cpu map policy (cpu_features cpu)
                                 (x86ModelCopy model)
    end
  else if bool_decide (cpu_type cpu = VIR_CPU_TYPE_HOST) then
    Some x86ModelNew
  else
    x86ModelFromCPU_features cpu map policy (cpu_features cpu) x86ModelNew.

Fixpoint x86ModelSubtractCPU_features (map : x86_map)
         (features : list virCPUFeatureDef) (model : x86_model)
  : Z * x86_model :=
  match features with
  | [] => (0, model)
  | f :: rest =>
      match x86FeatureFind map (fd_name f) with
      | None => (-1, model)
      | Some feature =>
          x86ModelSubtractCPU_features map rest
            (mk_model (model_name model) (model_vendor model)
                      (x86DataSubtract (model_data model)
                                       (feature_data feature)))
      end
  end.

Definition x86ModelSubtractCPU (model : x86_model) (cpu : virCPUDef)
           (map : x86_map) : Z * x86_model :=
  match x86ModelFind map (cpu_model cpu) with
  | None => (-1, model)
  | Some cpu_model =>
      x86ModelSubtractCPU_features map (cpu_features cpu)
        (mk_model (model_name model) (model_vendor model)
                  (x86DataSubtract (model_data model) (model_data cpu_model)))
  end.

(** The rest of a loop body of [x86ModelCompare] once [match] is known. *)
Definition compare_update (result match_ : compare_result)
  : compare_result + compare_result :=
  if bool_decide (result = EQUAL) then inl match_
  else if negb (bool_decide (result = match_)) then inr UNRELATED
  else inl result.

Definition x86ModelCompare (model1 model2 : x86_model) : compare_result :=
  let data1 := model_data model1 in
  let data2 := model_data model2 in
  match
    while_next (iter_fuel data1) (fun _ : compare_result => data1)
      (fun cpuid1 result =>
         match x86DataCpuid data2 (function (load data1 cpuid1)) with
         | Some cpuid2 =>
             if x86cpuidMatch (load data1 cpuid1) (load data2 cpuid2)
             then inl result
             else if negb (x86cpuidMatchMasked (load data1 cpuid1)
                                               (load data2 cpuid2))
             then compare_update result SUBSET
             else compare_update result SUPERSET
         | None => compare_update result SUPERSET
         end)
      EQUAL DATA_ITERATOR_INIT
  with
  | inr r => r
  | inl result =>
      match
        while_next (iter_fuel data2) (fun _ : compare_result => data2)
          (fun cpuid2 result =>
             match x86DataCpuid data1 (function (load data2 cpuid2)) with
             | Some cpuid1 =>
                 if x86cpuidMatch (load data2 cpuid2) (load data1 cpuid1)
                 then inl result
                 else if negb (x86cpuidMatchMasked (load data2 cpuid2)
                                                   (load data1 cpuid1))
                 then compare_update result SUPERSET
                 else compare_update result SUBSET
             | None => compare_update result SUBSET
             end)
          result DATA_ITERATOR_INIT
      with
      | inr r => r
      | inl result => result
      end
  end.

(** ** The compute pipeline *)

Inductive virCPUCompareResult : Type :=
| VIR_CPU_COMPARE_ERROR
| VIR_CPU_COMPARE_INCOMPATIBLE
| VIR_CPU_COMPARE_IDENTICAL
| VIR_CPU_COMPARE_SUPERSET.

#[global] Instance virCPUCompareResult_eq_dec : EqDecision virCPUCompareResult.
Proof. solve_decision. Defined.

Record virCPUData : Type := mk_cpu_data {
  data_arch : virArch;
  data_x86 : cpuX86Data
}.

Definition x86MakeCPUData (arch : virArch) (data : cpuX86Data) : virCPUData :=
  mk_cpu_data arch data.

(** The text stored in [*message], by the format that produced it. *)
Inductive compute_message : Type :=
| CPU_arch_does_not_match_host_arch (arch : virArch)
| host_CPU_vendor_does_not_match (vendor : string)
| incompatible_features (MSG flagsStr : string)   (* "%s: %s" *).

(** What [x86Compute] returns and what it stores through its two output
    pointers; nothing is stored through a pointer that is [NULL]. *)
Record compute_result : Type := mk_compute_result {
  compute_ret : virCPUCompareResult;
  compute_message_out : option compute_message;
  compute_guest : option virCPUData
}.

Definition archs : list virArch := [VIR_ARCH_I686; VIR_ARCH_X86_64].

(** The macro [virX86CpuIncompatible] followed by [goto out]. *)
Definition virX86CpuIncompatible (map : x86_map) (message : bool)
           (MSG : string) (CPU_DEF : cpuX86Data) : compute_result :=
  let flagsStr := x86FeatureNames map ", " CPU_DEF in
  mk_compute_result VIR_CPU_COMPARE_INCOMPATIBLE
    (if message then Some (incompatible_features MSG flagsStr) else None)
    None.

Definition compute_error : compute_result :=
  mk_compute_result VIR_CPU_COMPARE_ERROR None None.

Definition set_data (data : cpuX86Data) (model : x86_model) : x86_model :=
  mk_model (model_name model) (model_vendor model) data.

(** [guest] and [message] tell whether the output pointers of the C
    function are given. *)
Definition x86Compute (cpu_map : list cpuMapElement) (host cpu : virCPUDef)
           (guest message : bool) : compute_result :=
  let found := existsb (fun a => bool_decide (a = cpu_arch cpu)) archs in
  if negb (bool_decide (cpu_arch cpu = VIR_ARCH_NONE)) && negb found then
    mk_compute_result VIR_CPU_COMPARE_INCOMPATIBLE
      (if message
       then Some (CPU_arch_does_not_match_host_arch (cpu_arch cpu))
       else None)
      None
  else
  let arch :=
    if negb (bool_decide (cpu_arch cpu = VIR_ARCH_NONE))
    then cpu_arch cpu else cpu_arch host in
  let vendor_mismatch :=
    match cpu_vendor cpu with
    | Some cv =>
        match cpu_vendor host with
        | None => true
        | Some hv => STRNEQ cv hv
        end
    | None => false
    end in
  if vendor_mismatch then
    mk_compute_result VIR_CPU_COMPARE_INCOMPATIBLE
      (if message
       then Some (host_CPU_vendor_does_not_match
                    (default EmptyString (cpu_vendor cpu)))
       else None)
      None
  else
  match x86LoadMap cpu_map with
  | None => compute_error
  | Some map =>
  match x86ModelFromCPU host map VIR_CPU_FEATURE_REQUIRE with
  | None => compute_error
  | Some host_model =>
  match x86ModelFromCPU cpu map VIR_CPU_FEATURE_FORCE with
  | None => compute_error
  | Some cpu_force =>
  match x86ModelFromCPU cpu map VIR_CPU_FEATURE_REQUIRE with
  | None => compute_error
  | Some cpu_require =>
  match x86ModelFromCPU cpu map VIR_CPU_FEATURE_OPTIONAL with
  | None => compute_error
  | Some cpu_optional =>
  match x86ModelFromCPU cpu map VIR_CPU_FEATURE_DISABLE with
  | None => compute_error
  | Some cpu_disable =>
  match x86ModelFromCPU cpu map VIR_CPU_FEATURE_FORBID with
  | None => compute_error
  | Some cpu_forbid =>
  let cpu_forbid :=
    set_data (x86DataIntersect (model_data cpu_forbid) (model_data host_model))
             cpu_forbid in
  if negb (x86DataIsEmpty (model_data cpu_forbid)) then
    virX86CpuIncompatible map message "Host CPU provides forbidden features"
                          (model_data cpu_forbid)
  else
  (* first remove features that were inherited from the CPU model and were
     explicitly forced, disabled, or made optional *)
  let cpu_require :=
    set_data (x86DataSubtract (model_data cpu_require) (model_data cpu_force))
             cpu_require in
  let cpu_require :=
    set_data (x86DataSubtract (model_data cpu_require)
                              (model_data cpu_optional))
             cpu_require in
  let cpu_require :=
    set_data (x86DataSubtract (model_data cpu_require) (model_data cpu_disable))
             cpu_require in
  let result := x86ModelCompare host_model cpu_require in
  if bool_decide (result = SUBSET) || bool_decide (result = UNRELATED) then
    let cpu_require :=
      set_data (x86DataSubtract (model_data cpu_require)
                                (model_data host_model))
               cpu_require in
    virX86CpuIncompatible map message
      "Host CPU does not provide required features" (model_data cpu_require)
  else
  let ret := VIR_CPU_COMPARE_IDENTICAL in
  let diff := x86ModelCopy host_model in
  let diff :=
    set_data (x86DataSubtract (model_data diff) (model_data cpu_optional))
             diff in
  let diff :=
    set_data (x86DataSubtract (model_data diff) (model_data cpu_require))
             diff in
  let diff :=
    set_data (x86DataSubtract (model_data diff) (model_data cpu_disable))
             diff in
  let diff :=
    set_data (x86DataSubtract (model_data diff) (model_data cpu_force))
             diff in
  let ret :=
    if negb (x86DataIsEmpty (model_data diff))
    then VIR_CPU_COMPARE_SUPERSET else ret in
  if bool_decide (ret = VIR_CPU_COMPARE_SUPERSET)
     && bool_decide (cpu_type cpu = VIR_CPU_TYPE_GUEST)
     && bool_decide (cpu_match cpu = VIR_CPU_MATCH_STRICT) then
    virX86CpuIncompatible map message
      "Host CPU does not strictly match guest CPU: Extra features"
      (model_data diff)
  else
  if guest then
    let guest_model := x86ModelCopy host_model in
    let guest_model :=
      if bool_decide (cpu_type cpu = VIR_CPU_TYPE_GUEST)
         && bool_decide (cpu_match cpu = VIR_CPU_MATCH_EXACT)
      then set_data (x86DataSubtract (model_data guest_model)
                                     (model_data diff)) guest_model
      else guest_model in
    let guest_model :=
      set_data (x86DataAdd (model_data guest_model) (model_data cpu_force))
               guest_model in
    let guest_model :=
      set_data (x86DataSubtract (model_data guest_model)
                                (model_data cpu_disable))
               guest_model in
    let guestData := x86DataCopy (model_data guest_model) in
    mk_compute_result ret None (Some (x86MakeCPUData arch guestData))
  else
    mk_compute_result ret None None
  end end end end end end end.

Definition x86Compare (cpu_map : list cpuMapElement) (host cpu : virCPUDef)
  : virCPUCompareResult :=
  compute_ret (x86Compute cpu_map host cpu false false).

Definition x86GuestData (cpu_map : list cpuMapElement)
           (host guest : virCPUDef) (data message : bool) : compute_result :=
  x86Compute cpu_map host guest data message.

(** ** Decoding *)

Definition VIR_CONNECT_BASELINE_CPU_EXPAND_FEATURES : Z := 1.

(** The loop of [x86Decode] over the features of a candidate when the CPU
    is a host CPU: [None] when a feature is disabled ([goto next]). *)
Fixpoint x86Decode_host_features (features : list virCPUFeatureDef)
  : option (list virCPUFeatureDef) :=
  match features with
  | [] => Some []
  | f :: rest =>
      match fd_policy f with
      | VIR_CPU_FEATURE_DISABLE => None
      | _ =>
          match x86Decode_host_features rest with
          | None => None
          | Some rest' =>
              Some (mk_feature_def (fd_name f) VIR_CPU_FEATURE_UNSET :: rest')
          end
      end
  end.

Section Decode.

Variable virCPUDefAddFeature :
  virCPUDef -> string -> virCPUFeaturePolicy -> Z * virCPUDef.

(** [cpuModelIsAllowed] of the generic CPU driver, with the array
    [models] of [nmodels] names as a list. *)
Variable cpuModelIsAllowed : string -> list string -> bool.

(** [virCheckFlags]: whether [flags] has only bits of [supported]. *)
Variable virCheckFlags : Z -> Z -> bool.

(** How one round of the candidate loop of [x86Decode] ends. *)
Inductive decode_round : Type :=
| decode_out                         (* goto out *)
| decode_next (cpuModel : option (virCPUDef * cpuX86Data))
                                     (* next: *)
| decode_break (cpuModel : option (virCPUDef * cpuX86Data)).

(** One round for [candidate]; [cpuModel] and [cpuData] are kept as one
    optional pair, as they are set and cleared together. *)
Definition x86Decode_round (cpu : virCPUDef) (data : cpuX86Data)
           (map : x86_map) (models : list string) (preferred : option string)
           (candidate : x86_model)
           (cpuModel : option (virCPUDef * cpuX86Data)) : decode_round :=
  let candidate_name := default EmptyString (model_name candidate) in
  let is_preferred (n : string) :=
    match preferred with Some p => STREQ n p | None => false end in
  if negb (cpuModelIsAllowed candidate_name models) then
    if is_preferred candidate_name
       && negb (bool_decide (cpu_fallback cpu = VIR_CPU_FALLBACK_ALLOW))
    then decode_out
    else decode_next cpuModel
  else
  match x86DataToCPU virCPUDefAddFeature data candidate map with
  | None => decode_out
  | Some cpuCandidate =>
      let vendor_differs :=
        match model_vendor candidate, cpu_vendor cpuCandidate with
        | Some cv, Some v => STRNEQ (vendor_name cv) v
        | _, _ => false
        end in
      if vendor_differs then decode_next cpuModel
      else
      let host_checked :=
        if bool_decide (cpu_type cpu = VIR_CPU_TYPE_HOST) then
          match x86Decode_host_features (cpu_features cpuCandidate) with
          | None => None
          | Some features' =>
              Some (set_features features'
                      (set_type VIR_CPU_TYPE_HOST cpuCandidate))
          end
        else Some cpuCandidate in
      match host_checked with
      | None => decode_next cpuModel
      | Some cpuCandidate =>
          if is_preferred (cpu_model cpuCandidate) then
            decode_break (Some (cpuCandidate, model_data candidate))
          else
            match cpuModel with
            | None =>
                decode_next (Some (cpuCandidate, model_data candidate))
            | Some (cpuModel', _) =>
                if (nfeatures cpuCandidate <? nfeatures cpuModel')%nat
                then decode_next (Some (cpuCandidate, model_data candidate))
                else decode_next cpuModel
            end
      end
  end.

(** The [while (candidate != NULL)] loop: [None] for [goto out], or the
    chosen [cpuModel] with its [cpuData]. *)
Fixpoint x86Decode_loop (cpu : virCPUDef) (data : cpuX86Data)
         (map : x86_map) (models : list string) (preferred : option string)
         (candidate : list x86_model)
         (cpuModel : option (virCPUDef * cpuX86Data))
  : option (option (virCPUDef * cpuX86Data)) :=
  match candidate with
  | [] => Some cpuModel
  | c :: next =>
      match x86Decode_round cpu data map models preferred c cpuModel with
      | decode_out => None
      | decode_break cpuModel' => Some cpuModel'
      | decode_next cpuModel' =>
          x86Decode_loop cpu data map models preferred next cpuModel'
      end
  end.

(** The result of [x86Decode] and the [cpu] it leaves. *)
Definition x86Decode (cpu_map : list cpuMapElement) (cpu : virCPUDef)
           (data : option cpuX86Data) (models : list string)
           (preferred : option string) (flags : Z) : Z * virCPUDef :=
  if negb (virCheckFlags VIR_CONNECT_BASELINE_CPU_EXPAND_FEATURES flags)
  then (-1, cpu)
  else
  match data, x86LoadMap cpu_map with
  | Some data, Some map =>
      match x86Decode_loop cpu data map models preferred (map_models map) None
      with
      | None => (-1, cpu)
      | Some None => (-1, cpu)
      | Some (Some (cpuModel, cpuData)) =>
          let expanded : option virCPUDef :=
            if negb (Z.land flags VIR_CONNECT_BASELINE_CPU_EXPAND_FEATURES
                     =? 0) then
              let copy := x86DataCopy cpuData in
              match x86DataFromCPUFeatures cpuModel map with
              | None => None
              | Some features =>
                  let copy := x86DataSubtract copy features in
                  let '(r, cpuModel, _) :=
                    x86DataToCPUFeatures virCPUDefAddFeature cpuModel
                      VIR_CPU_FEATURE_REQUIRE copy map in
                  if r <? 0 then None else Some cpuModel
              end
            else Some cpuModel in
          match expanded with
          | None => (-1, cpu)
          | Some cpuModel =>
              (0, set_features (cpu_features cpuModel)
                    (set_vendor (cpu_vendor cpuModel)
                       (set_model (cpu_model cpuModel) cpu)))
          end
      end
  | _, _ => (-1, cpu)
  end.

End Decode.

(** ** Update *)

(** The loop of [x86UpdateCustom] over [guest->features]: whether it ran to
    the end, and the features it leaves in the guest. *)
Fixpoint x86UpdateCustom_features (map : x86_map) (host_model : x86_model)
         (features : list virCPUFeatureDef) : bool * list virCPUFeatureDef :=
  match features with
  | [] => (true, [])
  | f :: rest =>
      if bool_decide (fd_policy f = VIR_CPU_FEATURE_OPTIONAL) then
        match x86FeatureFind map (fd_name f) with
        | None => (false, f :: rest)
        | Some feature =>
            let f' :=
              if x86DataIsSubset (model_data host_model) (feature_data feature)
              then mk_feature_def (fd_name f) VIR_CPU_FEATURE_REQUIRE
              else mk_feature_def (fd_name f) VIR_CPU_FEATURE_DISABLE in
            let '(ok, rest') := x86UpdateCustom_features map host_model rest in
            (ok, f' :: rest')
        end
      else
        let '(ok, rest') := x86UpdateCustom_features map host_model rest in
        (ok, f :: rest')
  end.

Section Update.

Variable virCPUDefAddFeature :
  virCPUDef -> string -> virCPUFeaturePolicy -> Z * virCPUDef.

(** The functions of the CPU configuration module that [x86Update] calls;
    each gives its result and the definition it leaves in its first
    argument. *)
Variable virCPUDefFreeModel : virCPUDef -> virCPUDef.
Variable virCPUDefCopyModel : virCPUDef -> virCPUDef -> bool -> Z * virCPUDef.
Variable virCPUDefCopy : virCPUDef -> option virCPUDef.
Variable virCPUDefUpdateFeature :
  virCPUDef -> string -> virCPUFeaturePolicy -> Z * virCPUDef.

(** The result of [x86UpdateCustom] and the [guest] it leaves. *)
Definition x86UpdateCustom (cpu_map : list cpuMapElement)
           (guest host : virCPUDef) : Z * virCPUDef :=
  match x86LoadMap cpu_map with
  | None => (-1, guest)
  | Some map =>
      match x86ModelFromCPU host map VIR_CPU_FEATURE_REQUIRE with
      | None => (-1, guest)
      | Some host_model =>
          let '(ok, features') :=
            x86UpdateCustom_features map host_model (cpu_features guest) in
          let guest := set_features features' guest in
          if negb ok then (-1, guest)
          else if bool_decide (cpu_match guest = VIR_CPU_MATCH_MINIMUM) then
            let guest := set_match VIR_CPU_MATCH_EXACT guest in
            let '(r, host_model) :=
              x86ModelSubtractCPU host_model guest map in
            if negb (r =? 0) then (-1, guest)
            else
              let '(r, guest, _) :=
                x86DataToCPUFeatures virCPUDefAddFeature guest
                  VIR_CPU_FEATURE_REQUIRE (model_data host_model) map in
              if negb (r =? 0) then (-1, guest) else (0, guest)
          else (0, guest)
      end
  end.

Fixpoint x86UpdateHostModel_features (guest : virCPUDef)
         (features : list virCPUFeatureDef) : Z * virCPUDef :=
  match features with
  | [] => (0, guest)
  | f :: rest =>
      let '(r, guest) :=
        virCPUDefUpdateFeature guest (fd_name f) (fd_policy f) in
      if r <? 0 then (-1, guest)
      else x86UpdateHostModel_features guest rest
  end.

Definition x86UpdateHostModel (guest host : virCPUDef) : Z * virCPUDef :=
  let guest := set_match VIR_CPU_MATCH_EXACT guest in
  (* no updates are required *)
  if (nfeatures guest =? 0)%nat then
    virCPUDefCopyModel (virCPUDefFreeModel guest) host true
  else
    (* update the host model according to the desired configuration *)
    match virCPUDefCopy guest with
    | None => (-1, guest)
    | Some oldguest =>
        let guest := virCPUDefFreeModel guest in
        let '(r, guest) := virCPUDefCopyModel guest host true in
        if r <? 0 then (-1, guest)
        else x86UpdateHostModel_features guest (cpu_features oldguest)
    end.

Definition x86Update (cpu_map : list cpuMapElement)
           (guest host : virCPUDef) : Z * virCPUDef :=
  match cpu_mode guest with
  | VIR_CPU_MODE_CUSTOM => x86UpdateCustom cpu_map guest host
  | VIR_CPU_MODE_HOST_MODEL => x86UpdateHostModel guest host
  | VIR_CPU_MODE_HOST_PASSTHROUGH =>
      let guest := set_match VIR_CPU_MATCH_MINIMUM guest in
      virCPUDefCopyModel (virCPUDefFreeModel guest) host true
  | VIR_CPU_MODE_LAST => (-1, guest)
  end.

End Update.

(** ** Feature probe *)

Definition x86HasFeature (cpu_map : list cpuMapElement) (data : virCPUData)
           (name : string) : Z :=
  match x86LoadMap cpu_map with
  | None => -1
  | Some map =>
      let ret := -1 in
      match x86FeatureFind map name with
      | None => ret
      | Some feature =>
          if x86DataIsSubset (data_x86 data) (feature_data feature)
          then 1 else 0
      end
  end.

(** ** Encoding *)

Definition x86EncodePolicy (cpu : virCPUDef) (map : x86_map)
           (policy : virCPUFeaturePolicy) : option cpuX86Data :=
  match x86ModelFromCPU cpu map policy with
  | None => None
  | Some model => Some (model_data model)
  end.

(** What [x86Encode] returns and what it leaves in its six output
    pointers.  An output is [None] when its pointer is [NULL] or holds
    [NULL]; the CPU data made for the vendor has [data.x86 = NULL] when the
    CPU names no vendor. *)
Record encode_result : Type := mk_encode_result {
  encode_ret : Z;
  encode_forced : option virCPUData;
  encode_required : option virCPUData;
  encode_optional : option virCPUData;
  encode_disabled : option virCPUData;
  encode_forbidden : option virCPUData;
  encode_vendor : option (virArch * option cpuX86Data)
}.

Definition encode_error : encode_result :=
  mk_encode_result (-1) None None None None None None.

(** The data for one output of [x86Encode]: [None] for [goto error],
    [Some None] when the output is not asked for. *)
Definition x86Encode_policy (wanted : bool) (cpu : virCPUDef) (map : x86_map)
           (policy : virCPUFeaturePolicy) : option (option cpuX86Data) :=
  if wanted then
    match x86EncodePolicy cpu map policy with
    | None => None
    | Some data => Some (Some data)
    end
  else Some None.

(** [forced] ... [vendor] tell which output pointers are given. *)
Definition x86Encode (cpu_map : list cpuMapElement) (arch : virArch)
           (cpu : virCPUDef)
           (forced required optional disabled forbidden vendor : bool)
  : encode_result :=
  match x86LoadMap cpu_map with
  | None => encode_error
  | Some map =>
  match x86Encode_policy forced cpu map VIR_CPU_FEATURE_FORCE with
  | None => encode_error
  | Some data_forced =>
  match x86Encode_policy required cpu map VIR_CPU_FEATURE_REQUIRE with
  | None => encode_error
  | Some data_required =>
  match x86Encode_policy optional cpu map VIR_CPU_FEATURE_OPTIONAL with
  | None => encode_error
  | Some data_optional =>
  match x86Encode_policy disabled cpu map VIR_CPU_FEATURE_DISABLE with
  | None => encode_error
  | Some data_disabled =>
  match x86Encode_policy forbidden cpu map VIR_CPU_FEATURE_FORBID with
  | None => encode_error
  | Some data_forbidden =>
  let data_vendor : option (option cpuX86Data) :=
    if vendor then
      match cpu_vendor cpu with
      | Some name =>
          match x86VendorFind map name with
          | None => None
          | Some v => Some (Some (x86DataAddCpuid x86DataNew (vendor_cpuid v)))
          end
      | None => Some None
      end
    else Some None in
  match data_vendor with
  | None => encode_error
  | Some data_vendor =>
      mk_encode_result 0
        (x86MakeCPUData arch <$> data_forced)
        (x86MakeCPUData arch <$> data_required)
        (x86MakeCPUData arch <$> data_optional)
        (x86MakeCPUData arch <$> data_disabled)
        (x86MakeCPUData arch <$> data_forbidden)
        (if vendor then Some (arch, data_vendor) else None)
  end end end end end end end.

(** ** Baseline *)

Definition set_arch (a : virArch) (cpu : virCPUDef) : virCPUDef :=
  mk_cpu_def (cpu_type cpu) (cpu_mode cpu) a (cpu_match cpu)
             (cpu_fallback cpu) (cpu_model cpu) (cpu_vendor cpu)
             (cpu_features cpu).

(** The variables that the loop of [x86Baseline] over [cpus[1..]]
    changes. *)
Record baseline_state : Type := mk_baseline_state {
  baseline_vendor : option x86_vendor;
  baseline_outputVendor : bool;
  baseline_base_model : x86_model
}.

(** One round of that loop, for [cpus[i]]; [None] for [goto error]. *)
Definition x86Baseline_round (map : x86_map) (cpu_i : virCPUDef)
           (st : baseline_state) : option baseline_state :=
  match x86ModelFromCPU cpu_i map VIR_CPU_FEATURE_REQUIRE with
  | None => None
  | Some model =>
      let differs :=
        match cpu_vendor cpu_i, model_vendor model with
        | Some cv, Some mv => STRNEQ cv (vendor_name mv)
        | _, _ => false
        end in
      if differs then None
      else
        let '(vn, outputVendor) :=
          match cpu_vendor cpu_i with
          | Some cv => (Some cv, baseline_outputVendor st)
          | None => (vendor_name <$> model_vendor model, false)
          end in
        let vendor : option (option x86_vendor) :=
          match vn with
          | Some vn =>
              match baseline_vendor st with
              | None =>
                  match x86VendorFind map vn with
                  | None => None
                  | Some v => Some (Some v)
                  end
              | Some v =>
                  if STRNEQ (vendor_name v) vn then None else Some (Some v)
              end
          | None => Some (baseline_vendor st)
          end in
        match vendor with
        | None => None
        | Some vendor =>
            Some (mk_baseline_state vendor outputVendor
                    (set_data
                       (x86DataIntersect
                          (model_data (baseline_base_model st))
                          (model_data model))
                       (baseline_base_model st)))
        end
  end.

Fixpoint x86Baseline_loop (map : x86_map) (cpus : list virCPUDef)
         (st : baseline_state) : option baseline_state :=
  match cpus with
  | [] => Some st
  | cpu_i :: rest =>
      match x86Baseline_round map cpu_i st with
      | None => None
      | Some st' => x86Baseline_loop map rest st'
      end
  end.

Section Baseline.

Variable virCPUDefAddFeature :
  virCPUDef -> string -> virCPUFeaturePolicy -> Z * virCPUDef.
Variable cpuModelIsAllowed : string -> list string -> bool.
Variable virCheckFlags : Z -> Z -> bool.

Definition x86DecodeCPUData (cpu_map : list cpuMapElement) (cpu : virCPUDef)
           (data : virCPUData) (models : list string)
           (preferred : option string) (flags : Z) : Z * virCPUDef :=
  x86Decode virCPUDefAddFeature cpuModelIsAllowed virCheckFlags
            cpu_map cpu (Some (data_x86 data)) models preferred flags.

(** [x86Baseline] for the array [cpus] of [ncpus] definitions, which holds
    [cpus[0]] and the list [cpus_rest]; the result is [None] for [NULL].
    The function reads [cpus[0]] whatever [ncpus] is, so it is not called
    with an empty array. *)
Definition x86Baseline (cpu_map : list cpuMapElement)
           (cpus0 : virCPUDef) (cpus_rest : list virCPUDef)
           (models : list string) (flags : Z) : option virCPUDef :=
  match x86LoadMap cpu_map with
  | None => None
  | Some map =>
  match x86ModelFromCPU cpus0 map VIR_CPU_FEATURE_REQUIRE with
  | None => None
  | Some base_model =>
  let cpu :=
    set_match VIR_CPU_MATCH_EXACT
      (set_type VIR_CPU_TYPE_GUEST (set_arch (cpu_arch cpus0) virCPUDefNew)) in
  let start : option baseline_state :=
    match cpu_vendor cpus0 with
    | None => Some (mk_baseline_state None false base_model)
    | Some name =>
        match x86VendorFind map name with
        | None => None
        | Some v => Some (mk_baseline_state (Some v) true base_model)
        end
    end in
  match start with
  | None => None
  | Some st =>
  match x86Baseline_loop map cpus_rest st with
  | None => None
  | Some st =>
  let base_model := baseline_base_model st in
  if x86DataIsEmpty (model_data base_model) then None
  else
  let base_model :=
    match baseline_vendor st with
    | Some v =>
        set_data (x86DataAddCpuid (model_data base_model) (vendor_cpuid v))
                 base_model
    | None => base_model
    end in
  let '(r, cpu) :=
    x86Decode virCPUDefAddFeature cpuModelIsAllowed virCheckFlags
              cpu_map cpu (Some (model_data base_model)) models None flags in
  if r <? 0 then None
  else
  let cpu := if negb (baseline_outputVendor st)
             then set_vendor None cpu else cpu in
  Some (set_arch VIR_ARCH_NONE cpu)
  end end end end.

End Baseline.

(** * Properties *)

(** ** Counted loops over an array *)

Section ForLoop.
Context {A : Type}.
Implicit Types (l : list A) (f : nat -> A -> A).

Lemma for_loop_alter_off_length f off n k l :
  length (for_loop n k (fun i l => alter (f i) (off + i)%nat l) l) = length l.
Proof.
  revert k l. induction n as [|n IH]; intros k l; simpl; [done|].
  by rewrite IH, length_alter.
Qed.

Lemma for_loop_alter_off_lookup f off n k l j :
  for_loop n k (fun i l => alter (f i) (off + i)%nat l) l !! j =
  if bool_decide (off + k <= j < off + k + n)%nat
  then f (j - off)%nat <$> l !! j
  else l !! j.
Proof.
  revert k l. induction n as [|n IH]; intros k l; simpl.
  - case_bool_decide; [lia|done].
  - rewrite IH. destruct (decide (off + k = j)%nat) as [<-|Hne].
    + rewrite list_lookup_alter_eq.
      replace (off + k - off)%nat with k by lia.
      repeat case_bool_decide; try lia; done.
    + rewrite list_lookup_alter_ne by done.
      repeat case_bool_decide; try lia; done.
Qed.

Lemma for_loop_alter_length f n k l :
  length (for_loop n k (fun i l => alter (f i) i l) l) = length l.
Proof. apply (for_loop_alter_off_length f 0). Qed.

Lemma for_loop_alter_lookup f n k l j :
  for_loop n k (fun i l => alter (f i) i l) l !! j =
  if bool_decide (k <= j < k + n)%nat then f j <$> l !! j else l !! j.
Proof.
  pose proof (for_loop_alter_off_lookup f 0 n k l j) as H.
  simpl in H. rewrite H. by rewrite Nat.sub_0_r.
Qed.

Lemma for_loop_insert_lookup (g : nat -> A) n k l j :
  for_loop n k (fun i l => <[i := g i]> l) l !! j =
  if bool_decide (k <= j < k + n)%nat
  then (fun _ => g j) <$> l !! j
  else l !! j.
Proof.
  revert k l. induction n as [|n IH]; intros k l; simpl.
  - case_bool_decide; [lia|done].
  - rewrite IH. destruct (decide (k = j)) as [<-|Hne].
    + destruct (decide (k < length l)%nat) as [Hlt|Hge].
      * rewrite list_lookup_insert_eq by done.
        destruct (lookup_lt_is_Some_2 l k Hlt) as [x Hx]. rewrite Hx.
        repeat case_bool_decide; try lia; done.
      * rewrite list_insert_ge by lia.
        rewrite (lookup_ge_None_2 l k) by lia.
        repeat case_bool_decide; done.
    + rewrite list_lookup_insert_ne by done.
      repeat case_bool_decide; try lia; done.
Qed.
End ForLoop.

(** ** Registers as bit sets *)

Lemma testbit_not32 x i :
  0 <= i -> Z.testbit (not32 x) i = (i <? 32) && negb (Z.testbit x i).
Proof.
  intros Hi. unfold not32, wrap32.
  destruct (Z.ltb_spec i 32).
  - rewrite Z.mod_pow2_bits_low by lia. by rewrite Z.lnot_spec by lia.
  - by rewrite Z.mod_pow2_bits_high by lia.
Qed.

Lemma land_not32_self x : Z.land x (not32 x) = 0.
Proof.
  apply Z.bits_inj'. intros i Hi.
  rewrite Z.land_spec, testbit_not32, Z.bits_0 by done.
  destruct (Z.testbit x i), (i <? 32); done.
Qed.

Lemma land_not32_lor x a b :
  Z.land (Z.land x (not32 a)) (not32 b) = Z.land x (not32 (Z.lor a b)).
Proof.
  apply Z.bits_inj'. intros i Hi.
  rewrite !Z.land_spec, !testbit_not32, Z.lor_spec by done.
  destruct (Z.testbit x i), (Z.testbit a i), (Z.testbit b i), (i <? 32); done.
Qed.

Lemma land_not32_0 x : 0 <= x < 2 ^ 32 -> Z.land x (not32 0) = x.
Proof.
  intros Hx. apply Z.bits_inj'. intros i Hi.
  rewrite Z.land_spec, testbit_not32, Z.bits_0 by done. simpl.
  destruct (Z.ltb_spec i 32); [by rewrite andb_true_r|].
  rewrite andb_false_r. symmetry.
  rewrite <- (Z.mod_small x (2 ^ 32)) by done.
  by rewrite Z.mod_pow2_bits_high by lia.
Qed.

Lemma land_range x y : 0 <= x < 2 ^ 32 -> 0 <= Z.land x y < 2 ^ 32.
Proof.
  intros [H0 H1]. split; [apply Z.land_nonneg; by left|].
  assert (Z.land x y <= x); [|lia].
  apply Z.ldiff_le; [lia|].
  apply Z.bits_inj'. intros i Hi.
  rewrite Z.ldiff_spec, Z.land_spec, Z.bits_0.
  destruct (Z.testbit x i), (Z.testbit y i); done.
Qed.

Lemma lor_range x y :
  0 <= x < 2 ^ 32 -> 0 <= y < 2 ^ 32 -> 0 <= Z.lor x y < 2 ^ 32.
Proof.
  intros Hx Hy. split; [apply Z.lor_nonneg; lia|].
  destruct (decide (Z.lor x y = 0)) as [->|Hne]; [done|].
  apply Z.log2_lt_pow2; [pose proof (Z.lor_nonneg x y); lia|].
  rewrite Z.log2_lor by lia.
  apply Z.max_lub_lt.
  - destruct (decide (x = 0)) as [->|?]; [done|]. apply Z.log2_lt_pow2; lia.
  - destruct (decide (y = 0)) as [->|?]; [done|]. apply Z.log2_lt_pow2; lia.
Qed.

(** ** The shape of the data store after each operation *)

(** The tuples [x86DataExpand] appends: zeroed, with [function] set to the
    index plus [base]. *)
Definition padding (base : Z) (len n : nat) : list cpuX86cpuid :=
  (fun i => mk_cpuid (wrap32 (Z.of_nat i + base)) 0 0 0 0) <$> seq len n.

Lemma length_padding base len n : length (padding base len n) = n.
Proof. unfold padding. by rewrite length_fmap, length_seq. Qed.

Lemma lookup_padding base len n j :
  (j < n)%nat ->
  padding base len n !! j =
  Some (mk_cpuid (wrap32 (Z.of_nat (len + j) + base)) 0 0 0 0).
Proof.
  intros Hj. unfold padding. rewrite list_lookup_fmap.
  by rewrite lookup_seq_lt by done.
Qed.

Lemma expand_loop (g : Z -> Z) (l0 : list cpuX86cpuid) n :
  for_loop n 0
    (fun i l => alter (set_function (g (Z.of_nat (length l0 + i))))
                      (length l0 + i)%nat l)
    (l0 ++ replicate n cpuidNull) =
  l0 ++ ((fun i => mk_cpuid (wrap32 (g (Z.of_nat i))) 0 0 0 0)
           <$> seq (length l0) n).
Proof.
  apply list_eq. intros j.
  rewrite (for_loop_alter_off_lookup
             (fun i => set_function (g (Z.of_nat (length l0 + i))))).
  destruct (decide (j < length l0)%nat) as [Hlt|Hge].
  - rewrite bool_decide_eq_false_2 by lia. by rewrite !lookup_app_l by done.
  - rewrite !lookup_app_r by lia.
    destruct (decide (j - length l0 < n)%nat) as [Hin|Hout].
    + rewrite bool_decide_eq_true_2 by lia.
      rewrite lookup_replicate_2 by done.
      rewrite list_lookup_fmap, lookup_seq_lt by done. done.
    + rewrite bool_decide_eq_false_2 by lia.
      rewrite (proj1 (lookup_replicate_None _ _ _)) by lia.
      rewrite list_lookup_fmap, lookup_seq_ge by lia. done.
Qed.

Lemma x86DataExpand_basic data basic_by extended_by :
  basic (x86DataExpand data basic_by extended_by) =
  basic data ++ padding 0 (length (basic data)) (Z.to_nat basic_by).
Proof.
  unfold x86DataExpand.
  assert (basic (if basic_by >? 0
                 then mk_data
                        (for_loop (Z.to_nat basic_by) 0
                           (fun i l =>
                              alter (set_function
                                       (Z.of_nat (length (basic data) + i)))
                                    (length (basic data) + i)%nat l)
                           (VIR_EXPAND_N (basic data) basic_by))
                        (extended data)
                 else data) =
          basic data ++ padding 0 (length (basic data)) (Z.to_nat basic_by))
    as Hb.
  { destruct (Z.gtb_spec basic_by 0) as [Hpos|Hneg]; simpl.
    - unfold VIR_EXPAND_N. rewrite (expand_loop (fun z => z)).
      unfold padding. f_equal. apply list_fmap_ext. intros _ i _.
      by rewrite Z.add_0_r.
    - replace (Z.to_nat basic_by) with 0%nat by lia.
      unfold padding. simpl. by rewrite app_nil_r. }
  destruct (extended_by >? 0); simpl; exact Hb.
Qed.

Lemma x86DataExpand_extended data basic_by extended_by :
  extended (x86DataExpand data basic_by extended_by) =
  extended data ++
    padding CPUX86_EXTENDED (length (extended data)) (Z.to_nat extended_by).
Proof.
  unfold x86DataExpand.
  set (data1 := if basic_by >? 0 then _ else data).
  assert (extended data1 = extended data) as He
    by (subst data1; destruct (basic_by >? 0); done).
  destruct (Z.gtb_spec extended_by 0) as [Hpos|Hneg]; simpl.
  - unfold VIR_EXPAND_N. rewrite He.
    by rewrite (expand_loop (fun z => z + CPUX86_EXTENDED)).
  - rewrite He. replace (Z.to_nat extended_by) with 0%nat by lia.
    unfold padding. simpl. by rewrite app_nil_r.
Qed.

Lemma x86DataCopy_eq data : x86DataCopy data = data.
Proof.
  destruct data as [b e]. unfold x86DataCopy. simpl.
  f_equal; apply list_eq; intros j; rewrite for_loop_insert_lookup;
    (case_bool_decide as Hj;
     [ rewrite lookup_replicate_2 by lia; simpl;
       symmetry; apply list_lookup_lookup_total_lt; lia
     | rewrite (proj1 (lookup_replicate_None _ _ _)) by lia;
       symmetry; apply lookup_ge_None_2; lia ]).
Qed.

Lemma store_basic data p f :
  basic (store data p f) =
  if in_extended p then basic data else alter f (index p) (basic data).
Proof. unfold store. by destruct (in_extended p). Qed.

Lemma store_extended data p f :
  extended (store data p f) =
  if in_extended p then alter f (index p) (extended data) else extended data.
Proof. unfold store. by destruct (in_extended p). Qed.

Lemma x86DataSubtract_basic_lookup data1 data2 j :
  basic_len data1 < 2 ^ 32 ->
  basic (x86DataSubtract data1 data2) !! j =
  if bool_decide (j < length (basic data2))%nat
  then (fun c => x86cpuidClearBits c (basic data2 !!! j)) <$> basic data1 !! j
  else basic data1 !! j.
Proof.
  intros Hlen. unfold x86DataSubtract. simpl.
  rewrite for_loop_alter_lookup. unfold basic_len in *.
  unfold wrap32. rewrite Z.mod_small by lia.
  destruct (decide (j < length (basic data1))%nat) as [H1|H1].
  - repeat case_bool_decide; try lia; done.
  - rewrite (lookup_ge_None_2 (basic data1) j) by lia.
    repeat case_bool_decide; done.
Qed.

Lemma x86DataSubtract_extended_lookup data1 data2 j :
  extended_len data1 < 2 ^ 32 ->
  extended (x86DataSubtract data1 data2) !! j =
  if bool_decide (j < length (extended data2))%nat
  then (fun c => x86cpuidClearBits c (extended data2 !!! j))
         <$> extended data1 !! j
  else extended data1 !! j.
Proof.
  intros Hlen. unfold x86DataSubtract. simpl.
  rewrite for_loop_alter_lookup. unfold extended_len in *.
  unfold wrap32. rewrite Z.mod_small by lia.
  destruct (decide (j < length (extended data1))%nat) as [H1|H1].
  - repeat case_bool_decide; try lia; done.
  - rewrite (lookup_ge_None_2 (extended data1) j) by lia.
    repeat case_bool_decide; done.
Qed.

Lemma x86DataSubtract_length data1 data2 :
  length (basic (x86DataSubtract data1 data2)) = length (basic data1) /\
  length (extended (x86DataSubtract data1 data2)) = length (extended data1).
Proof.
  unfold x86DataSubtract. simpl. by rewrite !for_loop_alter_length.
Qed.

(** ** The structural invariant of the data store *)

(** In an array of leaves for the functions from [base] on, the tuple at
    position [i] has [function = base + i]. *)
Definition leaves_indexed (base : Z) (l : list cpuX86cpuid) : Prop :=
  forall i c, l !! i = Some c -> function c = base + Z.of_nat i.

Definition x86DataInvariant (data : cpuX86Data) : Prop :=
  leaves_indexed CPUX86_BASIC (basic data) /\
  leaves_indexed CPUX86_EXTENDED (extended data).

(** Every index of the two arrays is a function number of its range, so
    that the 32-bit [function] field can hold it. *)
Definition x86DataSized (data : cpuX86Data) : Prop :=
  basic_len data <= 2 ^ 31 /\ extended_len data <= 2 ^ 31.

(** [data'] is at least as long as [data], in both arrays. *)
Definition x86DataNotShorter (data data' : cpuX86Data) : Prop :=
  basic_len data <= basic_len data' /\ extended_len data <= extended_len data'.

Lemma leaves_indexed_spec base l :
  leaves_indexed base l <->
  function <$> l = (fun i => base + Z.of_nat i) <$> seq 0 (length l).
Proof.
  split.
  - intros H. apply list_eq. intros i. rewrite !list_lookup_fmap.
    destruct (l !! i) as [c|] eqn:Hc; simpl.
    + rewrite lookup_seq_lt by (by eapply lookup_lt_Some). simpl.
      by rewrite (H i c Hc).
    + rewrite lookup_seq_ge; [done|]. by apply lookup_ge_None.
  - intros H i c Hc.
    assert ((function <$> l) !! i = Some (function c)) as H1
      by (by rewrite list_lookup_fmap, Hc).
    rewrite H, list_lookup_fmap in H1.
    rewrite lookup_seq_lt in H1 by (by eapply lookup_lt_Some).
    simpl in H1. congruence.
Qed.

#[global] Instance leaves_indexed_dec base l : Decision (leaves_indexed base l).
Proof.
  refine (cast_if (decide (function <$> l =
                           (fun i => base + Z.of_nat i) <$> seq 0 (length l))));
    by rewrite leaves_indexed_spec.
Defined.

#[global] Instance x86DataInvariant_dec data : Decision (x86DataInvariant data).
Proof. unfold x86DataInvariant. apply _. Defined.

#[global] Instance x86DataSized_dec data : Decision (x86DataSized data).
Proof. unfold x86DataSized. apply _. Defined.

(** Neither array is so long that a difference of lengths leaves the range
    of the [int] parameters of [x86DataExpand]. *)
Definition x86DataShort (data : cpuX86Data) : Prop :=
  basic_len data < 2 ^ 31 /\ extended_len data < 2 ^ 31.

#[global] Instance x86DataShort_dec data : Decision (x86DataShort data).
Proof. unfold x86DataShort. apply _. Defined.

Lemma x86DataShort_Sized data : x86DataShort data -> x86DataSized data.
Proof. unfold x86DataShort, x86DataSized. lia. Qed.

(** The functions for which [x86DataAddCpuid] can extend the array. *)
Definition function_in_reach (c : cpuX86cpuid) : Prop :=
  function c <> 0x7fffffff /\ function c <> 0xffffffff.

#[global] Instance function_in_reach_dec c : Decision (function_in_reach c).
Proof. unfold function_in_reach. apply _. Defined.

Lemma leaves_indexed_alter base f i l :
  (forall c, function (f c) = function c) ->
  leaves_indexed base l -> leaves_indexed base (alter f i l).
Proof.
  intros Hf Hl j c. rewrite list_lookup_alter. case_decide as Hij.
  - subst j. destruct (l !! i) as [c0|] eqn:Hc0; simpl; [|done].
    intros [= <-]. rewrite Hf. by apply Hl.
  - apply Hl.
Qed.

Lemma leaves_indexed_for_loop base (f : nat -> cpuX86cpuid -> cpuX86cpuid) n k l :
  (forall i c, function (f i c) = function c) ->
  leaves_indexed base l ->
  leaves_indexed base (for_loop n k (fun i l => alter (f i) i l) l).
Proof.
  intros Hf Hl j c. rewrite for_loop_alter_lookup. case_bool_decide.
  - destruct (l !! j) as [c0|] eqn:Hc0; simpl; [|done].
    intros [= <-]. rewrite Hf. by apply Hl.
  - apply Hl.
Qed.

Lemma leaves_indexed_padding base l n :
  0 <= base ->
  base + Z.of_nat (length l + n) <= 2 ^ 32 ->
  leaves_indexed base l ->
  leaves_indexed base (l ++ padding base (length l) n).
Proof.
  intros Hbase Hfit Hl j c. rewrite lookup_app.
  destruct (l !! j) as [c0|] eqn:Hc0.
  - intros [= <-]. by apply Hl.
  - apply lookup_ge_None in Hc0. intros Hpad.
    assert (j - length l < n)%nat as Hlt.
    { apply lookup_lt_Some in Hpad. by rewrite length_padding in Hpad. }
    rewrite lookup_padding in Hpad by done. injection Hpad as <-. simpl.
    unfold wrap32. rewrite Z.mod_small by lia. lia.
Qed.

Lemma store_invariant data p f :
  (forall c, function (f c) = function c) ->
  x86DataInvariant data -> x86DataInvariant (store data p f).
Proof.
  intros Hf [Hb He]. unfold x86DataInvariant.
  rewrite store_basic, store_extended.
  destruct (in_extended p); split; auto using leaves_indexed_alter.
Qed.

Lemma store_length data p f :
  length (basic (store data p f)) = length (basic data) /\
  length (extended (store data p f)) = length (extended data).
Proof.
  rewrite store_basic, store_extended.
  destruct (in_extended p); by rewrite ?length_alter.
Qed.

Lemma x86cpuidSetBits_function c m :
  function (x86cpuidSetBits c m) = function c.
Proof. done. Qed.

Lemma x86cpuidClearBits_function c m :
  function (x86cpuidClearBits c m) = function c.
Proof. done. Qed.

Lemma x86cpuidAndBits_function c m :
  function (x86cpuidAndBits c m) = function c.
Proof. done. Qed.

(** The loops over the iterator keep what every round keeps. *)
Lemma while_next_preserves {St R : Type} (P : St -> Prop) fuel
      (data_of : St -> cpuX86Data) (body : cpuid_ptr -> St -> St + R) s iter s' :
  (forall p s1 s2, P s1 -> body p s1 = inl s2 -> P s2) ->
  P s ->
  while_next fuel data_of body s iter = inl s' ->
  P s'.
Proof.
  intros Hbody. revert s iter.
  induction fuel as [|fuel IH]; intros s iter Hs; simpl.
  - by intros [= <-].
  - destruct (x86DataCpuidNext (data_of s) iter) as [[p|] iter'].
    + destruct (body p s) as [s2|r] eqn:Hb; [|done].
      apply IH. by eapply Hbody.
    + by intros [= <-].
Qed.

Lemma x86DataIntersect_shape data1 data2 :
  x86DataInvariant data1 ->
  x86DataInvariant (x86DataIntersect data1 data2) /\
  length (basic (x86DataIntersect data1 data2)) = length (basic data1) /\
  length (extended (x86DataIntersect data1 data2)) = length (extended data1).
Proof.
  intros Hinv. unfold x86DataIntersect.
  match goal with
  | |- context [while_next ?fu ?dof ?body ?s ?it] =>
      destruct (while_next fu dof body s it) as [d|[]] eqn:Hw
  end.
  eapply (while_next_preserves
            (fun d => x86DataInvariant d /\
                      length (basic d) = length (basic data1) /\
                      length (extended d) = length (extended data1)))
    in Hw; [exact Hw| |done].
  intros p s1 s2 (Hi & Hlb & Hle) Hbody.
  destruct (x86DataCpuid data2 (function (load s1 p)));
    injection Hbody as <-;
    (split; [by apply store_invariant|]);
    match goal with
    | |- context [store s1 p ?f] =>
        destruct (store_length s1 p f) as [-> ->]; done
    end.
Qed.

Lemma int_of_Z_small z : - 2 ^ 31 <= z < 2 ^ 31 -> int_of_Z z = z.
Proof. intros Hz. unfold int_of_Z. rewrite Z.mod_small; lia. Qed.

Lemma wrap32_small z : 0 <= z < 2 ^ 32 -> wrap32 z = z.
Proof. intros Hz. unfold wrap32. by apply Z.mod_small. Qed.

Lemma wrap32_neg z : - 2 ^ 32 <= z < 0 -> wrap32 z = z + 2 ^ 32.
Proof.
  intros Hz. unfold wrap32. symmetry.
  apply Z.mod_unique_pos with (q := -1); lia.
Qed.

Lemma int_of_Z_high z : 2 ^ 31 <= z < 2 ^ 32 -> int_of_Z z = z - 2 ^ 32.
Proof.
  intros Hz. unfold int_of_Z.
  rewrite <- (Z.mod_unique_pos (z + 2 ^ 31) (2 ^ 32) 1 (z - 2 ^ 31)); lia.
Qed.

Lemma expand_by_add_bound len1 len2 :
  0 <= len1 <= 2 ^ 31 -> 0 <= len2 <= 2 ^ 31 ->
  len1 + Z.of_nat (Z.to_nat (int_of_Z (len2 - len1))) <= 2 ^ 31.
Proof.
  intros H1 H2. destruct (decide (len2 - len1 < 2 ^ 31)) as [Hlt|Hge].
  - rewrite (int_of_Z_small (len2 - len1)) by lia. lia.
  - rewrite (int_of_Z_high (len2 - len1)) by lia. lia.
Qed.

Lemma expand_by_addcpuid_bound len pos :
  0 <= len <= 2 ^ 31 -> 0 <= pos < 2 ^ 31 ->
  len + Z.of_nat (Z.to_nat (int_of_Z (wrap32 (wrap32 (pos + 1) - len))))
  <= 2 ^ 31.
Proof.
  intros Hlen Hpos. rewrite (wrap32_small (pos + 1)) by lia.
  destruct (decide (pos + 1 - len < 0)) as [Hneg|Hnn].
  - rewrite (wrap32_neg (pos + 1 - len)) by lia.
    rewrite (int_of_Z_high (pos + 1 - len + 2 ^ 32)) by lia. lia.
  - rewrite (wrap32_small (pos + 1 - len)) by lia.
    destruct (decide (pos + 1 - len < 2 ^ 31)) as [Hlt|Hge].
    + rewrite (int_of_Z_small (pos + 1 - len)) by lia. lia.
    + rewrite (int_of_Z_high (pos + 1 - len)) by lia. lia.
Qed.

Lemma x86DataExpand_shape data basic_by extended_by :
  x86DataInvariant data ->
  x86DataSized (x86DataExpand data basic_by extended_by) ->
  x86DataInvariant (x86DataExpand data basic_by extended_by) /\
  x86DataNotShorter data (x86DataExpand data basic_by extended_by).
Proof.
  intros [Hb He] [Sb Se].
  unfold x86DataInvariant, x86DataNotShorter, basic_len, extended_len in *.
  rewrite x86DataExpand_basic, x86DataExpand_extended in *.
  rewrite !length_app, !length_padding in *.
  unfold CPUX86_BASIC, CPUX86_EXTENDED in *.
  repeat split; try lia.
  - apply leaves_indexed_padding; [done|lia|done].
  - apply leaves_indexed_padding; [done|lia|done].
Qed.

Lemma x86DataAdd_shape data1 data2 :
  x86DataInvariant data1 -> x86DataSized data1 -> x86DataSized data2 ->
  x86DataInvariant (x86DataAdd data1 data2) /\
  x86DataSized (x86DataAdd data1 data2) /\
  x86DataNotShorter data1 (x86DataAdd data1 data2).
Proof.
  intros Hinv [S1b S1e] [S2b S2e].
  pose proof (expand_by_add_bound (basic_len data1) (basic_len data2)) as Bb.
  pose proof (expand_by_add_bound (extended_len data1) (extended_len data2))
    as Be.
  unfold x86DataAdd.
  set (data1' := x86DataExpand data1 _ _).
  assert (x86DataSized data1') as Hs'.
  { subst data1'. unfold x86DataSized, basic_len, extended_len in *.
    rewrite x86DataExpand_basic, x86DataExpand_extended.
    rewrite !length_app, !length_padding. lia. }
  destruct (x86DataExpand_shape _ _ _ Hinv Hs') as [[Hb He] [Nb Ne]].
  fold data1' in Hb, He, Nb, Ne. clearbody data1'.
  destruct Hs' as [Sb' Se'].
  unfold x86DataInvariant, x86DataSized, x86DataNotShorter,
    basic_len, extended_len in *.
  simpl. rewrite !for_loop_alter_length.
  repeat split; try lia.
  - apply (leaves_indexed_for_loop _
             (fun i c => x86cpuidSetBits c (basic data2 !!! i))); done.
  - apply (leaves_indexed_for_loop _
             (fun i c => x86cpuidSetBits c (extended data2 !!! i))); done.
Qed.

Lemma x86DataAddCpuid_shape data cpuid :
  x86DataInvariant data -> x86DataSized data ->
  0 <= function cpuid < 2 ^ 32 ->
  x86DataInvariant (x86DataAddCpuid data cpuid) /\
  x86DataSized (x86DataAddCpuid data cpuid) /\
  x86DataNotShorter data (x86DataAddCpuid data cpuid).
Proof.
  intros Hinv [Sb Se] Hfn. unfold x86DataAddCpuid.
  unfold basic_len, extended_len, CPUX86_EXTENDED in *.
  destruct (Z.ltb_spec (function cpuid) 2147483648) as [Hlt|Hge].
  - pose proof (expand_by_addcpuid_bound (Z.of_nat (length (basic data)))
                  (function cpuid)) as B.
    match goal with
    | |- context [store ?d ?p ?f] => set (data' := d); set (g := f)
    end.
    assert (x86DataSized data') as Hs'.
    { subst data'. unfold x86DataSized, basic_len, extended_len.
      rewrite x86DataExpand_basic, x86DataExpand_extended.
      rewrite !length_app, !length_padding.
      rewrite (int_of_Z_small 0) by lia. simpl Z.to_nat. lia. }
    destruct (x86DataExpand_shape _ _ _ Hinv Hs') as [Hi' [Nb Ne]].
    fold data' in Hi', Nb, Ne. clearbody data'.
    destruct Hs' as [Sb' Se'].
    destruct (store_length data' (mk_ptr false (Z.to_nat (function cpuid))) g)
      as [Lb Le].
    split; [by apply store_invariant|].
    unfold x86DataSized, x86DataNotShorter, basic_len, extended_len in *.
    rewrite Lb, Le. clear - Sb' Se' Nb Ne. lia.
  - pose proof (expand_by_addcpuid_bound (Z.of_nat (length (extended data)))
                  (function cpuid - 2147483648)) as B.
    assert (wrap32 (function cpuid - 2147483648) =
            function cpuid - 2147483648) as Hw
      by (apply wrap32_small; lia).
    rewrite Hw.
    match goal with
    | |- context [store ?d ?p ?f] => set (data' := d); set (g := f)
    end.
    assert (x86DataSized data') as Hs'.
    { subst data'. unfold x86DataSized, basic_len, extended_len.
      rewrite x86DataExpand_basic, x86DataExpand_extended.
      rewrite !length_app, !length_padding.
      rewrite (int_of_Z_small 0) by lia. simpl Z.to_nat. lia. }
    destruct (x86DataExpand_shape _ _ _ Hinv Hs') as [Hi' [Nb Ne]].
    fold data' in Hi', Nb, Ne. clearbody data'.
    destruct Hs' as [Sb' Se'].
    destruct (store_length data'
                (mk_ptr true (Z.to_nat (function cpuid - 2147483648))) g)
      as [Lb Le].
    split; [by apply store_invariant|].
    unfold x86DataSized, x86DataNotShorter, basic_len, extended_len in *.
    rewrite Lb, Le. clear - Sb' Se' Nb Ne. lia.
Qed.

Lemma x86DataSubtract_shape data1 data2 :
  x86DataInvariant data1 ->
  x86DataInvariant (x86DataSubtract data1 data2) /\
  length (basic (x86DataSubtract data1 data2)) = length (basic data1) /\
  length (extended (x86DataSubtract data1 data2)) = length (extended data1).
Proof.
  intros [Hb He]. split; [|apply x86DataSubtract_length].
  unfold x86DataInvariant, x86DataSubtract. simpl. split.
  - apply (leaves_indexed_for_loop _
             (fun i c => x86cpuidClearBits c (basic data2 !!! i))); done.
  - apply (leaves_indexed_for_loop _
             (fun i c => x86cpuidClearBits c (extended data2 !!! i))); done.
Qed.

Lemma x86DataToVendor_shape data vs :
  x86DataInvariant data ->
  x86DataInvariant (snd (x86DataToVendor_list data vs)) /\
  length (basic (snd (x86DataToVendor_list data vs))) = length (basic data) /\
  length (extended (snd (x86DataToVendor_list data vs))) =
  length (extended data).
Proof.
  intros Hinv. induction vs as [|v vs IH]; simpl; [done|].
  destruct (x86DataCpuid data (function (vendor_cpuid v))) as [p|]; [|done].
  destruct (x86cpuidMatchMasked (load data p) (vendor_cpuid v)); [|done].
  simpl. split; [by apply store_invariant|apply store_length].
Qed.

(** [data'], which an operation made out of [data], satisfies the
    structural invariant, its indices still fit the [function] field, and
    neither of its arrays is shorter than it was in [data]. *)
Definition x86DataPreserved (data data' : cpuX86Data) : Prop :=
  x86DataInvariant data' /\ x86DataSized data' /\ x86DataNotShorter data data'.

Lemma x86DataPreserved_same_length data data' :
  x86DataSized data ->
  x86DataInvariant data' ->
  length (basic data') = length (basic data) ->
  length (extended data') = length (extended data) ->
  x86DataPreserved data data'.
Proof.
  intros [Sb Se] Hi Lb Le.
  unfold x86DataPreserved, x86DataSized, x86DataNotShorter,
    basic_len, extended_len in *.
  rewrite Lb, Le. repeat split; [apply Hi|apply Hi|lia..].
Qed.

(** C4.  Every operation of the algebra that makes or changes a data store
    (copy, expand, add, add_cpuid, subtract, intersect, and the clearing
    of the vendor bits in a scratch copy) keeps the structural invariant:
    the tuple at index [i] of [basic] has [function = i], the one at index
    [i] of [extended] has [function = 0x80000000 + i]; and none of them
    makes [basic_len] or [extended_len] smaller.  The stores are those
    whose indices the 32-bit [function] field can hold (at most [2^31]
    tuples in each array), which the operations keep as well.  The
    operations that extend a store are given what lets the number of
    tuples to add fit the [int] parameter of [x86DataExpand], so that the
    store is extended as far as they write: for [x86DataAdd] a store
    [data2] with fewer than [2^31] tuples in each array, for
    [x86DataAddCpuid] a function other than 0x7fffffff and 0xffffffff,
    for [x86DataExpand] counts that are values of [int]. *)
Theorem x86Data_operations_preserve_invariant
        (data data2 data3 : cpuX86Data) (cpuid : cpuX86cpuid)
        (basic_by extended_by : Z) (vendor : list x86_vendor) :
  x86DataInvariant data ->
  x86DataSized data ->
  x86DataShort data2 ->
  0 <= function cpuid < 2 ^ 32 ->
  function_in_reach cpuid ->
  - 2 ^ 31 <= basic_by < 2 ^ 31 ->
  - 2 ^ 31 <= extended_by < 2 ^ 31 ->
  x86DataSized (x86DataExpand data basic_by extended_by) ->
  x86DataPreserved data (x86DataCopy data) /\
  x86DataPreserved data (x86DataExpand data basic_by extended_by) /\
  x86DataPreserved data (x86DataAdd data data2) /\
  x86DataPreserved data (x86DataAddCpuid data cpuid) /\
  x86DataPreserved data (x86DataSubtract data data3) /\
  x86DataPreserved data (x86DataIntersect data data3) /\
  x86DataPreserved data (snd (x86DataToVendor_list data vendor)).
Proof.
  intros Hinv Hs Hs2 Hfn Hreach Hbb Heb Hse.
  split; [|split; [|split; [|split; [|split; [|split]]]]].
  - rewrite x86DataCopy_eq. by apply x86DataPreserved_same_length.
  - destruct (x86DataExpand_shape _ _ _ Hinv Hse) as [Hi' Hn'].
    unfold x86DataPreserved. auto.
  - apply x86DataAdd_shape; [done|done|by apply x86DataShort_Sized].
  - by apply x86DataAddCpuid_shape.
  - destruct (x86DataSubtract_shape data data3 Hinv) as (? & ? & ?).
    by apply x86DataPreserved_same_length.
  - destruct (x86DataIntersect_shape data data3 Hinv) as (? & ? & ?).
    by apply x86DataPreserved_same_length.
  - destruct (x86DataToVendor_shape data vendor Hinv) as (? & ? & ?).
    by apply x86DataPreserved_same_length.
Qed.

(** ** What the iterator visits *)

Definition leaves_of (data : cpuX86Data) (ext : bool) : list cpuX86cpuid :=
  if ext then extended data else basic data.

(** [p] points into its array. *)
Definition valid_ptr (data : cpuX86Data) (p : cpuid_ptr) : Prop :=
  (index p < length (leaves_of data (in_extended p)))%nat.

#[global] Instance valid_ptr_dec data p : Decision (valid_ptr data p).
Proof. unfold valid_ptr. apply _. Defined.

Definition is_null (data : cpuX86Data) (p : cpuid_ptr) : bool :=
  x86cpuidMatch (load data p) cpuidNull.

(** The pointers to the tuples of one array from index [from] on. *)
Definition ptrs_from (data : cpuX86Data) (ext : bool) (from : nat)
  : list cpuid_ptr :=
  mk_ptr ext <$> seq from (length (leaves_of data ext) - from).

(** The pointers the iterator has still to look at. *)
Definition ptrs_after (data : cpuX86Data) (it : data_iterator)
  : list cpuid_ptr :=
  if it_extended it
  then ptrs_from data true (Z.to_nat (pos it + 1))
  else ptrs_from data false (Z.to_nat (pos it + 1)) ++ ptrs_from data true 0.

(** The iterator that has just returned [p]. *)
Definition iter_at (p : cpuid_ptr) : data_iterator :=
  mk_iter (Z.of_nat (index p)) (in_extended p).

(** All pointers to tuples that are not null, in the order of iteration. *)
Definition x86DataLeaves (data : cpuX86Data) : list cpuid_ptr :=
  List.filter (fun p => negb (is_null data p))
              (ptrs_after data DATA_ITERATOR_INIT).

Lemma ptrs_from_cons data ext from :
  (from < length (leaves_of data ext))%nat ->
  ptrs_from data ext from = mk_ptr ext from :: ptrs_from data ext (S from).
Proof.
  intros Hlt. unfold ptrs_from.
  replace (length (leaves_of data ext) - from)%nat
    with (S (length (leaves_of data ext) - S from)) by lia.
  done.
Qed.

Lemma ptrs_from_nil data ext from :
  (length (leaves_of data ext) <= from)%nat -> ptrs_from data ext from = [].
Proof.
  intros Hge. unfold ptrs_from.
  by replace (length (leaves_of data ext) - from)%nat with 0%nat by lia.
Qed.

Lemma length_ptrs_from data ext from :
  length (ptrs_from data ext from) = (length (leaves_of data ext) - from)%nat.
Proof. unfold ptrs_from. by rewrite length_fmap, length_seq. Qed.

Lemma elem_of_ptrs_from data ext from p :
  p ∈ ptrs_from data ext from <->
  in_extended p = ext /\ (from <= index p)%nat /\ valid_ptr data p.
Proof.
  unfold ptrs_from, valid_ptr. rewrite list_elem_of_fmap. split.
  - intros (i & -> & Hi). apply elem_of_seq in Hi. simpl. split; [done|lia].
  - intros (<- & Hfrom & Hv). exists (index p). split; [by destruct p|].
    apply elem_of_seq. lia.
Qed.

Lemma NoDup_ptrs_from data ext from : NoDup (ptrs_from data ext from).
Proof.
  unfold ptrs_from. apply NoDup_fmap_2; [|apply NoDup_seq].
  by intros i j [= ->].
Qed.

Lemma length_ptrs_after data it :
  (length (ptrs_after data it) <=
   length (basic data) + length (extended data))%nat.
Proof.
  unfold ptrs_after. destruct (it_extended it);
    rewrite ?length_app, !length_ptrs_from; simpl; lia.
Qed.

Lemma NoDup_ptrs_after data it : NoDup (ptrs_after data it).
Proof.
  unfold ptrs_after. destruct (it_extended it); [apply NoDup_ptrs_from|].
  apply NoDup_app. split; [apply NoDup_ptrs_from|].
  split; [|apply NoDup_ptrs_from].
  intros p Hb He. apply elem_of_ptrs_from in Hb, He.
  destruct Hb as [Hb _], He as [He _]. congruence.
Qed.

Lemma elem_of_ptrs_after_init data p :
  p ∈ ptrs_after data DATA_ITERATOR_INIT <-> valid_ptr data p.
Proof.
  unfold ptrs_after. simpl. rewrite elem_of_app, !elem_of_ptrs_from.
  destruct (in_extended p) eqn:E; split.
  - intros [(? & _)|(_ & _ & ?)]; [done|done].
  - intros Hv. right. split; [done|]. split; [lia|done].
  - intros [(_ & _ & ?)|(? & _)]; [done|done].
  - intros Hv. left. split; [done|]. split; [lia|done].
Qed.

(** The pointers of a data store depend on its two lengths only. *)
Lemma ptrs_after_same_length data data' it :
  length (basic data') = length (basic data) ->
  length (extended data') = length (extended data) ->
  ptrs_after data' it = ptrs_after data it.
Proof.
  intros Lb Le. unfold ptrs_after, ptrs_from, leaves_of. by rewrite Lb, Le.
Qed.

(** One round of the iterator takes the first of the remaining pointers. *)
Lemma x86DataCpuidNext_step_spec data it :
  -1 <= pos it ->
  match ptrs_after data it with
  | [] =>
      exists it', x86DataCpuidNext_step data it = (None, it') /\
                  ptrs_after data it' = [] /\ -1 <= pos it'
  | p :: rest =>
      x86DataCpuidNext_step data it = (Some p, iter_at p) /\
      ptrs_after data (iter_at p) = rest
  end.
Proof.
  intros Hpos. destruct it as [ps ext]. simpl in Hpos.
  unfold ptrs_after, x86DataCpuidNext_step, basic_len, extended_len. simpl.
  destruct ext; simpl.
  - destruct (Z.ltb_spec (ps + 1) (Z.of_nat (length (extended data))))
      as [Hlt|Hge].
    + rewrite ptrs_from_cons by (simpl; lia).
      unfold iter_at. simpl. rewrite Z2Nat.id by lia. split; [done|].
      f_equal. lia.
    + rewrite ptrs_from_nil by (simpl; lia).
      eexists. split; [done|]. simpl. split; [|lia].
      apply ptrs_from_nil. simpl. lia.
  - destruct (Z.ltb_spec (ps + 1) (Z.of_nat (length (basic data))))
      as [Hlt|Hge]; simpl.
    + rewrite (ptrs_from_cons data false) by (simpl; lia). simpl.
      unfold iter_at. simpl. rewrite Z2Nat.id by lia. split; [done|].
      do 2 f_equal. lia.
    + rewrite (ptrs_from_nil data false) by (simpl; lia). simpl.
      destruct (Z.ltb_spec 0 (Z.of_nat (length (extended data))))
        as [Hlt|Hge'].
      * rewrite ptrs_from_cons by (simpl; lia). done.
      * rewrite ptrs_from_nil by (simpl; lia).
        eexists. split; [done|]. simpl. split; [|lia].
        apply ptrs_from_nil. simpl. lia.
Qed.

(** The first pointer of a list whose tuple is not null, and the pointers
    after it. *)
Fixpoint skip_null (data : cpuX86Data) (l : list cpuid_ptr)
  : option (cpuid_ptr * list cpuid_ptr) :=
  match l with
  | [] => None
  | p :: rest => if is_null data p then skip_null data rest else Some (p, rest)
  end.

Lemma x86DataCpuidNext_loop_spec fuel data it :
  -1 <= pos it ->
  (length (ptrs_after data it) < fuel)%nat ->
  match skip_null data (ptrs_after data it) with
  | Some (p, rest) =>
      x86DataCpuidNext_loop fuel data it = (Some p, iter_at p) /\
      ptrs_after data (iter_at p) = rest
  | None => fst (x86DataCpuidNext_loop fuel data it) = None
  end.
Proof.
  revert it. induction fuel as [|fuel IH]; intros it Hpos Hfuel; [lia|].
  simpl. pose proof (x86DataCpuidNext_step_spec data it Hpos) as Hstep.
  destruct (ptrs_after data it) as [|p rest] eqn:Hafter; simpl.
  - destruct Hstep as (it' & -> & _). done.
  - destruct Hstep as [-> Hrest]. fold (is_null data p).
    destruct (is_null data p); [|done].
    specialize (IH (iter_at p)). rewrite Hrest in IH.
    apply IH; simpl in *; lia.
Qed.

(** With its fuel, [x86DataCpuidNext] always reaches the end of its loop:
    it returns the next tuple that is not null, if there is one. *)
Lemma x86DataCpuidNext_fuel data it :
  -1 <= pos it ->
  match skip_null data (ptrs_after data it) with
  | Some (p, rest) =>
      x86DataCpuidNext data it = (Some p, iter_at p) /\
      ptrs_after data (iter_at p) = rest
  | None => fst (x86DataCpuidNext data it) = None
  end.
Proof.
  intros Hpos. apply x86DataCpuidNext_loop_spec; [done|].
  pose proof (length_ptrs_after data it). unfold iter_fuel. lia.
Qed.

(** A loop over a list of pointers, with the body of a [while_next] loop. *)
Fixpoint fold_leaves {St R : Type} (body : cpuid_ptr -> St -> St + R)
         (l : list cpuid_ptr) (s : St) : St + R :=
  match l with
  | [] => inl s
  | p :: rest =>
      match body p s with
      | inl s' => fold_leaves body rest s'
      | inr r => inr r
      end
  end.

(** Between [s] and [s'] the data store kept its lengths and every tuple
    but the one at [p]. *)
Definition touches_only {St : Type} (data_of : St -> cpuX86Data)
           (p : cpuid_ptr) (s s' : St) : Prop :=
  length (basic (data_of s')) = length (basic (data_of s)) /\
  length (extended (data_of s')) = length (extended (data_of s)) /\
  forall q, q <> p -> load (data_of s') q = load (data_of s) q.

Lemma skip_null_filter data l :
  match skip_null data l with
  | Some (p, rest) =>
      List.filter (fun q => negb (is_null data q)) l =
      p :: List.filter (fun q => negb (is_null data q)) rest /\
      (length rest < length l)%nat /\
      (NoDup l -> (p ∉ rest) /\ NoDup rest)
  | None => List.filter (fun q => negb (is_null data q)) l = []
  end.
Proof.
  induction l as [|p l IH]; simpl; [done|].
  destruct (is_null data p) eqn:Hn; simpl.
  - destruct (skip_null data l) as [[q rest]|]; [|done].
    destruct IH as (-> & Hlen & Hnd). split; [done|]. split; [lia|].
    intros Hd. apply NoDup_cons in Hd. apply Hnd, Hd.
  - split; [done|]. split; [lia|]. intros Hd. by apply NoDup_cons in Hd.
Qed.

Lemma while_next_spec {St R : Type} fuel (data_of : St -> cpuX86Data)
      (body : cpuid_ptr -> St -> St + R) s it :
  (forall p s1 s2, body p s1 = inl s2 -> touches_only data_of p s1 s2) ->
  -1 <= pos it ->
  (length (ptrs_after (data_of s) it) < fuel)%nat ->
  while_next fuel data_of body s it =
  fold_leaves body
    (List.filter (fun p => negb (is_null (data_of s) p))
                 (ptrs_after (data_of s) it)) s.
Proof.
  intros Hbody. revert s it.
  induction fuel as [|fuel IH]; intros s it Hpos Hfuel; [lia|].
  simpl. pose proof (x86DataCpuidNext_fuel (data_of s) it Hpos) as Hnext.
  pose proof (skip_null_filter (data_of s) (ptrs_after (data_of s) it)) as Hf.
  pose proof (NoDup_ptrs_after (data_of s) it) as Hnd.
  destruct (skip_null (data_of s) (ptrs_after (data_of s) it))
    as [[p rest]|].
  - destruct Hnext as [-> Hrest]. destruct Hf as (-> & Hlen & Hd).
    destruct (Hd Hnd) as [Hp _]. simpl.
    destruct (body p s) as [s'|r] eqn:Hb; [|done].
    destruct (Hbody p s s' Hb) as (Lb & Le & Hload).
    rewrite IH; [|simpl; lia|].
    + rewrite (ptrs_after_same_length _ _ _ Lb Le), Hrest. f_equal.
      apply List.filter_ext_in. intros q Hq. unfold is_null.
      rewrite Hload; [done|]. intros ->. apply Hp.
      by apply list_elem_of_In.
    + rewrite (ptrs_after_same_length _ _ _ Lb Le), Hrest. lia.
  - rewrite Hf. simpl.
    destruct (x86DataCpuidNext (data_of s) it) as [[p|] it']; [done|done].
Qed.

(** The loops of the algebra are loops over [x86DataLeaves]. *)
Lemma while_next_leaves {St R : Type} (data_of : St -> cpuX86Data)
      (body : cpuid_ptr -> St -> St + R) s :
  (forall p s1 s2, body p s1 = inl s2 -> touches_only data_of p s1 s2) ->
  while_next (iter_fuel (data_of s)) data_of body s DATA_ITERATOR_INIT =
  fold_leaves body (x86DataLeaves (data_of s)) s.
Proof.
  intros Hbody. apply while_next_spec; [done|simpl; lia|].
  pose proof (length_ptrs_after (data_of s) DATA_ITERATOR_INIT).
  unfold iter_fuel. lia.
Qed.

Lemma elem_of_x86DataLeaves data p :
  p ∈ x86DataLeaves data <-> valid_ptr data p /\ is_null data p = false.
Proof.
  unfold x86DataLeaves. rewrite list_elem_of_In, List.filter_In.
  rewrite <- list_elem_of_In, elem_of_ptrs_after_init.
  by rewrite negb_true_iff.
Qed.

Lemma NoDup_x86DataLeaves data : NoDup (x86DataLeaves data).
Proof.
  unfold x86DataLeaves. apply NoDup_ListNoDup, List.NoDup_filter.
  apply NoDup_ListNoDup, NoDup_ptrs_after.
Qed.

Lemma x86DataIsEmpty_spec data :
  x86DataIsEmpty data = true <-> x86DataLeaves data = [].
Proof.
  unfold x86DataIsEmpty, x86DataLeaves.
  pose proof (x86DataCpuidNext_fuel data DATA_ITERATOR_INIT) as Hnext.
  pose proof (skip_null_filter data (ptrs_after data DATA_ITERATOR_INIT))
    as Hf.
  destruct (skip_null data (ptrs_after data DATA_ITERATOR_INIT))
    as [[p rest]|].
  - destruct Hnext as [-> _]; [simpl; lia|]. destruct Hf as (-> & _). done.
  - rewrite Hnext by (simpl; lia). done.
Qed.

(** ** Reading and writing through pointers *)

Lemma load_store_eq data p f :
  valid_ptr data p -> load (store data p f) p = f (load data p).
Proof.
  unfold valid_ptr, load, store, leaves_of. destruct p as [[] i]; simpl;
    intros Hv; by rewrite list_lookup_total_alter_eq.
Qed.

Lemma load_store_ne data p f q :
  q <> p -> load (store data p f) q = load data q.
Proof.
  unfold load, store. destruct p as [e i], q as [e' j]; simpl.
  intros Hne. destruct e, e'; simpl; try done;
    apply list_lookup_total_alter_ne; congruence.
Qed.

Lemma store_touches_only data p f :
  touches_only (fun d => d) p data (store data p f).
Proof.
  destruct (store_length data p f) as [Lb Le].
  split; [done|]. split; [done|]. intros q Hq. by apply load_store_ne.
Qed.

Lemma valid_ptr_same_length data data' p :
  length (basic data') = length (basic data) ->
  length (extended data') = length (extended data) ->
  valid_ptr data' p <-> valid_ptr data p.
Proof.
  intros Lb Le. unfold valid_ptr, leaves_of.
  destruct (in_extended p); by rewrite ?Lb, ?Le.
Qed.

(** A loop that rewrites each tuple of a list of distinct pointers by a
    function of the tuple rewrites exactly those tuples. *)
Lemma fold_leaves_store (H : cpuX86cpuid -> cpuX86cpuid -> cpuX86cpuid)
      (l : list cpuid_ptr) (data : cpuX86Data) :
  NoDup l ->
  (forall p, p ∈ l -> valid_ptr data p) ->
  exists data',
    fold_leaves (R := Empty_set)
      (fun p d => inl (store d p (H (load d p)))) l data = inl data' /\
    length (basic data') = length (basic data) /\
    length (extended data') = length (extended data) /\
    forall q, load data' q =
              if bool_decide (q ∈ l) then H (load data q) (load data q)
              else load data q.
Proof.
  revert data. induction l as [|p l IH]; intros data Hnd Hv; simpl.
  - exists data. repeat split; done.
  - apply NoDup_cons in Hnd as [Hp Hnd].
    destruct (store_length data p (H (load data p))) as [Lb Le].
    destruct (IH (store data p (H (load data p))) Hnd) as (d' & -> & Lb' & Le' & Hl).
    { intros q Hq. apply (valid_ptr_same_length _ _ _ Lb Le).
      apply Hv. by right. }
    exists d'. split; [done|]. split; [congruence|]. split; [congruence|].
    intros q. rewrite Hl. destruct (decide (q = p)) as [->|Hne].
    + rewrite bool_decide_eq_false_2 by done.
      rewrite bool_decide_eq_true_2 by left.
      apply load_store_eq, Hv. left.
    + rewrite load_store_ne by done.
      destruct (decide (q ∈ l)) as [Hin|Hnin].
      * rewrite !bool_decide_eq_true_2; [done|by right|done].
      * rewrite !bool_decide_eq_false_2; [done| |done].
        intros [?|?]%elem_of_cons; done.
Qed.

(** What [x86DataIntersect] does to one tuple of [data1]. *)
Definition intersect_leaf (data2 : cpuX86Data) (cpuid1 : cpuX86cpuid)
  : cpuX86cpuid :=
  match x86DataCpuid data2 (function cpuid1) with
  | Some cpuid2 => x86cpuidAndBits cpuid1 (load data2 cpuid2)
  | None => x86cpuidClearBits cpuid1 cpuid1
  end.

Lemma x86cpuidClearBits_self c :
  x86cpuidClearBits c c = mk_cpuid (function c) 0 0 0 0.
Proof. unfold x86cpuidClearBits. by rewrite !land_not32_self. Qed.

Lemma x86DataIntersect_load data1 data2 p :
  load (x86DataIntersect data1 data2) p =
  if bool_decide (p ∈ x86DataLeaves data1)
  then intersect_leaf data2 (load data1 p)
  else load data1 p.
Proof.
  unfold x86DataIntersect.
  rewrite (while_next_leaves (fun d => d)).
  2:{ intros q s1 s2 Hb.
      destruct (x86DataCpuid data2 (function (load s1 q)));
        injection Hb as <-; apply store_touches_only. }
  destruct (fold_leaves_store
              (fun c0 c =>
                 match x86DataCpuid data2 (function c0) with
                 | Some cpuid2 => x86cpuidAndBits c (load data2 cpuid2)
                 | None => x86cpuidClearBits c c
                 end)
              (x86DataLeaves data1) data1 (NoDup_x86DataLeaves data1))
    as (d' & Hfold & _ & _ & Hl).
  { intros q Hq. by apply elem_of_x86DataLeaves in Hq as [? _]. }
  match goal with
  | |- load match ?w with inl d => d | inr r => _ end p = _ =>
      assert (w = inl d') as ->
  end.
  { rewrite <- Hfold. clear. generalize data1 at 2 4.
    induction (x86DataLeaves data1) as [|q l IH]; intros d; simpl; [done|].
    destruct (x86DataCpuid data2 (function (load d q))); apply IH. }
  rewrite Hl. unfold intersect_leaf. done.
Qed.

Lemma x86DataSubtract_load data1 data2 p :
  x86DataSized data1 ->
  valid_ptr data1 p ->
  load (x86DataSubtract data1 data2) p =
  if bool_decide (valid_ptr data2 p)
  then x86cpuidClearBits (load data1 p) (load data2 p)
  else load data1 p.
Proof.
  intros [Sb Se] Hv. unfold valid_ptr, load, leaves_of in *.
  destruct p as [[] i]; cbn [in_extended index] in *.
  - apply list_lookup_total_correct.
    rewrite x86DataSubtract_extended_lookup by lia.
    rewrite (list_lookup_lookup_total_lt (extended data1) i) by done.
    by repeat case_bool_decide.
  - apply list_lookup_total_correct.
    rewrite x86DataSubtract_basic_lookup by lia.
    rewrite (list_lookup_lookup_total_lt (basic data1) i) by done.
    by repeat case_bool_decide.
Qed.

(** C5.  [x86DataSubtract] clears bits of [data1] only in the tuples at
    positions that both stores have (indices below the smaller of the two
    lengths, for [basic] and for [extended] separately) and leaves every
    other tuple of [data1] as it is.  [x86DataIntersect] changes every
    tuple of [data1] that is not null: when [data2] has a tuple for its
    function that is not null ([x86DataCpuid] finds it), the registers are
    anded with that tuple; otherwise the registers become zero.  Neither
    changes a length or a [function] field. *)
Theorem x86DataSubtract_x86DataIntersect_leaves
        (data1 data2 : cpuX86Data) (p : cpuid_ptr) :
  x86DataSized data1 ->
  valid_ptr data1 p ->
  load (x86DataSubtract data1 data2) p =
    (if bool_decide (valid_ptr data2 p)
     then x86cpuidClearBits (load data1 p) (load data2 p)
     else load data1 p) /\
  load (x86DataIntersect data1 data2) p =
    (if x86cpuidMatch (load data1 p) cpuidNull then load data1 p
     else
       match x86DataCpuid data2 (function (load data1 p)) with
       | Some cpuid2 => x86cpuidAndBits (load data1 p) (load data2 cpuid2)
       | None => mk_cpuid (function (load data1 p)) 0 0 0 0
       end) /\
  (forall data, data = x86DataSubtract data1 data2 \/
                data = x86DataIntersect data1 data2 ->
     length (basic data) = length (basic data1) /\
     length (extended data) = length (extended data1) /\
     function (load data p) = function (load data1 p)).
Proof.
  intros Hs Hv.
  assert (load (x86DataIntersect data1 data2) p =
          (if x86cpuidMatch (load data1 p) cpuidNull then load data1 p
           else
             match x86DataCpuid data2 (function (load data1 p)) with
             | Some cpuid2 =>
                 x86cpuidAndBits (load data1 p) (load data2 cpuid2)
             | None => mk_cpuid (function (load data1 p)) 0 0 0 0
             end)) as Hi.
  { rewrite x86DataIntersect_load. fold (is_null data1 p).
    destruct (is_null data1 p) eqn:Hn.
    - rewrite bool_decide_eq_false_2; [done|].
      rewrite elem_of_x86DataLeaves. intros [_ ?]. congruence.
    - rewrite bool_decide_eq_true_2 by (by apply elem_of_x86DataLeaves).
      unfold intersect_leaf.
      destruct (x86DataCpuid data2 (function (load data1 p))); [done|].
      apply x86cpuidClearBits_self. }
  pose proof (x86DataSubtract_load data1 data2 p Hs Hv) as Hsub.
  split; [done|]. split; [done|].
  intros data [->| ->].
  - destruct (x86DataSubtract_length data1 data2) as [-> ->].
    split; [done|]. split; [done|]. rewrite Hsub. by case_bool_decide.
  - split; [|split].
    + unfold x86DataIntersect.
      match goal with
      | |- context [while_next ?fu ?dof ?body ?s ?it] =>
          destruct (while_next fu dof body s it) as [d|[]] eqn:Hw
      end.
      eapply (while_next_preserves
                (fun d => length (basic d) = length (basic data1))) in Hw;
        [done| |done].
      intros q s1 s2 Hl Hb.
      destruct (x86DataCpuid data2 (function (load s1 q)));
        injection Hb as <-;
        match goal with
        | |- context [store s1 q ?f] =>
            destruct (store_length s1 q f) as [-> _]; done
        end.
    + unfold x86DataIntersect.
      match goal with
      | |- context [while_next ?fu ?dof ?body ?s ?it] =>
          destruct (while_next fu dof body s it) as [d|[]] eqn:Hw
      end.
      eapply (while_next_preserves
                (fun d => length (extended d) = length (extended data1)))
        in Hw; [done| |done].
      intros q s1 s2 Hl Hb.
      destruct (x86DataCpuid data2 (function (load s1 q)));
        injection Hb as <-;
        match goal with
        | |- context [store s1 q ?f] =>
            destruct (store_length s1 q f) as [_ ->]; done
        end.
    + rewrite Hi. destruct (x86cpuidMatch (load data1 p) cpuidNull); [done|].
      by destruct (x86DataCpuid data2 (function (load data1 p))).
Qed.

(** ** Looking a function up *)

Lemma load_invalid data p : ~ valid_ptr data p -> load data p = cpuidNull.
Proof.
  unfold valid_ptr, load, leaves_of. intros Hv.
  rewrite list_lookup_total_alt.
  destruct (in_extended p); by rewrite lookup_ge_None_2 by lia.
Qed.

Lemma is_null_invalid data p : ~ valid_ptr data p -> is_null data p = true.
Proof. intros Hv. unfold is_null. by rewrite load_invalid. Qed.

Lemma valid_of_not_null data p : is_null data p = false -> valid_ptr data p.
Proof.
  intros Hn. destruct (decide (valid_ptr data p)) as [|Hv]; [done|].
  rewrite is_null_invalid in Hn by done. done.
Qed.

(** In a store that satisfies the invariant and whose indices fit, the
    tuple for the function of a tuple at [p] is the tuple at [p]. *)
Lemma x86DataCpuid_at (data other : cpuX86Data) (p : cpuid_ptr) :
  x86DataInvariant data -> x86DataSized data ->
  valid_ptr data p ->
  x86DataCpuid other (function (load data p)) =
  if is_null other p then None else Some p.
Proof.
  intros [Hb He] [Sb Se] Hv.
  unfold valid_ptr, leaves_of, basic_len, extended_len in *.
  unfold x86DataCpuid, CPUX86_EXTENDED, basic_len, extended_len.
  destruct p as [[] i]; cbn [in_extended index] in *.
  - assert (function (load data (mk_ptr true i)) = 2147483648 + Z.of_nat i)
      as ->.
    { apply He. unfold load. simpl.
      by apply list_lookup_lookup_total_lt. }
    destruct (Z.ltb_spec (2147483648 + Z.of_nat i) 2147483648); [lia|].
    replace (2147483648 + Z.of_nat i - 2147483648) with (Z.of_nat i) by lia.
    rewrite Nat2Z.id. fold (is_null other (mk_ptr true i)).
    destruct (Z.ltb_spec (Z.of_nat i) (Z.of_nat (length (extended other))))
      as [Hlt|Hge]; simpl.
    + by destruct (is_null other (mk_ptr true i)).
    + rewrite is_null_invalid; [done|]. unfold valid_ptr. simpl. lia.
  - assert (function (load data (mk_ptr false i)) = Z.of_nat i) as ->.
    { rewrite (Hb i (load data (mk_ptr false i))); [done|].
      unfold load. simpl. by apply list_lookup_lookup_total_lt. }
    destruct (Z.ltb_spec (Z.of_nat i) 2147483648); [|lia].
    rewrite Nat2Z.id. fold (is_null other (mk_ptr false i)).
    destruct (Z.ltb_spec (Z.of_nat i) (Z.of_nat (length (basic other))))
      as [Hlt|Hge]; simpl.
    + by destruct (is_null other (mk_ptr false i)).
    + rewrite is_null_invalid; [done|]. unfold valid_ptr. simpl. lia.
Qed.

(** ** Tuples as sets of bits *)

Lemma x86cpuidMatch_refl c : x86cpuidMatch c c = true.
Proof. unfold x86cpuidMatch. by rewrite !Z.eqb_refl. Qed.

Lemma x86cpuidMatch_sym c1 c2 : x86cpuidMatch c1 c2 = x86cpuidMatch c2 c1.
Proof.
  unfold x86cpuidMatch.
  by rewrite (Z.eqb_sym (eax c1)), (Z.eqb_sym (ebx c1)),
    (Z.eqb_sym (ecx c1)), (Z.eqb_sym (edx c1)).
Qed.

Lemma x86cpuidMatch_true c1 c2 :
  x86cpuidMatch c1 c2 = true <->
  eax c1 = eax c2 /\ ebx c1 = ebx c2 /\ ecx c1 = ecx c2 /\ edx c1 = edx c2.
Proof. unfold x86cpuidMatch. rewrite !andb_true_iff, !Z.eqb_eq. tauto. Qed.

Lemma x86cpuidMatchMasked_true c m :
  x86cpuidMatchMasked c m = true <->
  Z.land (eax c) (eax m) = eax m /\ Z.land (ebx c) (ebx m) = ebx m /\
  Z.land (ecx c) (ecx m) = ecx m /\ Z.land (edx c) (edx m) = edx m.
Proof.
  unfold x86cpuidMatchMasked. rewrite !andb_true_iff, !Z.eqb_eq. tauto.
Qed.

(** Two tuples that contain each other have the same registers. *)
Lemma x86cpuidMatchMasked_antisym c1 c2 :
  x86cpuidMatchMasked c1 c2 = true -> x86cpuidMatchMasked c2 c1 = true ->
  x86cpuidMatch c1 c2 = true.
Proof.
  rewrite !x86cpuidMatchMasked_true, x86cpuidMatch_true.
  intros (A1 & B1 & C1 & D1) (A2 & B2 & C2 & D2).
  rewrite Z.land_comm in A2, B2, C2, D2. repeat split; congruence.
Qed.

Lemma x86cpuidMatchMasked_of_Match c1 c2 :
  x86cpuidMatch c1 c2 = true -> x86cpuidMatchMasked c1 c2 = true.
Proof.
  rewrite x86cpuidMatchMasked_true, x86cpuidMatch_true.
  intros (-> & -> & -> & ->). by rewrite !Z.land_diag.
Qed.

(** Only a null tuple is contained in a null tuple. *)
Lemma x86cpuidMatchMasked_null c1 c2 :
  x86cpuidMatch c1 cpuidNull = true -> x86cpuidMatchMasked c1 c2 = true ->
  x86cpuidMatch c2 cpuidNull = true.
Proof.
  rewrite x86cpuidMatchMasked_true, !x86cpuidMatch_true. simpl.
  intros (-> & -> & -> & ->). rewrite !Z.land_0_l. intuition congruence.
Qed.

Lemma x86cpuidMatch_trans c1 c2 c3 :
  x86cpuidMatch c1 c2 = true -> x86cpuidMatch c2 c3 = true ->
  x86cpuidMatch c1 c3 = true.
Proof. rewrite !x86cpuidMatch_true. intuition congruence. Qed.

(** ** The model comparator as a fold over classified leaves *)

(** What a round of a loop of [x86ModelCompare] finds for the tuple at [p]
    of the store it walks ([data1]) against the other store ([data2]):
    [None] when the round ends with [continue], else the value of [match].
    [absent] is the initial value of [match], [other] the one assigned. *)
Definition compare_class (data1 data2 : cpuX86Data)
           (absent other : compare_result) (p : cpuid_ptr)
  : option compare_result :=
  if is_null data2 p then Some absent
  else if x86cpuidMatch (load data1 p) (load data2 p) then None
  else if negb (x86cpuidMatchMasked (load data1 p) (load data2 p))
  then Some other
  else Some absent.

Fixpoint compare_run (cs : list (option compare_result)) (r : compare_result)
  : compare_result + compare_result :=
  match cs with
  | [] => inl r
  | None :: cs' => compare_run cs' r
  | Some m :: cs' =>
      match compare_update r m with
      | inl r' => compare_run cs' r'
      | inr u => inr u
      end
  end.

Definition outcome (x : compare_result + compare_result) : compare_result :=
  match x with inl r => r | inr r => r end.

Lemma compare_run_app cs1 cs2 r :
  compare_run (cs1 ++ cs2) r =
  match compare_run cs1 r with
  | inl r' => compare_run cs2 r'
  | inr u => inr u
  end.
Proof.
  revert r. induction cs1 as [|[m|] cs1 IH]; intros r; simpl; [done| |done].
  by destruct (compare_update r m).
Qed.

Lemma fold_leaves_compare (body : cpuid_ptr -> compare_result ->
                                  compare_result + compare_result)
      (class : cpuid_ptr -> option compare_result) l r :
  (forall p r, p ∈ l ->
     body p r = match class p with
                | None => inl r
                | Some m => compare_update r m
                end) ->
  fold_leaves body l r = compare_run (class <$> l) r.
Proof.
  revert r. induction l as [|p l IH]; intros r Hbody; simpl; [done|].
  rewrite Hbody by left.
  destruct (class p) as [m|].
  - destruct (compare_update r m); [|done].
    apply IH. intros q r' Hq. apply Hbody. by right.
  - apply IH. intros q r' Hq. apply Hbody. by right.
Qed.

Lemma x86ModelCompare_run model1 model2 :
  x86DataInvariant (model_data model1) -> x86DataSized (model_data model1) ->
  x86DataInvariant (model_data model2) -> x86DataSized (model_data model2) ->
  x86ModelCompare model1 model2 =
  outcome
    (compare_run
       ((compare_class (model_data model1) (model_data model2)
                       SUPERSET SUBSET <$> x86DataLeaves (model_data model1))
        ++
        (compare_class (model_data model2) (model_data model1)
                       SUBSET SUPERSET <$> x86DataLeaves (model_data model2)))
       EQUAL).
Proof.
  intros I1 S1 I2 S2. unfold x86ModelCompare.
  set (data1 := model_data model1) in *. set (data2 := model_data model2) in *.
  rewrite compare_run_app.
  rewrite (while_next_leaves (fun _ : compare_result => data1))
    by (intros; by repeat split).
  erewrite (fold_leaves_compare _
              (compare_class data1 data2 SUPERSET SUBSET)).
  2:{ intros p r Hp. apply elem_of_x86DataLeaves in Hp as [Hv Hn].
      rewrite (x86DataCpuid_at data1 data2 p I1 S1 Hv).
      unfold compare_class. destruct (is_null data2 p); [done|].
      destruct (x86cpuidMatch (load data1 p) (load data2 p)); [done|].
      by destruct (x86cpuidMatchMasked (load data1 p) (load data2 p)). }
  destruct (compare_run _ EQUAL) as [result|u]; [|done].
  rewrite (while_next_leaves (fun _ : compare_result => data2))
    by (intros; by repeat split).
  erewrite (fold_leaves_compare _
              (compare_class data2 data1 SUBSET SUPERSET)).
  2:{ intros p r Hp. apply elem_of_x86DataLeaves in Hp as [Hv Hn].
      rewrite (x86DataCpuid_at data2 data1 p I2 S2 Hv).
      unfold compare_class. destruct (is_null data1 p); [done|].
      destruct (x86cpuidMatch (load data2 p) (load data1 p)); [done|].
      by destruct (x86cpuidMatchMasked (load data2 p) (load data1 p)). }
  by destruct (compare_run _ result).
Qed.

(** The outcome of a run in terms of the classes that occur in it. *)
Lemma compare_run_none cs r :
  Forall (fun c => c = None) cs -> compare_run cs r = inl r.
Proof.
  induction 1 as [|c cs -> _ IH]; simpl; done.
Qed.

Lemma compare_run_same cs m :
  m <> EQUAL ->
  Forall (fun c => c = None \/ c = Some m) cs -> compare_run cs m = inl m.
Proof.
  intros Hm. induction 1 as [|c cs [->| ->] _ IH]; simpl; [done|done|].
  unfold compare_update.
  rewrite bool_decide_eq_false_2 by done.
  rewrite bool_decide_eq_true_2 by done. done.
Qed.

Lemma compare_run_only cs m :
  m <> EQUAL ->
  Forall (fun c => c = None \/ c = Some m) cs ->
  Some m ∈ cs ->
  compare_run cs EQUAL = inl m.
Proof.
  intros Hm. induction 1 as [|c cs [->| ->] Hcs IH]; simpl.
  - by intros ?%elem_of_nil.
  - intros [?|?]%elem_of_cons; [done|auto].
  - intros _. unfold compare_update. simpl.
    by apply compare_run_same.
Qed.

Definition directed (c : option compare_result) : Prop :=
  c = None \/ c = Some SUBSET \/ c = Some SUPERSET.

Lemma compare_run_other cs m m' :
  m <> EQUAL -> m' <> m ->
  Forall directed cs ->
  Some m' ∈ cs ->
  compare_run cs m = inr UNRELATED.
Proof.
  intros Hm Hm'. induction 1 as [|c cs Hc Hcs IH]; simpl.
  - by intros ?%elem_of_nil.
  - intros Hin. destruct c as [c|].
    + unfold compare_update. rewrite bool_decide_eq_false_2 by done.
      destruct (decide (m = c)) as [<-|Hne].
      * rewrite bool_decide_eq_true_2 by done. simpl.
        apply IH. apply elem_of_cons in Hin as [[= ->]|?]; done.
      * by rewrite bool_decide_eq_false_2 by done.
    + apply IH. by apply elem_of_cons in Hin as [?|?].
Qed.

Lemma compare_run_mixed cs :
  Forall directed cs ->
  Some SUBSET ∈ cs -> Some SUPERSET ∈ cs ->
  compare_run cs EQUAL = inr UNRELATED.
Proof.
  induction 1 as [|c cs Hc Hcs IH]; simpl.
  - by intros ?%elem_of_nil.
  - intros H1 H2. destruct Hc as [->|[->| ->]].
    + apply IH.
      * by apply elem_of_cons in H1 as [?|?].
      * by apply elem_of_cons in H2 as [?|?].
    + unfold compare_update. simpl.
      apply (compare_run_other cs SUBSET SUPERSET); [done|done|done|].
      by apply elem_of_cons in H2 as [?|?].
    + unfold compare_update. simpl.
      apply (compare_run_other cs SUPERSET SUBSET); [done|done|done|].
      by apply elem_of_cons in H1 as [?|?].
Qed.

Lemma compare_class_directed data1 data2 absent other p :
  absent = SUBSET \/ absent = SUPERSET ->
  other = SUBSET \/ other = SUPERSET ->
  directed (compare_class data1 data2 absent other p).
Proof.
  intros [->| ->] [->| ->]; unfold compare_class, directed;
    destruct (is_null data2 p); auto;
    destruct (x86cpuidMatch (load data1 p) (load data2 p)); auto;
    destruct (x86cpuidMatchMasked (load data1 p) (load data2 p)); auto.
Qed.

(** ** Stores compared by their bits *)

Definition x86DataWF (data : cpuX86Data) : Prop :=
  x86DataInvariant data /\ x86DataSized data.

#[global] Instance x86DataWF_dec data : Decision (x86DataWF data).
Proof. unfold x86DataWF. apply _. Defined.

(** Every bit of [data1] is a bit of [data2]: each tuple of [data1] is
    mask-contained in the tuple of [data2] at the same place, a tuple that
    a store does not have counting as null. *)
Definition bits_subset (data1 data2 : cpuX86Data) : Prop :=
  forall p, x86cpuidMatchMasked (load data2 p) (load data1 p) = true.

(** The two stores have the same bits. *)
Definition bits_equal (data1 data2 : cpuX86Data) : Prop :=
  forall p, x86cpuidMatch (load data1 p) (load data2 p) = true.

Definition all_ptrs (data : cpuX86Data) : list cpuid_ptr :=
  ptrs_after data DATA_ITERATOR_INIT.

Lemma x86cpuidMatchMasked_null_mask c : x86cpuidMatchMasked c cpuidNull = true.
Proof. apply x86cpuidMatchMasked_true. simpl. by rewrite !Z.land_0_r. Qed.

Lemma bits_subset_Forall data1 data2 :
  bits_subset data1 data2 <->
  Forall (fun p => x86cpuidMatchMasked (load data2 p) (load data1 p) = true)
         (all_ptrs data1).
Proof.
  rewrite Forall_forall. split; [by intros H p _|].
  intros H p. destruct (decide (valid_ptr data1 p)) as [Hv|Hv].
  - apply H. by apply elem_of_ptrs_after_init.
  - rewrite (load_invalid data1) by done. apply x86cpuidMatchMasked_null_mask.
Qed.

Lemma bits_equal_Forall data1 data2 :
  bits_equal data1 data2 <->
  Forall (fun p => x86cpuidMatch (load data1 p) (load data2 p) = true)
         (all_ptrs data1 ++ all_ptrs data2).
Proof.
  rewrite Forall_forall. split; [by intros H p _|].
  intros H p.
  destruct (decide (valid_ptr data1 p)) as [Hv|Hv];
    [apply H, elem_of_app; left; by apply elem_of_ptrs_after_init|].
  destruct (decide (valid_ptr data2 p)) as [Hv'|Hv'];
    [apply H, elem_of_app; right; by apply elem_of_ptrs_after_init|].
  rewrite !load_invalid by done. apply x86cpuidMatch_refl.
Qed.

#[global] Instance bits_subset_dec data1 data2 :
  Decision (bits_subset data1 data2).
Proof.
  refine (cast_if (decide (Forall
            (fun p => x86cpuidMatchMasked (load data2 p) (load data1 p) = true)
            (all_ptrs data1))));
    by rewrite bits_subset_Forall.
Defined.

#[global] Instance bits_equal_dec data1 data2 :
  Decision (bits_equal data1 data2).
Proof.
  refine (cast_if (decide (Forall
            (fun p => x86cpuidMatch (load data1 p) (load data2 p) = true)
            (all_ptrs data1 ++ all_ptrs data2))));
    by rewrite bits_equal_Forall.
Defined.

Lemma not_bits_subset data1 data2 :
  ~ bits_subset data1 data2 ->
  exists p, x86cpuidMatchMasked (load data2 p) (load data1 p) = false.
Proof.
  rewrite bits_subset_Forall. intros H.
  apply not_Forall_Exists in H; [|apply _].
  apply Exists_exists in H as (p & _ & Hp). exists p. simpl in Hp.
  by destruct (x86cpuidMatchMasked (load data2 p) (load data1 p)).
Qed.

Lemma not_bits_equal data1 data2 :
  ~ bits_equal data1 data2 ->
  exists p, x86cpuidMatch (load data1 p) (load data2 p) = false.
Proof.
  rewrite bits_equal_Forall. intros H.
  apply not_Forall_Exists in H; [|apply _].
  apply Exists_exists in H as (p & _ & Hp). exists p. simpl in Hp.
  by destruct (x86cpuidMatch (load data1 p) (load data2 p)).
Qed.

(** A tuple of [data1] with a bit that [data2] lacks shows up as [absent]
    in the walk over [data1] or in the walk over [data2]. *)
Lemma private_bit_class data1 data2 absent other p :
  x86cpuidMatchMasked (load data2 p) (load data1 p) = false ->
  is_null data1 p = false /\
  (compare_class data1 data2 absent other p = Some absent \/
   is_null data2 p = false /\
   compare_class data2 data1 other absent p = Some absent).
Proof.
  intros Hpriv.
  assert (is_null data1 p = false) as Hn1.
  { destruct (is_null data1 p) eqn:Hn; [|done]. unfold is_null in Hn.
    apply x86cpuidMatch_true in Hn as (A & B & C & D).
    enough (x86cpuidMatchMasked (load data2 p) (load data1 p) = true)
      by congruence.
    apply x86cpuidMatchMasked_true. rewrite A, B, C, D. simpl.
    by rewrite !Z.land_0_r. }
  split; [done|]. unfold compare_class. rewrite Hn1.
  destruct (is_null data2 p) eqn:Hn2; [by left|].
  assert (x86cpuidMatch (load data1 p) (load data2 p) = false) as Hm.
  { destruct (x86cpuidMatch (load data1 p) (load data2 p)) eqn:Hm; [|done].
    rewrite x86cpuidMatch_sym in Hm.
    apply x86cpuidMatchMasked_of_Match in Hm. congruence. }
  rewrite Hm. rewrite x86cpuidMatch_sym in Hm. rewrite Hm, Hpriv. simpl.
  destruct (x86cpuidMatchMasked (load data1 p) (load data2 p)); simpl; auto.
Qed.

Lemma x86ModelCompare_self model :
  x86DataWF (model_data model) -> x86ModelCompare model model = EQUAL.
Proof.
  intros [Hi Hs]. rewrite x86ModelCompare_run by done.
  rewrite compare_run_none; [done|].
  apply Forall_app. split; apply Forall_fmap, Forall_forall; intros p Hp;
    apply elem_of_x86DataLeaves in Hp as [_ Hn]; simpl;
    unfold compare_class; by rewrite Hn, x86cpuidMatch_refl.
Qed.

Lemma x86ModelCompare_subset model1 model2 :
  x86DataWF (model_data model1) -> x86DataWF (model_data model2) ->
  bits_subset (model_data model1) (model_data model2) ->
  ~ bits_equal (model_data model1) (model_data model2) ->
  x86ModelCompare model1 model2 = SUBSET.
Proof.
  intros [I1 S1] [I2 S2] Hsub Hne. rewrite x86ModelCompare_run by done.
  set (data1 := model_data model1) in *. set (data2 := model_data model2) in *.
  assert (forall p, is_null data1 p = false -> is_null data2 p = false) as Hnn.
  { intros p Hn. destruct (is_null data2 p) eqn:Hn2; [|done].
    unfold is_null in *.
    by rewrite (x86cpuidMatchMasked_null _ _ Hn2 (Hsub p)) in Hn. }
  rewrite (compare_run_only _ SUBSET); [done|done| |].
  - apply Forall_app. split; apply Forall_fmap, Forall_forall; intros p Hp;
      apply elem_of_x86DataLeaves in Hp as [_ Hn]; simpl;
      unfold compare_class.
    + rewrite (Hnn p Hn).
      destruct (x86cpuidMatch (load data1 p) (load data2 p)) eqn:Hm; [by left|].
      destruct (x86cpuidMatchMasked (load data1 p) (load data2 p)) eqn:Hmm;
        [|by right].
      by rewrite (x86cpuidMatchMasked_antisym _ _ Hmm (Hsub p)) in Hm.
    + destruct (is_null data1 p); [by right|].
      destruct (x86cpuidMatch (load data2 p) (load data1 p)); [by left|].
      rewrite (Hsub p). by right.
  - destruct (not_bits_equal _ _ Hne) as (p & Hp).
    assert (is_null data2 p = false) as Hn2.
    { destruct (is_null data2 p) eqn:Hn2; [|done]. unfold is_null in Hn2.
      pose proof (x86cpuidMatchMasked_null _ _ Hn2 (Hsub p)) as Hn1.
      rewrite x86cpuidMatch_sym in Hn2.
      by rewrite (x86cpuidMatch_trans _ _ _ Hn1 Hn2) in Hp. }
    apply elem_of_app. right. apply list_elem_of_fmap. exists p.
    split; [|by apply elem_of_x86DataLeaves, conj;
                [apply valid_of_not_null|]].
    unfold compare_class. destruct (is_null data1 p); [done|].
    rewrite x86cpuidMatch_sym, Hp, (Hsub p). done.
Qed.

Lemma x86ModelCompare_unrelated model1 model2 :
  x86DataWF (model_data model1) -> x86DataWF (model_data model2) ->
  ~ bits_subset (model_data model1) (model_data model2) ->
  ~ bits_subset (model_data model2) (model_data model1) ->
  x86ModelCompare model1 model2 = UNRELATED.
Proof.
  intros [I1 S1] [I2 S2] H12 H21. rewrite x86ModelCompare_run by done.
  set (data1 := model_data model1) in *. set (data2 := model_data model2) in *.
  destruct (not_bits_subset _ _ H12) as (p & Hp).
  destruct (not_bits_subset _ _ H21) as (q & Hq).
  destruct (private_bit_class data1 data2 SUPERSET SUBSET p Hp)
    as (Hp1 & Hpc).
  destruct (private_bit_class data2 data1 SUBSET SUPERSET q Hq)
    as (Hq2 & Hqc).
  rewrite compare_run_mixed; [done| | |].
  - apply Forall_app. split; apply Forall_fmap, Forall_forall; intros r _;
      apply compare_class_directed; auto.
  - apply elem_of_app. destruct Hqc as [Hc|[Hq1 Hc]].
    + right. apply list_elem_of_fmap. exists q. split; [done|].
      apply elem_of_x86DataLeaves. split; [by apply valid_of_not_null|done].
    + left. apply list_elem_of_fmap. exists q. split; [done|].
      apply elem_of_x86DataLeaves. split; [by apply valid_of_not_null|done].
  - apply elem_of_app. destruct Hpc as [Hc|[Hp2 Hc]].
    + left. apply list_elem_of_fmap. exists p. split; [done|].
      apply elem_of_x86DataLeaves. split; [by apply valid_of_not_null|done].
    + right. apply list_elem_of_fmap. exists p. split; [done|].
      apply elem_of_x86DataLeaves. split; [by apply valid_of_not_null|done].
Qed.

(** C3.  For models whose data satisfy the structural invariant:
    [x86ModelCompare] of a model with itself is [EQUAL]; when every tuple
    of [model1] is mask-contained in the tuple of [model2] for the same
    function and the two do not have the same bits, the result is
    [SUBSET]; and when the two have a tuple that is not null for a common
    function, and each has a bit that the other lacks, the result is
    [UNRELATED]. *)
Theorem x86ModelCompare_outcomes (model1 model2 : x86_model) :
  x86DataWF (model_data model1) ->
  x86DataWF (model_data model2) ->
  x86ModelCompare model1 model1 = EQUAL /\
  (bits_subset (model_data model1) (model_data model2) ->
   ~ bits_equal (model_data model1) (model_data model2) ->
   x86ModelCompare model1 model2 = SUBSET) /\
  ((exists p, is_null (model_data model1) p = false /\
              is_null (model_data model2) p = false) ->
   ~ bits_subset (model_data model1) (model_data model2) ->
   ~ bits_subset (model_data model2) (model_data model1) ->
   x86ModelCompare model1 model2 = UNRELATED).
Proof.
  intros W1 W2. split; [by apply x86ModelCompare_self|].
  split; [by apply x86ModelCompare_subset|].
  intros _. by apply x86ModelCompare_unrelated.
Qed.

(** ** The data of a loaded catalog is well formed *)

Definition x86MapWF (map : x86_map) : Prop :=
  Forall (fun f => x86DataWF (feature_data f)) (map_features map) /\
  Forall (fun m => x86DataWF (model_data m)) (map_models map).

Lemma x86DataNew_WF : x86DataWF x86DataNew.
Proof.
  split; [split; intros i c; simpl; by rewrite lookup_nil|].
  unfold x86DataSized, basic_len, extended_len. simpl. lia.
Qed.

Lemma x86DataCopy_WF data : x86DataWF data -> x86DataWF (x86DataCopy data).
Proof. by rewrite x86DataCopy_eq. Qed.

Lemma x86DataAdd_WF data1 data2 :
  x86DataWF data1 -> x86DataWF data2 -> x86DataWF (x86DataAdd data1 data2).
Proof.
  intros [I1 S1] [_ S2].
  destruct (x86DataAdd_shape data1 data2 I1 S1 S2) as (? & ? & _). done.
Qed.

Lemma x86DataAddCpuid_WF data cpuid :
  x86DataWF data -> 0 <= function cpuid < 2 ^ 32 ->
  x86DataWF (x86DataAddCpuid data cpuid).
Proof.
  intros [I1 S1] Hfn.
  destruct (x86DataAddCpuid_shape data cpuid I1 S1 Hfn) as (? & ? & _). done.
Qed.

Lemma x86DataSubtract_WF data1 data2 :
  x86DataWF data1 -> x86DataWF (x86DataSubtract data1 data2).
Proof.
  intros [I1 [Sb Se]].
  destruct (x86DataSubtract_shape data1 data2 I1) as (? & Lb & Le).
  split; [done|]. unfold x86DataSized, basic_len, extended_len in *.
  rewrite Lb, Le. done.
Qed.

Lemma x86FeatureFind_list_elem features name f :
  x86FeatureFind_list features name = Some f ->
  f ∈ features /\ feature_name f = name.
Proof.
  induction features as [|g features IH]; simpl; [done|].
  unfold STREQ. destruct (String.eqb_spec (feature_name g) name) as [He|Hne].
  - intros [= ->]. split; [left|done].
  - intros H. destruct (IH H). split; [by right|done].
Qed.

Lemma x86ModelFind_list_elem ms name m :
  x86ModelFind_list ms name = Some m ->
  m ∈ ms /\ model_name m = Some name.
Proof.
  induction ms as [|g ms IH]; simpl; [done|].
  destruct (model_name g) as [n|] eqn:Hn.
  - unfold STREQ. destruct (String.eqb_spec n name) as [He|Hne].
    + intros [= ->]. split; [left|congruence].
    + intros H. destruct (IH H). split; [by right|done].
  - intros H. destruct (IH H). split; [by right|done].
Qed.

Lemma x86FeatureFind_WF map name f :
  x86MapWF map -> x86FeatureFind map name = Some f ->
  x86DataWF (feature_data f).
Proof.
  intros [Hf _] Hfind. apply x86FeatureFind_list_elem in Hfind as [Hin _].
  by apply (proj1 (Forall_forall _ _) Hf).
Qed.

Lemma x86ModelFind_WF map name m :
  x86MapWF map -> x86ModelFind map name = Some m ->
  x86DataWF (model_data m).
Proof.
  intros [_ Hm] Hfind. apply x86ModelFind_list_elem in Hfind as [Hin _].
  by apply (proj1 (Forall_forall _ _) Hm).
Qed.

Lemma wrap32_range z : 0 <= wrap32 z < 2 ^ 32.
Proof. unfold wrap32. apply Z.mod_pos_bound. lia. Qed.

Lemma x86FeatureLoad_cpuids_WF fname i nodes data data' :
  x86DataWF data ->
  x86FeatureLoad_cpuids fname i nodes data = inl data' ->
  x86DataWF data'.
Proof.
  revert i data. induction nodes as [|node nodes IH]; intros i data Hwf; simpl.
  - by intros [= <-].
  - destruct (_ || _); [done|]. apply IH.
    apply x86DataAddCpuid_WF; [done|]. simpl. apply wrap32_range.
Qed.

Lemma x86ModelLoad_features_WF map mname nodes data data' :
  x86MapWF map -> x86DataWF data ->
  x86ModelLoad_features map mname nodes data = inl data' ->
  x86DataWF data'.
Proof.
  intros Hmap. revert data.
  induction nodes as [|[fname|] nodes IH]; intros data Hwf; simpl.
  - by intros [= <-].
  - destruct (x86FeatureFind map fname) as [f|] eqn:Hf; [|done].
    apply IH. apply x86DataAdd_WF; [done|]. by eapply x86FeatureFind_WF.
  - done.
Qed.

(** A load function leaves the catalog as it was or puts one element at
    the head of one of its lists. *)
Inductive map_extends (map : x86_map) : x86_map -> Prop :=
| map_unchanged : map_extends map map
| map_new_vendor v :
    map_extends map
      (mk_map (v :: map_vendors map) (map_features map) (map_models map))
| map_new_feature f :
    x86DataWF (feature_data f) ->
    map_extends map
      (mk_map (map_vendors map) (f :: map_features map) (map_models map))
| map_new_model m :
    is_Some (model_name m) ->
    (x86MapWF map -> x86DataWF (model_data m)) ->
    map_extends map
      (mk_map (map_vendors map) (map_features map) (m :: map_models map)).

Lemma x86MapLoadCallback_extends element map :
  map_extends map (load_map (x86MapLoadCallback element map)).
Proof.
  destruct element as [ctxt|ctxt|ctxt|]; simpl; [| | |constructor].
  - unfold x86VendorLoad.
    destruct (xml_vendor_name ctxt); [|constructor].
    destruct (x86VendorFind map s); [constructor|].
    destruct (xml_vendor_string ctxt); [|constructor].
    destruct (negb _); constructor.
  - unfold x86FeatureLoad.
    destruct (xml_feature_name ctxt); [|constructor].
    destruct (x86FeatureFind map s); [constructor|].
    destruct (xml_feature_cpuid ctxt) as [nodes|]; [|constructor].
    destruct (x86FeatureLoad_cpuids s 0 nodes x86DataNew) as [data|] eqn:Hl;
      [|constructor].
    simpl. apply map_new_feature. simpl.
    eapply x86FeatureLoad_cpuids_WF; [apply x86DataNew_WF|done].
  - unfold x86ModelLoad.
    destruct (xml_model_name ctxt) as [mname|]; [|constructor].
    destruct (xml_model_model ctxt) as [[aname|]|]; simpl.
    + destruct (x86ModelFind map aname) as [anc|] eqn:Ha; [|constructor].
      destruct (xml_model_vendor ctxt) as [[vname|]|]; simpl.
      * destruct (x86VendorFind map vname); [|constructor].
        destruct (xml_model_feature ctxt) as [nodes|]; [|constructor].
        destruct (x86ModelLoad_features _ _ _ _) as [data|] eqn:Hl;
          [|constructor].
        simpl. apply map_new_model; simpl; [done|intros Hmap].
        eapply x86ModelLoad_features_WF; [done| |done]. simpl.
        apply x86DataCopy_WF. by eapply x86ModelFind_WF.
      * constructor.
      * destruct (xml_model_feature ctxt) as [nodes|]; [|constructor].
        destruct (x86ModelLoad_features _ _ _ _) as [data|] eqn:Hl;
          [|constructor].
        simpl. apply map_new_model; simpl; [done|intros Hmap].
        eapply x86ModelLoad_features_WF; [done| |done]. simpl.
        apply x86DataCopy_WF. by eapply x86ModelFind_WF.
    + constructor.
    + destruct (xml_model_vendor ctxt) as [[vname|]|]; simpl.
      * destruct (x86VendorFind map vname); [|constructor].
        destruct (xml_model_feature ctxt) as [nodes|]; [|constructor].
        destruct (x86ModelLoad_features _ _ _ _) as [data|] eqn:Hl;
          [|constructor].
        simpl. apply map_new_model; simpl; [done|intros Hmap].
        eapply x86ModelLoad_features_WF; [done| |done]. simpl.
        apply x86DataNew_WF.
      * constructor.
      * destruct (xml_model_feature ctxt) as [nodes|]; [|constructor].
        destruct (x86ModelLoad_features _ _ _ _) as [data|] eqn:Hl;
          [|constructor].
        simpl. apply map_new_model; simpl; [done|intros Hmap].
        eapply x86ModelLoad_features_WF; [done| |done]. simpl.
        apply x86DataNew_WF.
Qed.

Lemma map_extends_WF map map' :
  map_extends map map' -> x86MapWF map -> x86MapWF map'.
Proof.
  intros [|v|f Hf|m _ Hm] [Hfs Hms]; split; simpl; auto.
  constructor; [|done]. by apply Hm.
Qed.

Lemma cpuMapLoad_WF elements map map' :
  x86MapWF map -> cpuMapLoad elements map = Some map' -> x86MapWF map'.
Proof.
  revert map. induction elements as [|e elements IH]; intros map Hwf; simpl.
  - by intros [= <-].
  - destruct (_ <? 0); [done|]. apply IH.
    eapply map_extends_WF; [apply x86MapLoadCallback_extends|done].
Qed.

Lemma x86LoadMap_WF cpu_map map :
  x86LoadMap cpu_map = Some map -> x86MapWF map.
Proof. apply cpuMapLoad_WF. by split. Qed.

Lemma x86ModelFromCPU_features_WF cpu map policy features model model' :
  x86MapWF map -> x86DataWF (model_data model) ->
  x86ModelFromCPU_features cpu map policy features model = Some model' ->
  x86DataWF (model_data model').
Proof.
  intros Hmap. revert model.
  induction features as [|f features IH]; intros model Hwf; simpl.
  - by intros [= <-].
  - destruct (_ && _); [by apply IH|].
    destruct (x86FeatureFind map (fd_name f)) as [feature|] eqn:Hf; [|done].
    apply IH. simpl. apply x86DataAdd_WF; [done|]. by eapply x86FeatureFind_WF.
Qed.

Lemma x86ModelFromCPU_WF cpu map policy model :
  x86MapWF map ->
  x86ModelFromCPU cpu map policy = Some model ->
  x86DataWF (model_data model).
Proof.
  intros Hmap. unfold x86ModelFromCPU.
  destruct (bool_decide (policy = VIR_CPU_FEATURE_REQUIRE)).
  - destruct (x86ModelFind map (cpu_model cpu)) as [m|] eqn:Hm; [|done].
    apply x86ModelFromCPU_features_WF; [done|]. simpl.
    apply x86DataCopy_WF. by eapply x86ModelFind_WF.
  - destruct (bool_decide (cpu_type cpu = VIR_CPU_TYPE_HOST)).
    + intros [= <-]. apply x86DataNew_WF.
    + apply x86ModelFromCPU_features_WF; [done|]. apply x86DataNew_WF.
Qed.

(** ** The compute pipeline, from the require check on *)

(** The architecture check of [x86Compute] passes. *)
Definition x86Compute_arch_ok (cpu : virCPUDef) : Prop :=
  cpu_arch cpu = VIR_ARCH_NONE \/ cpu_arch cpu ∈ archs.

(** The vendor check passes. *)
Definition x86Compute_vendor_ok (host cpu : virCPUDef) : Prop :=
  match cpu_vendor cpu with
  | Some cv => cpu_vendor host = Some cv
  | None => True
  end.

#[global] Instance x86Compute_arch_ok_dec cpu :
  Decision (x86Compute_arch_ok cpu).
Proof. unfold x86Compute_arch_ok. apply _. Defined.

#[global] Instance x86Compute_vendor_ok_dec host cpu :
  Decision (x86Compute_vendor_ok host cpu).
Proof. unfold x86Compute_vendor_ok. destruct (cpu_vendor cpu); apply _. Defined.

(** The six models that [x86Compute] builds. *)
Record compute_models : Type := mk_compute_models {
  host_model : x86_model;
  cpu_force : x86_model;
  cpu_require : x86_model;
  cpu_optional : x86_model;
  cpu_disable : x86_model;
  cpu_forbid : x86_model
}.

Definition x86Compute_models (map : x86_map) (host cpu : virCPUDef)
           (ms : compute_models) : Prop :=
  x86ModelFromCPU host map VIR_CPU_FEATURE_REQUIRE = Some (host_model ms) /\
  x86ModelFromCPU cpu map VIR_CPU_FEATURE_FORCE = Some (cpu_force ms) /\
  x86ModelFromCPU cpu map VIR_CPU_FEATURE_REQUIRE = Some (cpu_require ms) /\
  x86ModelFromCPU cpu map VIR_CPU_FEATURE_OPTIONAL = Some (cpu_optional ms) /\
  x86ModelFromCPU cpu map VIR_CPU_FEATURE_DISABLE = Some (cpu_disable ms) /\
  x86ModelFromCPU cpu map VIR_CPU_FEATURE_FORBID = Some (cpu_forbid ms).

(** [x86Compute] gets past the forbid check: both checks pass, the catalog
    loads, the models are built and the host has no forbidden feature. *)
Definition x86Compute_passes_forbid (cpu_map : list cpuMapElement)
           (host cpu : virCPUDef) (map : x86_map) (ms : compute_models)
  : Prop :=
  x86Compute_arch_ok cpu /\
  x86Compute_vendor_ok host cpu /\
  x86LoadMap cpu_map = Some map /\
  x86Compute_models map host cpu ms /\
  x86DataIsEmpty (x86DataIntersect (model_data (cpu_forbid ms))
                                   (model_data (host_model ms))) = true.

(** [cpu_require->data] after the three subtractions. *)
Definition require_normalized (ms : compute_models) : cpuX86Data :=
  x86DataSubtract
    (x86DataSubtract
       (x86DataSubtract (model_data (cpu_require ms))
                        (model_data (cpu_force ms)))
       (model_data (cpu_optional ms)))
    (model_data (cpu_disable ms)).

(** [diff->data] after the four subtractions. *)
Definition compute_diff (ms : compute_models) : cpuX86Data :=
  x86DataSubtract
    (x86DataSubtract
       (x86DataSubtract
          (x86DataSubtract (model_data (host_model ms))
                           (model_data (cpu_optional ms)))
          (require_normalized ms))
       (model_data (cpu_disable ms)))
    (model_data (cpu_force ms)).

(** The result of the comparison of the host with the normalized
    requirements. *)
Definition require_compare (ms : compute_models) : compare_result :=
  x86ModelCompare (host_model ms)
                  (set_data (require_normalized ms) (cpu_require ms)).

Lemma x86Compute_after_forbid cpu_map host cpu guest message map ms :
  x86Compute_passes_forbid cpu_map host cpu map ms ->
  let r := x86Compute cpu_map host cpu guest message in
  if bool_decide (require_compare ms = SUBSET)
     || bool_decide (require_compare ms = UNRELATED)
  then
    r = virX86CpuIncompatible map message
          "Host CPU does not provide required features"
          (x86DataSubtract (require_normalized ms)
                           (model_data (host_model ms)))
  else if negb (x86DataIsEmpty (compute_diff ms))
          && bool_decide (cpu_type cpu = VIR_CPU_TYPE_GUEST)
          && bool_decide (cpu_match cpu = VIR_CPU_MATCH_STRICT)
  then
    r = virX86CpuIncompatible map message
          "Host CPU does not strictly match guest CPU: Extra features"
          (compute_diff ms)
  else
    compute_ret r =
      (if x86DataIsEmpty (compute_diff ms)
       then VIR_CPU_COMPARE_IDENTICAL else VIR_CPU_COMPARE_SUPERSET) /\
    compute_message_out r = None /\
    (if guest then is_Some (compute_guest r) else compute_guest r = None).
Proof.
  intros (Harch & Hvendor & Hmap & (H1 & H2 & H3 & H4 & H5 & H6) & Hforbid).
  unfold x86Compute.
  assert (negb (bool_decide (cpu_arch cpu = VIR_ARCH_NONE)) &&
          negb (existsb (fun a => bool_decide (a = cpu_arch cpu)) archs)
          = false) as ->.
  { destruct Harch as [->|Hin]; [done|].
    apply andb_false_iff. right. apply negb_false_iff.
    apply existsb_exists. exists (cpu_arch cpu).
    split; [by rewrite <- list_elem_of_In|by apply bool_decide_eq_true_2]. }
  assert (match cpu_vendor cpu with
          | Some cv => match cpu_vendor host with
                       | Some hv => STRNEQ cv hv
                       | None => true
                       end
          | None => false
          end = false) as ->.
  { unfold x86Compute_vendor_ok in Hvendor.
    destruct (cpu_vendor cpu) as [cv|]; [|done]. rewrite Hvendor.
    unfold STRNEQ. by rewrite String.eqb_refl. }
  rewrite Hmap, H1, H2, H3, H4, H5, H6. cbn [set_data model_data].
  rewrite Hforbid. cbn [negb]. fold (require_normalized ms).
  change (x86ModelCompare (host_model ms) _) with (require_compare ms).
  destruct (bool_decide (require_compare ms = SUBSET)
            || bool_decide (require_compare ms = UNRELATED)) eqn:Hcmp;
    cbv beta iota zeta; [done|].
  unfold x86ModelCopy. cbn [set_data model_data model_name model_vendor].
  rewrite !x86DataCopy_eq. fold (compute_diff ms).
  destruct (x86DataIsEmpty (compute_diff ms)) eqn:Hd; cbn [negb].
  - change (bool_decide (VIR_CPU_COMPARE_IDENTICAL = VIR_CPU_COMPARE_SUPERSET))
      with false.
    cbn [andb]. by destruct guest.
  - change (bool_decide (VIR_CPU_COMPARE_SUPERSET = VIR_CPU_COMPARE_SUPERSET))
      with true.
    cbn [andb].
    destruct (bool_decide (cpu_type cpu = VIR_CPU_TYPE_GUEST)
              && bool_decide (cpu_match cpu = VIR_CPU_MATCH_STRICT)); [done|].
    by destruct guest.
Qed.

(** ** Names of the features of a store *)

Local Open Scope string_scope.

Lemma string_app_assoc (a b c : string) : (a ++ b) ++ c = a ++ (b ++ c).
Proof.
  induction a as [|ch a IH]; [done|].
  change (String ch ((a ++ b) ++ c) = String ch (a ++ (b ++ c))).
  by f_equal.
Qed.

Lemma string_app_nil_r (a : string) : a ++ "" = a.
Proof.
  induction a as [|ch a IH]; [done|].
  change (String ch (a ++ "") = String ch a). by f_equal.
Qed.

(** The names of the catalog features that [data] contains, in catalog
    order. *)
Definition contained_features (map : x86_map) (data : cpuX86Data)
  : list string :=
  feature_name <$>
    List.filter (fun f => x86DataIsSubset data (feature_data f))
                (map_features map).

Lemma x86FeatureNames_foldl separator data features acc :
  fst (foldl (x86FeatureNames_step separator data) (acc, false) features) =
  acc ++ foldr (fun n r => separator ++ n ++ r) ""
           (feature_name <$>
              List.filter (fun f => x86DataIsSubset data (feature_data f))
                          features).
Proof.
  revert acc. induction features as [|f features IH]; intros acc; simpl.
  - by rewrite string_app_nil_r.
  - destruct (x86DataIsSubset data (feature_data f)); simpl; [|apply IH].
    rewrite IH. by rewrite !string_app_assoc.
Qed.

Lemma concat_foldr separator s ns :
  s ++ foldr (fun n r => separator ++ n ++ r) "" ns =
  String.concat separator (s :: ns).
Proof.
  revert s. induction ns as [|n ns IH]; intros s.
  - apply string_app_nil_r.
  - change (s ++ separator ++ n ++ foldr (fun n r => separator ++ n ++ r) "" ns
            = s ++ separator ++ String.concat separator (n :: ns)).
    by rewrite IH.
Qed.

(** [x86FeatureNames] joins the names of the contained features. *)
Lemma x86FeatureNames_concat map separator data :
  x86FeatureNames map separator data =
  String.concat separator (contained_features map data).
Proof.
  unfold x86FeatureNames, contained_features.
  induction (map_features map) as [|f features IH]; [done|].
  cbn [foldl List.filter]. unfold x86FeatureNames_step at 2.
  destruct (x86DataIsSubset data (feature_data f)); [|apply IH].
  cbn [negb fmap list_fmap]. rewrite x86FeatureNames_foldl.
  change ("" ++ feature_name f) with (feature_name f).
  apply concat_foldr.
Qed.

Local Close Scope string_scope.

(** ** Bits of a difference *)

Inductive register : Type := EAX | EBX | ECX | EDX.

Definition reg (r : register) (c : cpuX86cpuid) : Z :=
  match r with
  | EAX => eax c
  | EBX => ebx c
  | ECX => ecx c
  | EDX => edx c
  end.

(** Bit [i] of register [r] of the tuple at [p]; 0 when the store has no
    tuple there. *)
Definition bit (data : cpuX86Data) (p : cpuid_ptr) (r : register) (i : Z)
  : bool :=
  Z.testbit (reg r (load data p)) i.

Lemma x86cpuidClearBits_bit c m r i :
  0 <= i < 32 ->
  Z.testbit (reg r (x86cpuidClearBits c m)) i =
  Z.testbit (reg r c) i && negb (Z.testbit (reg r m) i).
Proof.
  intros Hi. destruct r; simpl;
    rewrite Z.land_spec, testbit_not32 by lia;
    (destruct (Z.ltb_spec i 32); [done|lia]).
Qed.

(** [x86DataSubtract] removes from each tuple of [data1] the bits of the
    tuple of [data2] at the same place, if there is one. *)
Lemma x86DataSubtract_bit data1 data2 p r i :
  x86DataSized data1 -> valid_ptr data1 p -> 0 <= i < 32 ->
  bit (x86DataSubtract data1 data2) p r i =
  bit data1 p r i && negb (bit data2 p r i).
Proof.
  intros Hs Hv Hi. unfold bit. rewrite x86DataSubtract_load by done.
  case_bool_decide as Hv2.
  - by apply x86cpuidClearBits_bit.
  - rewrite (load_invalid data2) by done.
    destruct r; simpl; by rewrite Z.bits_0, andb_true_r.
Qed.

Lemma x86DataSubtract_Sized data1 data2 :
  x86DataSized data1 -> x86DataSized (x86DataSubtract data1 data2).
Proof.
  intros [Sb Se]. destruct (x86DataSubtract_length data1 data2) as [Lb Le].
  unfold x86DataSized, basic_len, extended_len in *. by rewrite Lb, Le.
Qed.

Lemma x86DataSubtract_valid data1 data2 p :
  valid_ptr (x86DataSubtract data1 data2) p <-> valid_ptr data1 p.
Proof.
  destruct (x86DataSubtract_length data1 data2) as [Lb Le].
  by apply valid_ptr_same_length.
Qed.

Lemma x86Compute_models_WF cpu_map host cpu map ms :
  x86LoadMap cpu_map = Some map ->
  x86Compute_models map host cpu ms ->
  x86DataWF (model_data (host_model ms)) /\
  x86DataWF (model_data (cpu_force ms)) /\
  x86DataWF (model_data (cpu_require ms)) /\
  x86DataWF (model_data (cpu_optional ms)) /\
  x86DataWF (model_data (cpu_disable ms)) /\
  x86DataWF (model_data (cpu_forbid ms)).
Proof.
  intros Hmap (H1 & H2 & H3 & H4 & H5 & H6).
  apply x86LoadMap_WF in Hmap.
  repeat split; (eapply x86ModelFromCPU_WF; [exact Hmap|eassumption]).
Qed.

(** The normalized requirements are the requirements without the bits of
    the forced, the optional and the disabled features. *)
Lemma require_normalized_bit ms p r i :
  x86DataWF (model_data (cpu_require ms)) ->
  valid_ptr (model_data (cpu_require ms)) p -> 0 <= i < 32 ->
  bit (require_normalized ms) p r i =
  bit (model_data (cpu_require ms)) p r i &&
  negb (bit (model_data (cpu_force ms)) p r i ||
        bit (model_data (cpu_optional ms)) p r i ||
        bit (model_data (cpu_disable ms)) p r i).
Proof.
  intros [_ Hs] Hv Hi. unfold require_normalized.
  rewrite !x86DataSubtract_bit;
    rewrite ?x86DataSubtract_valid;
    auto using x86DataSubtract_Sized.
  destruct (bit (model_data (cpu_require ms)) p r i),
    (bit (model_data (cpu_force ms)) p r i),
    (bit (model_data (cpu_optional ms)) p r i),
    (bit (model_data (cpu_disable ms)) p r i); done.
Qed.

(** C1.  When [x86Compute] is past the forbid check, the requirements are
    normalized: from [cpu_require->data] the data of the forced, of the
    optional and of the disabled features are subtracted, which removes
    from every tuple of it exactly the bits that one of the three has at
    the same place.  Then, when [x86ModelCompare(host_model, cpu_require)]
    is [SUBSET] or [UNRELATED], [x86Compute] returns
    [VIR_CPU_COMPARE_INCOMPATIBLE], gives no guest data, and its message
    names the catalog features contained in [cpu_require->data] minus
    [host_model->data]. *)
Theorem x86Compute_require_check
        (cpu_map : list cpuMapElement) (host cpu : virCPUDef)
        (guest message : bool) (map : x86_map) (ms : compute_models) :
  x86Compute_passes_forbid cpu_map host cpu map ms ->
  (forall p r i,
     valid_ptr (model_data (cpu_require ms)) p -> 0 <= i < 32 ->
     bit (require_normalized ms) p r i =
     bit (model_data (cpu_require ms)) p r i &&
     negb (bit (model_data (cpu_force ms)) p r i ||
           bit (model_data (cpu_optional ms)) p r i ||
           bit (model_data (cpu_disable ms)) p r i)) /\
  (x86ModelCompare (host_model ms)
                   (set_data (require_normalized ms) (cpu_require ms)) = SUBSET
   \/ x86ModelCompare (host_model ms)
                      (set_data (require_normalized ms) (cpu_require ms))
      = UNRELATED ->
   x86Compute cpu_map host cpu guest message =
   mk_compute_result VIR_CPU_COMPARE_INCOMPATIBLE
     (if message
      then Some (incompatible_features
                   "Host CPU does not provide required features"
                   (String.concat ", "
                      (contained_features map
                         (x86DataSubtract (require_normalized ms)
                                          (model_data (host_model ms))))))
      else None)
     None).
Proof.
  intros Hpass. split.
  - intros p r i Hv Hi. apply require_normalized_bit; [|done|done].
    destruct Hpass as (_ & _ & Hmap & Hms & _).
    by destruct (x86Compute_models_WF _ _ _ _ _ Hmap Hms) as (_ & _ & ? & _).
  - intros Hcmp.
    pose proof (x86Compute_after_forbid _ _ _ guest message _ _ Hpass) as H.
    fold (require_compare ms) in Hcmp. cbv zeta in H.
    assert (bool_decide (require_compare ms = SUBSET)
            || bool_decide (require_compare ms = UNRELATED) = true) as Hb.
    { destruct Hcmp as [-> | ->]; done. }
    rewrite Hb in H. rewrite H. unfold virX86CpuIncompatible.
    by rewrite x86FeatureNames_concat.
Qed.

(** Every tuple of a store that [x86DataIsEmpty] finds empty is null. *)
Lemma x86DataIsEmpty_null data :
  x86DataIsEmpty data = true <->
  forall p, x86cpuidMatch (load data p) cpuidNull = true.
Proof.
  rewrite x86DataIsEmpty_spec. split.
  - intros Hl p. fold (is_null data p).
    destruct (is_null data p) eqn:Hn; [done|].
    assert (p ∈ x86DataLeaves data) as Hin
      by (apply elem_of_x86DataLeaves; split;
          [by apply valid_of_not_null|done]).
    rewrite Hl in Hin. by apply elem_of_nil in Hin.
  - intros Hn. destruct (x86DataLeaves data) as [|p l] eqn:Hl; [done|].
    assert (p ∈ x86DataLeaves data) as Hin by (rewrite Hl; left).
    apply elem_of_x86DataLeaves in Hin as [_ Hp].
    unfold is_null in Hp. by rewrite Hn in Hp.
Qed.

(** C2.  When [x86Compute] is past the arch, vendor, forbid and require
    checks, with [diff] the data of the host model minus the data of the
    optional, the (normalized) required, the disabled and the forced
    features: the result is [VIR_CPU_COMPARE_IDENTICAL] exactly when
    [diff] is empty; when [diff] is not empty it is
    [VIR_CPU_COMPARE_SUPERSET], except for a guest CPU with strict match,
    where it is [VIR_CPU_COMPARE_INCOMPATIBLE] with a message that names
    the features contained in [diff]. *)
Theorem x86Compute_classification
        (cpu_map : list cpuMapElement) (host cpu : virCPUDef)
        (guest message : bool) (map : x86_map) (ms : compute_models) :
  x86Compute_passes_forbid cpu_map host cpu map ms ->
  x86ModelCompare (host_model ms)
                  (set_data (require_normalized ms) (cpu_require ms))
    <> SUBSET ->
  x86ModelCompare (host_model ms)
                  (set_data (require_normalized ms) (cpu_require ms))
    <> UNRELATED ->
  let diff := compute_diff ms in
  let strict_guest :=
    cpu_type cpu = VIR_CPU_TYPE_GUEST /\ cpu_match cpu = VIR_CPU_MATCH_STRICT in
  let r := x86Compute cpu_map host cpu guest message in
  (compute_ret r = VIR_CPU_COMPARE_IDENTICAL <-> x86DataIsEmpty diff = true) /\
  (x86DataIsEmpty diff = false -> ~ strict_guest ->
   compute_ret r = VIR_CPU_COMPARE_SUPERSET) /\
  (x86DataIsEmpty diff = false -> strict_guest ->
   r = mk_compute_result VIR_CPU_COMPARE_INCOMPATIBLE
         (if message
          then Some (incompatible_features
                       "Host CPU does not strictly match guest CPU: Extra features"
                       (String.concat ", " (contained_features map diff)))
          else None)
         None).
Proof.
  intros Hpass Hns Hnu diff strict_guest r.
  pose proof (x86Compute_after_forbid _ _ _ guest message _ _ Hpass) as H.
  fold (require_compare ms) in Hns, Hnu. cbv zeta in H. fold r in H.
  clearbody r.
  rewrite (bool_decide_eq_false_2 (require_compare ms = SUBSET)) in H by done.
  rewrite (bool_decide_eq_false_2 (require_compare ms = UNRELATED)) in H
    by done.
  cbn [orb] in H. fold diff in H. subst strict_guest.
  destruct (x86DataIsEmpty diff) eqn:Hd; cbn [negb andb] in H.
  - destruct H as (Hr & _). rewrite Hr. repeat split; done.
  - destruct (decide (cpu_type cpu = VIR_CPU_TYPE_GUEST)) as [Ht|Ht];
      destruct (decide (cpu_match cpu = VIR_CPU_MATCH_STRICT)) as [Hm|Hm].
    + rewrite !bool_decide_eq_true_2 in H by done. cbn [andb] in H.
      rewrite H. unfold virX86CpuIncompatible.
      rewrite x86FeatureNames_concat. cbn [compute_ret].
      split; [split; done|]. split; [|done].
      intros _ Hns'. destruct Hns'. by split.
    + rewrite (bool_decide_eq_false_2 (cpu_match cpu = _)) in H by done.
      rewrite andb_false_r in H. destruct H as (Hr & _). rewrite Hr.
      split; [split; done|]. split; [done|]. intros _ [_ ?]. done.
    + rewrite (bool_decide_eq_false_2 (cpu_type cpu = _)) in H by done.
      cbn [andb] in H. destruct H as (Hr & _). rewrite Hr.
      split; [split; done|]. split; [done|]. intros _ [? _]. done.
    + rewrite (bool_decide_eq_false_2 (cpu_type cpu = _)) in H by done.
      cbn [andb] in H. destruct H as (Hr & _). rewrite Hr.
      split; [split; done|]. split; [done|]. intros _ [? _]. done.
Qed.

(** C9.  The architecture check and the vendor check of [x86Compute] come
    before the catalog is loaded and before any name is looked up: when
    [cpu] has a vendor and [host] has none or another one, the result is
    [VIR_CPU_COMPARE_INCOMPATIBLE] for every CPU map, every model name and
    every list of features of [cpu], so never [VIR_CPU_COMPARE_ERROR]. *)
Theorem x86Compute_vendor_mismatch
        (cpu_map : list cpuMapElement) (host cpu : virCPUDef)
        (guest message : bool) (cv : string) :
  cpu_vendor cpu = Some cv ->
  cpu_vendor host <> Some cv ->
  compute_ret (x86Compute cpu_map host cpu guest message) =
    VIR_CPU_COMPARE_INCOMPATIBLE /\
  compute_guest (x86Compute cpu_map host cpu guest message) = None /\
  forall cpu_map' model' features',
    x86Compute cpu_map' host
      (set_features features' (set_model model' cpu)) guest message =
    x86Compute cpu_map host cpu guest message.
Proof.
  intros Hcv Hhv.
  assert (forall cm c, cpu_vendor c = Some cv -> cpu_arch c = cpu_arch cpu ->
            x86Compute cm host c guest message =
            if negb (bool_decide (cpu_arch cpu = VIR_ARCH_NONE)) &&
               negb (existsb (fun a => bool_decide (a = cpu_arch cpu)) archs)
            then mk_compute_result VIR_CPU_COMPARE_INCOMPATIBLE
                   (if message
                    then Some (CPU_arch_does_not_match_host_arch (cpu_arch cpu))
                    else None) None
            else mk_compute_result VIR_CPU_COMPARE_INCOMPATIBLE
                   (if message
                    then Some (host_CPU_vendor_does_not_match cv)
                    else None) None) as Hall.
  { intros cm c Hc Ha. unfold x86Compute. rewrite Ha, Hc.
    destruct (negb _ && negb _); [done|].
    destruct (cpu_vendor host) as [hv|] eqn:Hh; [|done].
    unfold STRNEQ. destruct (String.eqb_spec cv hv) as [->|Hne]; [done|done]. }
  rewrite (Hall cpu_map cpu Hcv eq_refl).
  split; [by destruct (negb _ && negb _)|].
  split; [by destruct (negb _ && negb _)|].
  intros cm model' features'. by apply Hall.
Qed.

(** ** Containment as [x86DataIsSubset] tests it *)

(** [data] has a tuple for the function of [c] that is not null and that
    mask-contains [c]. *)
Definition leaf_contained (data : cpuX86Data) (c : cpuX86cpuid) : Prop :=
  match x86DataCpuid data (function c) with
  | Some cpuid => x86cpuidMatchMasked (load data cpuid) c = true
  | None => False
  end.

(** [data] mask-contains every tuple of [subset] that is not null. *)
Definition x86DataContains (data subset : cpuX86Data) : Prop :=
  forall p, p ∈ x86DataLeaves subset -> leaf_contained data (load subset p).

#[global] Instance leaf_contained_dec data c : Decision (leaf_contained data c).
Proof.
  unfold leaf_contained. destruct (x86DataCpuid data (function c)); apply _.
Defined.

#[global] Instance x86DataContains_dec data subset :
  Decision (x86DataContains data subset).
Proof.
  refine (cast_if (decide (Forall (fun p => leaf_contained data (load subset p))
                                  (x86DataLeaves subset))));
    unfold x86DataContains; by rewrite Forall_forall in *.
Defined.

Lemma x86DataIsSubset_spec data subset :
  x86DataIsSubset data subset = true <-> x86DataContains data subset.
Proof.
  unfold x86DataIsSubset, x86DataContains.
  rewrite (while_next_leaves (fun _ : unit => subset))
    by (intros; by repeat split).
  induction (x86DataLeaves subset) as [|p l IH]; simpl.
  - split; [intros _ p Hp; by apply elem_of_nil in Hp|done].
  - unfold leaf_contained at 1.
    destruct (x86DataCpuid data (function (load subset p))) as [q|] eqn:Hq.
    + destruct (x86cpuidMatchMasked (load data q) (load subset p)) eqn:Hm;
        simpl.
      * rewrite IH. split.
        -- intros Hl p' [->|Hp']%elem_of_cons; [|by apply Hl].
           unfold leaf_contained. by rewrite Hq.
        -- intros Hl p' Hp'. apply Hl. by right.
      * split; [done|]. intros Hl. specialize (Hl p (list_elem_of_here _ _)).
        unfold leaf_contained in Hl. rewrite Hq in Hl. congruence.
    + split; [done|]. intros Hl. specialize (Hl p (list_elem_of_here _ _)).
      unfold leaf_contained in Hl. by rewrite Hq in Hl.
Qed.

(** For a store that satisfies the invariant this is containment of
    bits. *)
Lemma x86DataContains_bits data subset :
  x86DataWF subset ->
  x86DataContains data subset <-> bits_subset subset data.
Proof.
  intros [Hi Hs]. unfold x86DataContains, bits_subset. split.
  - intros Hc p. destruct (is_null subset p) eqn:Hn.
    + unfold is_null in Hn. apply x86cpuidMatch_true in Hn as (A & B & C & D).
      apply x86cpuidMatchMasked_true. rewrite A, B, C, D. simpl.
      by rewrite !Z.land_0_r.
    + assert (p ∈ x86DataLeaves subset) as Hp
        by (apply elem_of_x86DataLeaves; split;
            [by apply valid_of_not_null|done]).
      specialize (Hc p Hp). unfold leaf_contained in Hc.
      rewrite (x86DataCpuid_at subset data p Hi Hs) in Hc
        by (by apply valid_of_not_null).
      by destruct (is_null data p).
  - intros Hb p Hp. apply elem_of_x86DataLeaves in Hp as [Hv Hn].
    unfold leaf_contained. rewrite (x86DataCpuid_at subset data p Hi Hs Hv).
    destruct (is_null data p) eqn:Hnd; [|apply Hb].
    unfold is_null in *.
    by rewrite (x86cpuidMatchMasked_null _ _ Hnd (Hb p)) in Hn.
Qed.

(** C7, as the code has it.  [x86HasFeature] is 1 when the catalog has a
    feature of that name and the data mask-contains every tuple of the
    feature's data that is not null, 0 when the catalog has the feature and
    the data does not contain it, and [-1] when the catalog has no feature
    of that name (or cannot be loaded). *)
Theorem x86HasFeature_result
        (cpu_map : list cpuMapElement) (data : virCPUData) (name : string) :
  x86HasFeature cpu_map data name =
  match x86LoadMap cpu_map with
  | None => -1
  | Some map =>
      match x86FeatureFind map name with
      | None => -1
      | Some feature =>
          if decide (x86DataContains (data_x86 data) (feature_data feature))
          then 1 else 0
      end
  end.
Proof.
  unfold x86HasFeature. destruct (x86LoadMap cpu_map) as [map|]; [|done].
  destruct (x86FeatureFind map name) as [feature|]; [|done].
  destruct (x86DataIsSubset (data_x86 data) (feature_data feature)) eqn:Hs;
    case_decide as Hc; try done.
  - by apply x86DataIsSubset_spec in Hs.
  - apply x86DataIsSubset_spec in Hc. congruence.
Qed.

(** ** Elements that the load functions reject *)

(** A [cpuid] record that [x86FeatureLoad] does not accept: no (or no
    hexadecimal) [function], or a register that is not hexadecimal. *)
Definition cpuid_node_invalid (node : xml_cpuid) : Prop :=
  xpath_ret (attr_function node) < 0 \/
  xpath_ret (attr_eax node) = -2 \/ xpath_ret (attr_ebx node) = -2 \/
  xpath_ret (attr_ecx node) = -2 \/ xpath_ret (attr_edx node) = -2.

Definition x86Vendor_rejected (ctxt : xml_vendor) (map : x86_map) : Prop :=
  xml_vendor_name ctxt = None \/
  (exists n, xml_vendor_name ctxt = Some n /\ is_Some (x86VendorFind map n)) \/
  xml_vendor_string ctxt = None \/
  (exists s, xml_vendor_string ctxt = Some s /\
             String.length s <> VENDOR_STRING_LENGTH).

Definition x86Feature_rejected (ctxt : xml_feature) (map : x86_map) : Prop :=
  xml_feature_name ctxt = None \/
  (exists n, xml_feature_name ctxt = Some n /\
             is_Some (x86FeatureFind map n)) \/
  (exists nodes node, xml_feature_cpuid ctxt = Some nodes /\
                      node ∈ nodes /\ cpuid_node_invalid node).

Definition x86Model_rejected (ctxt : xml_model) (map : x86_map) : Prop :=
  xml_model_name ctxt = None \/
  xml_model_model ctxt = Some None \/
  (exists a, xml_model_model ctxt = Some (Some a) /\
             x86ModelFind map a = None) \/
  xml_model_vendor ctxt = Some None \/
  (exists v, xml_model_vendor ctxt = Some (Some v) /\
             x86VendorFind map v = None) \/
  (exists nodes, xml_model_feature ctxt = Some nodes /\
     (None ∈ nodes \/
      exists f, Some f ∈ nodes /\ x86FeatureFind map f = None)).

(** The element is one that a load function refuses: a vendor or feature
    whose name the catalog already has, an element without a name, a
    vendor string that is missing or not 12 bytes long, a malformed
    [cpuid] record, or a model that refers to an ancestor, a vendor or a
    feature that the catalog does not have. *)
Definition element_rejected (element : cpuMapElement) (map : x86_map) : Prop :=
  match element with
  | CPU_MAP_ELEMENT_VENDOR ctxt => x86Vendor_rejected ctxt map
  | CPU_MAP_ELEMENT_FEATURE ctxt => x86Feature_rejected ctxt map
  | CPU_MAP_ELEMENT_MODEL ctxt => x86Model_rejected ctxt map
  | CPU_MAP_ELEMENT_LAST => False
  end.

(** The element was ignored: the result is 0, the catalog is as it was
    and an error was reported. *)
Definition ignored_with_report (map : x86_map) (r : load_result) : Prop :=
  load_ret r = 0 /\ load_map r = map /\ is_Some (load_reported r).

(** The tuple that [x86FeatureLoad] reads from a [cpuid] node. *)
Definition xml_cpuid_tuple (node : xml_cpuid) : cpuX86cpuid :=
  {| function := wrap32 (xpath_value (attr_function node));
     eax := wrap32 (xpath_value (attr_eax node));
     ebx := wrap32 (xpath_value (attr_ebx node));
     ecx := wrap32 (xpath_value (attr_ecx node));
     edx := wrap32 (xpath_value (attr_edx node)) |}.

#[global] Instance cpuid_node_invalid_dec node :
  Decision (cpuid_node_invalid node).
Proof. unfold cpuid_node_invalid. apply _. Defined.

(** The [cpuid] nodes that the loop of [x86FeatureLoad] gets to, up to the
    first one that it does not accept, have functions for which
    [x86DataAddCpuid] can extend the array. *)
Fixpoint cpuids_in_reach (nodes : list xml_cpuid) : Prop :=
  match nodes with
  | [] => True
  | node :: rest =>
      cpuid_node_invalid node \/
      (function_in_reach (xml_cpuid_tuple node) /\ cpuids_in_reach rest)
  end.

#[global] Instance cpuids_in_reach_dec nodes : Decision (cpuids_in_reach nodes).
Proof. induction nodes as [|node rest IH]; simpl; apply _. Defined.

(** The features that the loop of [x86ModelLoad] gets to, up to the first
    [feature] node that it does not accept, have data with fewer than
    [2^31] tuples in each array, by which [x86DataAdd] can extend the data
    of the model. *)
Fixpoint features_in_reach (map : x86_map) (nodes : list (option string))
  : Prop :=
  match nodes with
  | Some fname :: rest =>
      match x86FeatureFind map fname with
      | Some feature =>
          x86DataShort (feature_data feature) /\ features_in_reach map rest
      | None => True
      end
  | _ => True
  end.

#[global] Instance features_in_reach_dec map nodes :
  Decision (features_in_reach map nodes).
Proof.
  induction nodes as [|[fname|] rest IH]; simpl; [apply _| |apply _].
  destruct (x86FeatureFind map fname); apply _.
Defined.

(** The element keeps the load function inside the arrays of the store
    that it fills: the data of a new feature, to which the loop of
    [x86FeatureLoad] adds the [cpuid] nodes once the name was found to be
    new, and the data of a new model, to which the loop of [x86ModelLoad]
    adds the data of the features. *)
Definition element_in_reach (element : cpuMapElement) (map : x86_map) : Prop :=
  match element with
  | CPU_MAP_ELEMENT_FEATURE ctxt =>
      match xml_feature_name ctxt, xml_feature_cpuid ctxt with
      | Some fname, Some nodes =>
          x86FeatureFind map fname = None -> cpuids_in_reach nodes
      | _, _ => True
      end
  | CPU_MAP_ELEMENT_MODEL ctxt =>
      match xml_model_feature ctxt with
      | Some nodes => features_in_reach map nodes
      | None => True
      end
  | _ => True
  end.

#[global] Instance element_in_reach_dec element map :
  Decision (element_in_reach element map).
Proof.
  destruct element as [ctxt|ctxt|ctxt|]; simpl; [apply _| | |apply _].
  - destruct (xml_feature_name ctxt); [|apply _].
    destruct (xml_feature_cpuid ctxt); apply _.
  - destruct (xml_model_feature ctxt); apply _.
Defined.

Lemma x86FeatureLoad_cpuids_invalid fname i nodes data node :
  node ∈ nodes -> cpuid_node_invalid node ->
  exists e, x86FeatureLoad_cpuids fname i nodes data = inr e.
Proof.
  intros Hin Hbad. revert i data.
  induction nodes as [|n nodes IH]; intros i data; [by apply elem_of_nil in Hin|].
  simpl.
  destruct ((xpath_ret (attr_function n) <? 0) || _ || _ || _ || _) eqn:Hc;
    [by eexists|].
  apply elem_of_cons in Hin as [->|Hin]; [|by apply IH].
  exfalso. rewrite !orb_false_iff in Hc.
  destruct Hc as ((((H1 & H2) & H3) & H4) & H5).
  unfold cpuid_node_invalid in Hbad. lia.
Qed.

Lemma x86ModelLoad_features_unknown map mname nodes data :
  (None ∈ nodes \/ exists f, Some f ∈ nodes /\ x86FeatureFind map f = None) ->
  exists e, x86ModelLoad_features map mname nodes data = inr e.
Proof.
  revert data. induction nodes as [|[fname|] nodes IH]; intros data Hbad; simpl.
  - destruct Hbad as [H|(f & H & _)]; by apply elem_of_nil in H.
  - destruct (x86FeatureFind map fname) as [feature|] eqn:Hf; [|by eexists].
    apply IH. destruct Hbad as [H|(f & H & Hnone)].
    + left. by apply elem_of_cons in H as [?|?].
    + right. apply elem_of_cons in H as [[= ->]|H]; [congruence|eauto].
  - by eexists.
Qed.

Lemma x86VendorLoad_rejected ctxt map :
  x86Vendor_rejected ctxt map ->
  ignored_with_report map (x86VendorLoad ctxt map).
Proof.
  unfold x86VendorLoad, ignored_with_report, x86Vendor_rejected.
  destruct (xml_vendor_name ctxt) as [vname|]; [|by repeat split].
  destruct (x86VendorFind map vname) as [v|] eqn:Hfind; [by repeat split|].
  destruct (xml_vendor_string ctxt) as [str|]; [|by repeat split].
  destruct (negb (String.length str =? VENDOR_STRING_LENGTH)%nat) eqn:Hlen;
    [by repeat split|].
  intros Hrej. exfalso. apply negb_false_iff, Nat.eqb_eq in Hlen.
  destruct Hrej as [?|[(n & [= <-] & Hs)|[?|(s & [= <-] & Hne)]]];
    try done.
  rewrite Hfind in Hs. by destruct Hs.
Qed.

Lemma x86FeatureLoad_rejected ctxt map :
  x86Feature_rejected ctxt map ->
  ignored_with_report map (x86FeatureLoad ctxt map).
Proof.
  unfold x86FeatureLoad, ignored_with_report, x86Feature_rejected.
  destruct (xml_feature_name ctxt) as [fname|]; [|by repeat split].
  destruct (x86FeatureFind map fname) as [f|] eqn:Hfind; [by repeat split|].
  destruct (xml_feature_cpuid ctxt) as [nodes|].
  - intros [?|[(n & [= <-] & Hs)|(nodes' & node & [= <-] & Hin & Hbad)]];
      [done|rewrite Hfind in Hs; by destruct Hs|].
    destruct (x86FeatureLoad_cpuids_invalid fname 0 nodes x86DataNew node
                Hin Hbad) as [e ->].
    by repeat split.
  - intros [?|[(n & [= <-] & Hs)|(nodes' & node & ? & _)]];
      [done|rewrite Hfind in Hs; by destruct Hs|done].
Qed.

Lemma x86ModelLoad_rejected ctxt map :
  x86Model_rejected ctxt map ->
  ignored_with_report map (x86ModelLoad ctxt map).
Proof.
  unfold x86ModelLoad, ignored_with_report, x86Model_rejected.
  destruct (xml_model_name ctxt) as [mname|]; [|by repeat split].
  intros [?|Hrej]; [done|]. revert Hrej.
  destruct (xml_model_model ctxt) as [[aname|]|];
    [destruct (x86ModelFind map aname) as [anc|] eqn:Hfa| |];
    try (by repeat split).
  all: intros [?|[(a & [= <-] & Ha)|Hrej]]; try congruence; revert Hrej.
  all: destruct (xml_model_vendor ctxt) as [[vname|]|];
    [destruct (x86VendorFind map vname) as [v|] eqn:Hfv| |];
    try (by repeat split).
  all: intros [?|[(v' & [= <-] & Hv)|(nodes & Hn & Hbad)]];
    try congruence; rewrite Hn.
  all: match goal with
       | |- context [x86ModelLoad_features ?m ?n ?ns ?d] =>
           destruct (x86ModelLoad_features_unknown m n ns d Hbad) as [e ->]
       end; by repeat split.
Qed.

(** C8, as the code has it.  When the load callback is given an element
    that the load functions refuse (see [element_rejected]), the element
    is ignored: the callback reports an error, its result is 0, not a
    negative one, and the catalog is left exactly as it was, so every
    vendor, feature and model loaded before is still there, unchanged.
    This is for an element that keeps the load function inside the arrays
    of the store it fills until it is refused (see [element_in_reach]):
    no [cpuid] node with function 0x7fffffff or 0xffffffff before the
    malformed one, no feature with [2^31] tuples in an array before the
    unknown one. *)
Theorem x86MapLoadCallback_rejected
        (element : cpuMapElement) (map : x86_map) :
  element_rejected element map ->
  element_in_reach element map ->
  load_ret (x86MapLoadCallback element map) = 0 /\
  load_map (x86MapLoadCallback element map) = map /\
  is_Some (load_reported (x86MapLoadCallback element map)).
Proof.
  intros Hrej _. revert Hrej.
  destruct element as [ctxt|ctxt|ctxt|]; simpl; [| | |done].
  - apply x86VendorLoad_rejected.
  - apply x86FeatureLoad_rejected.
  - apply x86ModelLoad_rejected.
Qed.

(** ** Update of a custom guest CPU *)

(** What the loop of [x86UpdateCustom] makes of a feature whose name the
    catalog knows (or whose policy is not optional). *)
Definition update_optional (map : x86_map) (host_model : x86_model)
           (f : virCPUFeatureDef) : virCPUFeatureDef :=
  if bool_decide (fd_policy f = VIR_CPU_FEATURE_OPTIONAL) then
    match x86FeatureFind map (fd_name f) with
    | Some feature =>
        if x86DataIsSubset (model_data host_model) (feature_data feature)
        then mk_feature_def (fd_name f) VIR_CPU_FEATURE_REQUIRE
        else mk_feature_def (fd_name f) VIR_CPU_FEATURE_DISABLE
    | None => f
    end
  else f.

Lemma x86UpdateCustom_features_stops map host_model pre f post :
  fd_policy f = VIR_CPU_FEATURE_OPTIONAL ->
  x86FeatureFind map (fd_name f) = None ->
  (forall g, g ∈ pre -> fd_policy g = VIR_CPU_FEATURE_OPTIONAL ->
             is_Some (x86FeatureFind map (fd_name g))) ->
  x86UpdateCustom_features map host_model (pre ++ f :: post) =
  (false, (update_optional map host_model <$> pre) ++ f :: post).
Proof.
  intros Hf Hnone. induction pre as [|g pre IH]; intros Hpre.
  - simpl. rewrite bool_decide_eq_true_2 by done. by rewrite Hnone.
  - rewrite fmap_cons.
    specialize (IH (fun g' Hg' => Hpre g' (list_elem_of_further _ _ _ Hg'))).
    revert IH. generalize (update_optional map host_model <$> pre).
    intros pre' IH. simpl. rewrite IH.
    unfold update_optional.
    destruct (bool_decide (fd_policy g = VIR_CPU_FEATURE_OPTIONAL)) eqn:Hg;
      [|done].
    apply bool_decide_eq_true_1 in Hg.
    destruct (Hpre g (list_elem_of_here _ _) Hg) as [feature ->]. done.
Qed.

Lemma update_optional_policy map host_model g :
  fd_policy g = VIR_CPU_FEATURE_OPTIONAL ->
  is_Some (x86FeatureFind map (fd_name g)) ->
  fd_name (update_optional map host_model g) = fd_name g /\
  (fd_policy (update_optional map host_model g) = VIR_CPU_FEATURE_REQUIRE \/
   fd_policy (update_optional map host_model g) = VIR_CPU_FEATURE_DISABLE).
Proof.
  intros Hg [feature Hf]. unfold update_optional.
  rewrite bool_decide_eq_true_2 by done. rewrite Hf.
  destruct (x86DataIsSubset _ _); simpl; auto.
Qed.

Section UpdateProperties.

Variable virCPUDefAddFeature :
  virCPUDef -> string -> virCPUFeaturePolicy -> Z * virCPUDef.
Variable virCPUDefFreeModel : virCPUDef -> virCPUDef.
Variable virCPUDefCopyModel : virCPUDef -> virCPUDef -> bool -> Z * virCPUDef.
Variable virCPUDefCopy : virCPUDef -> option virCPUDef.
Variable virCPUDefUpdateFeature :
  virCPUDef -> string -> virCPUFeaturePolicy -> Z * virCPUDef.

(** C10.  [x86Update] of a guest in custom mode is not atomic: when the
    feature at position [k] of the guest is optional and has a name that
    the catalog does not know (the first such feature: [pre] are the
    [k] features before it), the result is [-1], and the guest is left
    with every optional feature before position [k] already rewritten
    to [REQUIRE] or [DISABLE]; it is not put back as it was. *)
Theorem x86Update_custom_not_atomic
        (cpu_map : list cpuMapElement) (guest host : virCPUDef)
        (map : x86_map) (host_model : x86_model)
        (pre post : list virCPUFeatureDef) (f : virCPUFeatureDef) :
  cpu_mode guest = VIR_CPU_MODE_CUSTOM ->
  x86LoadMap cpu_map = Some map ->
  x86ModelFromCPU host map VIR_CPU_FEATURE_REQUIRE = Some host_model ->
  cpu_features guest = pre ++ f :: post ->
  fd_policy f = VIR_CPU_FEATURE_OPTIONAL ->
  x86FeatureFind map (fd_name f) = None ->
  Forall (fun g => fd_policy g = VIR_CPU_FEATURE_OPTIONAL ->
                   is_Some (x86FeatureFind map (fd_name g))) pre ->
  let r := x86Update virCPUDefAddFeature virCPUDefFreeModel
                     virCPUDefCopyModel virCPUDefCopy virCPUDefUpdateFeature
                     cpu_map guest host in
  fst r = -1 /\
  snd r = set_features
            ((update_optional map host_model <$> pre) ++ f :: post) guest /\
  (forall i g, pre !! i = Some g ->
     fd_policy g = VIR_CPU_FEATURE_OPTIONAL ->
     exists g', cpu_features (snd r) !! i = Some g' /\
                fd_name g' = fd_name g /\
                (fd_policy g' = VIR_CPU_FEATURE_REQUIRE \/
                 fd_policy g' = VIR_CPU_FEATURE_DISABLE)) /\
  ((exists g, g ∈ pre /\ fd_policy g = VIR_CPU_FEATURE_OPTIONAL) ->
   snd r <> guest).
Proof.
  intros Hmode Hmap Hhost Hfs Hf Hnone Hpre r.
  rewrite Forall_forall in Hpre.
  assert (r = (-1, set_features
                     ((update_optional map host_model <$> pre) ++ f :: post)
                     guest)) as Hr.
  { subst r. unfold x86Update. rewrite Hmode. unfold x86UpdateCustom.
    rewrite Hmap, Hhost, Hfs.
    by rewrite x86UpdateCustom_features_stops. }
  clearbody r. subst r. cbn [fst snd].
  split; [done|]. split; [done|]. split.
  - intros i g Hi Hg. exists (update_optional map host_model g).
    split.
    + simpl. rewrite lookup_app_l
        by (rewrite length_fmap; by eapply lookup_lt_Some).
      by rewrite list_lookup_fmap, Hi.
    + apply update_optional_policy; [done|].
      apply Hpre; [|done]. by eapply list_elem_of_lookup_2.
  - intros (g & Hin & Hg) Heq.
    apply (f_equal cpu_features) in Heq. simpl in Heq.
    rewrite Hfs in Heq. apply app_inj_1 in Heq as [Heq _];
      [|by rewrite length_fmap].
    apply list_elem_of_lookup in Hin as [i Hi].
    apply (f_equal (fun l => l !! i)) in Heq.
    rewrite list_lookup_fmap, Hi in Heq. simpl in Heq.
    injection Heq as Heq.
    destruct (update_optional_policy map host_model g Hg) as [_ Hp].
    { apply Hpre; [|done]. by eapply list_elem_of_lookup_2. }
    rewrite Heq, Hg in Hp. by destruct Hp.
Qed.

End UpdateProperties.

(** ** The candidate loop of the decoder *)

(** The models of a loaded catalog have names. *)
Definition models_named (map : x86_map) : Prop :=
  Forall (fun m => is_Some (model_name m)) (map_models map).

Lemma map_extends_named map map' :
  map_extends map map' -> models_named map -> models_named map'.
Proof.
  intros [|v|f Hf|m Hm _] Hn; try done. by constructor.
Qed.

Lemma x86LoadMap_named cpu_map map :
  x86LoadMap cpu_map = Some map -> models_named map.
Proof.
  unfold x86LoadMap.
  assert (models_named (mk_map [] [] [])) as H0 by constructor.
  revert H0. generalize (mk_map [] [] []). revert map.
  induction cpu_map as [|e elements IH]; intros map m0 Hn; simpl.
  - by intros [= <-].
  - destruct (_ <? 0); [done|]. apply IH.
    eapply map_extends_named; [apply x86MapLoadCallback_extends|done].
Qed.

(** [preferred && STREQ(n, preferred)]. *)
Definition is_preferred (preferred : option string) (n : string) : bool :=
  match preferred with
  | Some p => STREQ n p
  | None => false
  end.

(** How a candidate fares before the selection rule is applied to it. *)
Inductive candidate_fate : Type :=
| fate_out                                 (* decoding stops with an error *)
| fate_skip                                (* the candidate is passed over *)
| fate_survive (cpuCandidate : virCPUDef)  (* it reaches the selection *).

#[global] Instance candidate_fate_eq_dec : EqDecision candidate_fate.
Proof. solve_decision. Defined.

(** The candidate kept after [x] was seen: [x] when nothing was kept or
    when [x] has fewer features than what was kept. *)
Definition fewer (kept : option (virCPUDef * cpuX86Data))
           (x : virCPUDef * cpuX86Data) : option (virCPUDef * cpuX86Data) :=
  match kept with
  | None => Some x
  | Some (cpuModel, _) =>
      if (nfeatures (fst x) <? nfeatures cpuModel)%nat then Some x else kept
  end.

(** [x] is the first element of [l] with the fewest features: it has
    fewer features than every element before it and no more than any
    element after it. *)
Definition first_fewest (l : list (virCPUDef * cpuX86Data))
           (x : virCPUDef * cpuX86Data) : Prop :=
  exists l1 l2,
    l = l1 ++ x :: l2 /\
    (forall y, y ∈ l1 -> (nfeatures (fst x) < nfeatures (fst y))%nat) /\
    (forall y, y ∈ l2 -> (nfeatures (fst x) <= nfeatures (fst y))%nat).

Lemma first_fewest_le l x y :
  first_fewest l x -> y ∈ l -> (nfeatures (fst x) <= nfeatures (fst y))%nat.
Proof.
  intros (l1 & l2 & -> & H1 & H2) Hy.
  apply elem_of_app in Hy as [Hy|Hy]; [specialize (H1 y Hy); lia|].
  apply elem_of_cons in Hy as [->|Hy]; [lia|by apply H2].
Qed.

Lemma foldl_fewer_first a l :
  exists x, foldl fewer (Some a) l = Some x /\ first_fewest (a :: l) x.
Proof.
  revert a. induction l as [|y l IH]; intros a; simpl.
  - exists a. split; [done|]. exists [], []. split; [done|].
    split; intros z Hz; by apply elem_of_nil in Hz.
  - destruct a as [m d]. simpl.
    destruct (Nat.ltb_spec (nfeatures (fst y)) (nfeatures m)) as [Hlt|Hge].
    + destruct (IH y) as (x & -> & Hx). exists x. split; [done|].
      pose proof (first_fewest_le _ _ y Hx (list_elem_of_here _ _)) as Hle.
      destruct Hx as (l1 & l2 & Hl & H1 & H2).
      exists ((m, d) :: l1), l2. split; [by rewrite Hl|].
      split; [|done]. intros z [->|Hz]%elem_of_cons; [simpl; lia|by apply H1].
    + destruct (IH (m, d)) as (x & -> & Hx). exists x. split; [done|].
      destruct Hx as (l1 & l2 & Hl & H1 & H2).
      destruct l1 as [|a1 l1]; simpl in Hl; injection Hl as <- ->.
      * exists [], (y :: l2). split; [done|]. split; [done|].
        intros z [->|Hz]%elem_of_cons; [simpl; lia|by apply H2].
      * exists ((m, d) :: y :: l1), l2. split; [done|]. split; [|done].
        pose proof (H1 (m, d) (list_elem_of_here _ _)) as Hm. simpl in Hm.
        intros z [->|[->|Hz]%elem_of_cons]%elem_of_cons;
          [simpl; lia|lia|].
        apply H1. by right.
Qed.

(** [x] is the last element of [l] with the fewest features: it has no
    more features than any element before it and fewer than every element
    after it. *)
Definition last_fewest (l : list (virCPUDef * cpuX86Data))
           (x : virCPUDef * cpuX86Data) : Prop :=
  exists l1 l2,
    l = l1 ++ x :: l2 /\
    (forall y, y ∈ l1 -> (nfeatures (fst x) <= nfeatures (fst y))%nat) /\
    (forall y, y ∈ l2 -> (nfeatures (fst x) < nfeatures (fst y))%nat).

Lemma first_fewest_reverse l x :
  first_fewest l x -> last_fewest (reverse l) x.
Proof.
  intros (l1 & l2 & -> & H1 & H2). exists (reverse l2), (reverse l1).
  split; [by rewrite reverse_app, reverse_cons, <- app_assoc|].
  split; intros y Hy; rewrite elem_of_reverse in Hy.
  - by apply H2.
  - by apply H1.
Qed.

(** The models of a catalog in the order in which they were loaded:
    [x86ModelLoad] links a new model in front of the list, so this is the
    link order reversed. *)
Definition load_order (map : x86_map) : list x86_model :=
  reverse (map_models map).

Lemma map_extends_load_order map map' :
  map_extends map map' -> load_order map `prefix_of` load_order map'.
Proof.
  intros [|v|f Hf|m Hm _]; unfold load_order; simpl; try reflexivity.
  rewrite reverse_cons. by apply prefix_app_r.
Qed.

Lemma cpuMapLoad_load_order elements map map' :
  cpuMapLoad elements map = Some map' ->
  load_order map `prefix_of` load_order map'.
Proof.
  revert map. induction elements as [|e es IH]; intros map; simpl.
  - by intros [= <-].
  - destruct (_ <? 0); [done|]. intros H. etrans; [|by apply IH].
    apply map_extends_load_order, x86MapLoadCallback_extends.
Qed.

Lemma cpuMapLoad_app elements later map map' :
  cpuMapLoad (elements ++ later) map = Some map' ->
  exists map1, cpuMapLoad elements map = Some map1 /\
               cpuMapLoad later map1 = Some map'.
Proof.
  revert map. induction elements as [|e es IH]; intros map; simpl.
  - intros H. by exists map.
  - destruct (_ <? 0); [done|]. apply IH.
Qed.

(** What the beginning of a catalog file loads is the beginning of the
    load order of the whole file. *)
Lemma x86LoadMap_load_order elements later map :
  x86LoadMap (elements ++ later) = Some map ->
  exists map0, x86LoadMap elements = Some map0 /\
               load_order map0 `prefix_of` load_order map.
Proof.
  unfold x86LoadMap. intros H.
  destruct (cpuMapLoad_app _ _ _ _ H) as (map0 & H0 & H1).
  exists map0. split; [done|]. by eapply cpuMapLoad_load_order.
Qed.

Section DecodeProperties.

Variable virCPUDefAddFeature :
  virCPUDef -> string -> virCPUFeaturePolicy -> Z * virCPUDef.
Variable cpuModelIsAllowed : string -> list string -> bool.

(** Adding a feature to a definition does not change its model name. *)
Hypothesis virCPUDefAddFeature_model :
  forall cpu n p, cpu_model (snd (virCPUDefAddFeature cpu n p)) = cpu_model cpu.

Variables (cpu : virCPUDef) (data : cpuX86Data) (map : x86_map)
          (models : list string) (preferred : option string).

Definition candidate_fate_of (candidate : x86_model) : candidate_fate :=
  let candidate_name := default EmptyString (model_name candidate) in
  if negb (cpuModelIsAllowed candidate_name models) then
    if is_preferred preferred candidate_name
       && negb (bool_decide (cpu_fallback cpu = VIR_CPU_FALLBACK_ALLOW))
    then fate_out else fate_skip
  else
    match x86DataToCPU virCPUDefAddFeature data candidate map with
    | None => fate_out
    | Some cpuCandidate =>
        let vendor_differs :=
          match model_vendor candidate, cpu_vendor cpuCandidate with
          | Some cv, Some v => STRNEQ (vendor_name cv) v
          | _, _ => false
          end in
        if vendor_differs then fate_skip
        else if bool_decide (cpu_type cpu = VIR_CPU_TYPE_HOST) then
          match x86Decode_host_features (cpu_features cpuCandidate) with
          | None => fate_skip
          | Some features' =>
              fate_survive (set_features features'
                              (set_type VIR_CPU_TYPE_HOST cpuCandidate))
          end
        else fate_survive cpuCandidate
    end.

(** The candidates that reach the selection, with their data, in the
    order of iteration. *)
Definition survivors (candidates : list x86_model)
  : list (virCPUDef * cpuX86Data) :=
  omap (fun c => match candidate_fate_of c with
                 | fate_survive cc => Some (cc, model_data c)
                 | _ => None
                 end) candidates.

Let round := x86Decode_round virCPUDefAddFeature cpuModelIsAllowed
                             cpu data map models preferred.
Let loop := x86Decode_loop virCPUDefAddFeature cpuModelIsAllowed
                           cpu data map models preferred.

Lemma x86Decode_round_fate candidate kept :
  round candidate kept =
  match candidate_fate_of candidate with
  | fate_out => decode_out
  | fate_skip => decode_next kept
  | fate_survive cc =>
      if is_preferred preferred (cpu_model cc)
      then decode_break (Some (cc, model_data candidate))
      else decode_next (fewer kept (cc, model_data candidate))
  end.
Proof.
  unfold round, x86Decode_round, candidate_fate_of.
  destruct (negb (cpuModelIsAllowed _ models)).
  { unfold is_preferred. by destruct (_ && _). }
  destruct (x86DataToCPU virCPUDefAddFeature data candidate map)
    as [cc|]; [|done].
  destruct (match model_vendor candidate with Some _ => _ | None => _ end);
    [done|].
  destruct (bool_decide (cpu_type cpu = VIR_CPU_TYPE_HOST)).
  - destruct (x86Decode_host_features (cpu_features cc)) as [fs|]; [|done].
    unfold is_preferred.
    destruct preferred as [p|]; [destruct (STREQ _ p); [done|]|];
      (destruct kept as [[m d]|]; [|done]); simpl;
      by destruct (_ <? _)%nat.
  - unfold is_preferred.
    destruct preferred as [p|]; [destruct (STREQ _ p); [done|]|];
      (destruct kept as [[m d]|]; [|done]); simpl;
      by destruct (_ <? _)%nat.
Qed.

Lemma x86DataToCPUFeatures_list_model c policy d features :
  cpu_model (snd (fst (x86DataToCPUFeatures_list virCPUDefAddFeature
                         c policy d features))) = cpu_model c.
Proof.
  revert c d. induction features as [|f features IH]; intros c d; simpl;
    [done|].
  destruct (x86DataIsSubset d (feature_data f)); [|apply IH].
  pose proof (virCPUDefAddFeature_model c (feature_name f) policy) as Hm.
  destruct (virCPUDefAddFeature c (feature_name f) policy) as [r c'].
  simpl in Hm. destruct (r <? 0); simpl; [done|]. by rewrite IH.
Qed.

Lemma x86DataToCPU_model candidate cc :
  x86DataToCPU virCPUDefAddFeature data candidate map = Some cc ->
  cpu_model cc = default EmptyString (model_name candidate).
Proof.
  unfold x86DataToCPU, x86DataToCPUFeatures.
  destruct (x86DataToVendor _ map) as [v copy].
  match goal with
  | |- context [x86DataToCPUFeatures_list _ ?c ?p ?d ?fs] =>
      pose proof (x86DataToCPUFeatures_list_model c p d fs) as H1;
      destruct (x86DataToCPUFeatures_list virCPUDefAddFeature c p d fs)
        as [[r1 c1] d1]
  end.
  simpl in H1. destruct r1; try done.
  match goal with
  | |- context [x86DataToCPUFeatures_list _ ?c ?p ?d ?fs] =>
      pose proof (x86DataToCPUFeatures_list_model c p d fs) as H2;
      destruct (x86DataToCPUFeatures_list virCPUDefAddFeature c p d fs)
        as [[r2 c2] d2]
  end.
  simpl in H2. destruct r2; try done. intros [= <-]. by rewrite H2, H1.
Qed.

Lemma candidate_fate_survive_model candidate cc :
  candidate_fate_of candidate = fate_survive cc ->
  cpu_model cc = default EmptyString (model_name candidate).
Proof.
  unfold candidate_fate_of.
  destruct (negb _); [by destruct (_ && _)|].
  destruct (x86DataToCPU virCPUDefAddFeature data candidate map)
    as [cc0|] eqn:Hcc; [|done].
  apply x86DataToCPU_model in Hcc.
  destruct (match model_vendor candidate with Some _ => _ | None => _ end);
    [done|].
  destruct (bool_decide _).
  - destruct (x86Decode_host_features _); [|done]. by intros [= <-].
  - by intros [= <-].
Qed.

(** Without a preferred survivor the loop keeps the first candidate
    with the fewest features. *)
Lemma x86Decode_loop_fewest candidates kept :
  (forall c, c ∈ candidates -> candidate_fate_of c <> fate_out) ->
  (forall c cc, c ∈ candidates -> candidate_fate_of c = fate_survive cc ->
                is_preferred preferred (cpu_model cc) = false) ->
  loop candidates kept = Some (foldl fewer kept (survivors candidates)).
Proof.
  revert kept. induction candidates as [|c cs IH]; intros kept Hout Hpref;
    [done|].
  unfold loop. cbn [x86Decode_loop app]. fold loop.
  change (x86Decode_round _ _ _ _ _ _ _ c kept) with (round c kept).
  rewrite x86Decode_round_fate. cbn [survivors omap list_omap].
  fold (survivors cs).
  specialize (Hout c (list_elem_of_here _ _)) as Hc.
  specialize (Hpref c) as Hp.
  destruct (candidate_fate_of c) as [| |cc]; [done| |].
  - apply IH; intros; [apply Hout|eapply Hpref]; try by right. done.
  - rewrite (Hp cc (list_elem_of_here _ _) eq_refl). simpl.
    apply IH; intros; [apply Hout|eapply Hpref]; try by right. done.
Qed.

(** A preferred survivor ends the loop. *)
Lemma x86Decode_loop_preferred cs1 c cs2 cc kept :
  (forall c', c' ∈ cs1 -> candidate_fate_of c' <> fate_out) ->
  (forall c' cc', c' ∈ cs1 -> candidate_fate_of c' = fate_survive cc' ->
                  is_preferred preferred (cpu_model cc') = false) ->
  candidate_fate_of c = fate_survive cc ->
  is_preferred preferred (cpu_model cc) = true ->
  loop (cs1 ++ c :: cs2) kept = Some (Some (cc, model_data c)).
Proof.
  revert kept. induction cs1 as [|c1 cs1 IH]; intros kept Hout Hpref Hc Hp;
    unfold loop; cbn [x86Decode_loop app]; fold loop;
    match goal with
    | |- context [x86Decode_round _ _ _ _ _ _ _ ?c0 kept] =>
        change (x86Decode_round _ _ _ _ _ _ _ c0 kept) with (round c0 kept)
    end;
    rewrite x86Decode_round_fate.
  - by rewrite Hc, Hp.
  - specialize (Hout c1 (list_elem_of_here _ _)) as Hc1.
    specialize (Hpref c1) as Hp1.
    destruct (candidate_fate_of c1) as [| |cc1]; [done| |].
    + apply IH; intros; try done; [apply Hout|eapply Hpref]; try by right.
      done.
    + rewrite (Hp1 cc1 (list_elem_of_here _ _) eq_refl).
      apply IH; intros; try done; [apply Hout|eapply Hpref]; try by right.
      done.
Qed.

Lemma survivors_reverse candidates :
  survivors (reverse candidates) = reverse (survivors candidates).
Proof.
  unfold survivors. induction candidates as [|c cs IH]; [done|].
  rewrite reverse_cons, omap_app, IH. cbn [omap list_omap].
  destruct (candidate_fate_of c); simpl;
    by rewrite ?app_nil_r, ?reverse_cons.
Qed.

(** The candidate reaches the selection. *)
Definition survives (candidate : x86_model) : Prop :=
  match candidate_fate_of candidate with
  | fate_survive _ => True
  | _ => False
  end.

#[global] Instance survives_dec candidate : Decision (survives candidate).
Proof. unfold survives. destruct (candidate_fate_of candidate); apply _. Defined.

(** C6, as the code has it.  In the candidate loop of [x86Decode], over
    the models of a loaded catalog in link order, when no candidate makes
    the decoding fail: a candidate survives when it is allowed, its
    vendor does not conflict with the decoded one and, for a host CPU,
    its decoded definition has no disabled feature.  If a survivor has
    the preferred name, the first one that has is selected and the
    iteration stops there.  Otherwise the survivor whose decoded
    definition has the fewest features is selected, the one met first
    in the iteration among those with equally few, which is the one
    loaded last among them; nothing is selected when there is no
    survivor.  The iteration runs against the load order because
    [x86ModelLoad] links a new model in front: what a beginning of the
    catalog file loaded comes first in the load order of the catalog,
    so last in the iteration. *)
Theorem x86Decode_selection (cpu_map : list cpuMapElement) :
  x86LoadMap cpu_map = Some map ->
  Forall (fun c => candidate_fate_of c <> fate_out) (map_models map) ->
  (forall cs1 c cs2 cc,
     map_models map = cs1 ++ c :: cs2 ->
     is_Some preferred ->
     model_name c = preferred ->
     candidate_fate_of c = fate_survive cc ->
     Forall (fun c' => model_name c' = preferred -> ~ survives c') cs1 ->
     loop (map_models map) None = Some (Some (cc, model_data c))) /\
  (Forall (fun c => model_name c = preferred -> ~ survives c)
          (map_models map) ->
   match loop (map_models map) None with
   | Some (Some x) =>
       first_fewest (survivors (map_models map)) x /\
       last_fewest (survivors (load_order map)) x
   | Some None => survivors (map_models map) = []
   | None => False
   end) /\
  (forall elements later,
     cpu_map = elements ++ later ->
     exists map0,
       x86LoadMap elements = Some map0 /\
       load_order map0 `prefix_of` load_order map).
Proof.
  intros Hmap Hout. pose proof Hmap as Hload. apply x86LoadMap_named in Hmap.
  unfold models_named in Hmap. rewrite Forall_forall in Hmap, Hout.
  assert (forall c cc, c ∈ map_models map ->
            candidate_fate_of c = fate_survive cc ->
            (model_name c = preferred -> ~ survives c) ->
            is_preferred preferred (cpu_model cc) = false) as Hnp.
  { intros c cc Hin Hc Hn. rewrite (candidate_fate_survive_model c cc Hc).
    destruct (Hmap c Hin) as [n Hname]. rewrite Hname. simpl.
    unfold is_preferred. destruct preferred as [p|]; [|done].
    unfold STREQ. destruct (String.eqb_spec n p) as [->|Hne]; [|done].
    exfalso. apply (Hn Hname). unfold survives. by rewrite Hc. }
  split; [|split].
  - intros cs1 c cs2 cc Hcs [p Hp] Hname Hc Hcs1.
    rewrite Forall_forall in Hcs1. rewrite Hcs.
    apply x86Decode_loop_preferred; [| |done|].
    + intros c' Hc'. apply Hout. rewrite Hcs. apply elem_of_app. by left.
    + intros c' cc' Hc' Hf. apply (Hnp c' cc'); [|done|by apply Hcs1].
      rewrite Hcs. apply elem_of_app. by left.
    + rewrite (candidate_fate_survive_model c cc Hc), Hname, Hp. simpl.
      unfold STREQ. apply String.eqb_refl.
  - intros Hnone. rewrite Forall_forall in Hnone.
    rewrite x86Decode_loop_fewest; [|done|by eauto].
    unfold load_order. rewrite survivors_reverse.
    destruct (survivors (map_models map)) as [|x0 l]; [done|].
    cbn [foldl fewer].
    destruct (foldl_fewer_first x0 l) as (x & -> & Hx).
    split; [done|]. by apply first_fewest_reverse.
  - intros elements later ->. exact (x86LoadMap_load_order _ _ _ Hload).
Qed.

(** What [x86Decode] stores in [cpu] when it succeeds is the model name of
    the candidate that its loop selected. *)
Lemma x86Decode_model (virCheckFlags : Z -> Z -> bool)
      (cpu_map : list cpuMapElement) (flags : Z) :
  x86LoadMap cpu_map = Some map ->
  fst (x86Decode virCPUDefAddFeature cpuModelIsAllowed virCheckFlags
                 cpu_map cpu (Some data) models preferred flags) = 0 ->
  exists cc cd,
    loop (map_models map) None = Some (Some (cc, cd)) /\
    cpu_model (snd (x86Decode virCPUDefAddFeature cpuModelIsAllowed
                              virCheckFlags cpu_map cpu (Some data) models
                              preferred flags)) = cpu_model cc.
Proof.
  intros Hmap. unfold x86Decode. rewrite Hmap.
  destruct (negb (virCheckFlags _ flags)); [done|].
  fold loop. destruct (loop (map_models map) None) as [[[cc cd]|]|];
    [|done|done].
  destruct (negb (Z.land flags _ =? 0)).
  - destruct (x86DataFromCPUFeatures cc map) as [features|]; [|done].
    unfold x86DataToCPUFeatures.
    match goal with
    | |- context [x86DataToCPUFeatures_list _ ?c ?p ?d ?fs] =>
        pose proof (x86DataToCPUFeatures_list_model c p d fs) as H1;
        destruct (x86DataToCPUFeatures_list virCPUDefAddFeature c p d fs)
          as [[r1 c1] d1]
    end.
    simpl in H1. destruct (r1 <? 0); [done|]. intros _.
    exists cc, cd. split; [done|]. simpl. done.
  - intros _. exists cc, cd. split; [done|]. done.
Qed.

End DecodeProperties.

(** * The catalog of the end-to-end scenarios

    Vendors Intel and AMD; features [fpu] (leaf 1, edx bit 0), [sse2]
    (leaf 1, edx bit 26) and [lm] (leaf 0x80000001, edx bit 29); models
    [base] (fpu), [core2] (extends base, adds sse2, vendor Intel) and
    [x86_64] (extends core2, adds lm). *)

Definition example_cpuid (fn edx_bits : Z) : xml_cpuid :=
  mk_xml_cpuid (XPathValue fn) XPathMissing XPathMissing XPathMissing
               (XPathValue edx_bits).

Definition example_cpu_map : list cpuMapElement :=
  [ CPU_MAP_ELEMENT_VENDOR (mk_xml_vendor (Some "Intel") (Some "GenuineIntel"));
    CPU_MAP_ELEMENT_VENDOR (mk_xml_vendor (Some "AMD") (Some "AuthenticAMD"));
    CPU_MAP_ELEMENT_FEATURE
      (mk_xml_feature (Some "fpu") (Some [example_cpuid 1 0x1]));
    CPU_MAP_ELEMENT_FEATURE
      (mk_xml_feature (Some "sse2") (Some [example_cpuid 1 0x4000000]));
    CPU_MAP_ELEMENT_FEATURE
      (mk_xml_feature (Some "lm")
                      (Some [example_cpuid 0x80000001 0x20000000]));
    CPU_MAP_ELEMENT_MODEL
      (mk_xml_model (Some "base") None None (Some [Some "fpu"]));
    CPU_MAP_ELEMENT_MODEL
      (mk_xml_model (Some "core2") (Some (Some "base")) (Some (Some "Intel"))
                    (Some [Some "sse2"]));
    CPU_MAP_ELEMENT_MODEL
      (mk_xml_model (Some "x86_64") (Some (Some "core2")) None
                    (Some [Some "lm"])) ]%string.

Definition example_map : x86_map :=
  Eval vm_compute in default (mk_map [] [] []) (x86LoadMap example_cpu_map).

Definition example_model (name : string) : x86_model :=
  default x86ModelNew (x86ModelFind example_map name).

Definition example_cpu (type : virCPUType) (match_ : virCPUMatch)
           (model : string) (vendor : option string)
           (features : list virCPUFeatureDef) : virCPUDef :=
  mk_cpu_def type VIR_CPU_MODE_CUSTOM VIR_ARCH_NONE match_
             VIR_CPU_FALLBACK_ALLOW model vendor features.

(** The models [x86Compute] builds for [host] and [cpu] from the catalog. *)
Definition example_models (host cpu : virCPUDef) : compute_models :=
  let model_of c policy :=
    default x86ModelNew (x86ModelFromCPU c example_map policy) in
  mk_compute_models
    (model_of host VIR_CPU_FEATURE_REQUIRE)
    (model_of cpu VIR_CPU_FEATURE_FORCE)
    (model_of cpu VIR_CPU_FEATURE_REQUIRE)
    (model_of cpu VIR_CPU_FEATURE_OPTIONAL)
    (model_of cpu VIR_CPU_FEATURE_DISABLE)
    (model_of cpu VIR_CPU_FEATURE_FORBID).

(** Instances, for the examples, of the functions of the other modules:
    a [virCPUDefAddFeature] that appends the feature, a
    [cpuModelIsAllowed] that allows the listed names (every name when the
    list is empty), and a [virCheckFlags] that refuses other bits. *)
Definition example_virCPUDefAddFeature (cpu : virCPUDef) (name : string)
           (policy : virCPUFeaturePolicy) : Z * virCPUDef :=
  (0, set_features (cpu_features cpu ++ [mk_feature_def name policy]) cpu).

Definition example_cpuModelIsAllowed (model : string) (models : list string)
  : bool :=
  match models with
  | [] => true
  | _ => existsb (String.eqb model) models
  end.

Definition example_virCheckFlags (supported flags : Z) : bool :=
  Z.land flags (Z.lnot supported) =? 0.

(** A closed decidable proposition is proved by evaluating its decision. *)
Ltac by_decision :=
  match goal with
  | |- ?P => apply (@bool_decide_unpack P _); vm_compute; exact I
  end.

Definition host_core2 : virCPUDef :=
  example_cpu VIR_CPU_TYPE_HOST VIR_CPU_MATCH_EXACT "core2" (Some "Intel"%string)
              [].
Definition host_x86_64 : virCPUDef :=
  example_cpu VIR_CPU_TYPE_HOST VIR_CPU_MATCH_EXACT "x86_64"
              (Some "Intel"%string) [].
Definition guest_x86_64_exact : virCPUDef :=
  example_cpu VIR_CPU_TYPE_GUEST VIR_CPU_MATCH_EXACT "x86_64" None [].
Definition guest_core2_strict : virCPUDef :=
  example_cpu VIR_CPU_TYPE_GUEST VIR_CPU_MATCH_STRICT "core2" None [].

Lemma example_passes_forbid host cpu :
  x86Compute_arch_ok cpu ->
  x86Compute_vendor_ok host cpu ->
  x86ModelFromCPU host example_map VIR_CPU_FEATURE_REQUIRE =
    Some (host_model (example_models host cpu)) ->
  x86ModelFromCPU cpu example_map VIR_CPU_FEATURE_FORCE =
    Some (cpu_force (example_models host cpu)) ->
  x86ModelFromCPU cpu example_map VIR_CPU_FEATURE_REQUIRE =
    Some (cpu_require (example_models host cpu)) ->
  x86ModelFromCPU cpu example_map VIR_CPU_FEATURE_OPTIONAL =
    Some (cpu_optional (example_models host cpu)) ->
  x86ModelFromCPU cpu example_map VIR_CPU_FEATURE_DISABLE =
    Some (cpu_disable (example_models host cpu)) ->
  x86ModelFromCPU cpu example_map VIR_CPU_FEATURE_FORBID =
    Some (cpu_forbid (example_models host cpu)) ->
  x86DataIsEmpty
    (x86DataIntersect (model_data (cpu_forbid (example_models host cpu)))
                      (model_data (host_model (example_models host cpu))))
    = true ->
  x86Compute_passes_forbid example_cpu_map host cpu example_map
                           (example_models host cpu).
Proof.
  intros. unfold x86Compute_passes_forbid, x86Compute_models.
  repeat match goal with |- _ /\ _ => split end; try assumption.
  vm_compute. reflexivity.
Defined.

(** Scenario 2: a host [core2] lacks [lm], which a guest [x86_64]
    requires. *)
Lemma x86Compute_require_check_witness :
  x86Compute example_cpu_map host_core2 guest_x86_64_exact true true =
  mk_compute_result VIR_CPU_COMPARE_INCOMPATIBLE
    (Some (incompatible_features
             "Host CPU does not provide required features" "lm"))
    None.
Proof.
  refine (proj2 (x86Compute_require_check example_cpu_map host_core2
                   guest_x86_64_exact true true example_map
                   (example_models host_core2 guest_x86_64_exact) _) _).
  - apply example_passes_forbid; vm_compute; try reflexivity; auto.
  - left. vm_compute. reflexivity.
Defined.

(** Scenario 4: a host [x86_64] has [lm] beyond a guest [core2] with
    strict match. *)
Lemma x86Compute_classification_witness :
  x86Compute example_cpu_map host_x86_64 guest_core2_strict true true =
  mk_compute_result VIR_CPU_COMPARE_INCOMPATIBLE
    (Some (incompatible_features
             "Host CPU does not strictly match guest CPU: Extra features"
             "lm"))
    None.
Proof.
  refine (proj2 (proj2 (x86Compute_classification example_cpu_map host_x86_64
                   guest_core2_strict true true example_map
                   (example_models host_x86_64 guest_core2_strict) _ _ _))
            _ _).
  - apply example_passes_forbid; vm_compute; try reflexivity; auto.
  - vm_compute. discriminate.
  - vm_compute. discriminate.
  - vm_compute. reflexivity.
  - split; reflexivity.
Defined.

(** A guest that asks for vendor Intel on an AMD host, with a model and a
    feature that the catalog does not have. *)
Lemma x86Compute_vendor_mismatch_witness :
  compute_ret
    (x86Compute example_cpu_map
       (example_cpu VIR_CPU_TYPE_HOST VIR_CPU_MATCH_EXACT "core2"
                    (Some "AMD"%string) [])
       (example_cpu VIR_CPU_TYPE_GUEST VIR_CPU_MATCH_EXACT "no-such-model"
                    (Some "Intel"%string)
                    [mk_feature_def "no-such-feature" VIR_CPU_FEATURE_REQUIRE])
       true true) = VIR_CPU_COMPARE_INCOMPATIBLE.
Proof.
  refine (proj1 (x86Compute_vendor_mismatch example_cpu_map _ _ true true
                   "Intel" _ _)).
  - reflexivity.
  - discriminate.
Defined.

(** Two models that share leaf 1, one with [fpu] only and one with [sse2]
    only. *)
Definition model_fpu_only : x86_model :=
  mk_model (Some "fpu-only"%string) None
           (x86DataAddCpuid x86DataNew (mk_cpuid 1 0 0 0 0x1)).
Definition model_sse2_only : x86_model :=
  mk_model (Some "sse2-only"%string) None
           (x86DataAddCpuid x86DataNew (mk_cpuid 1 0 0 0 0x4000000)).

Lemma x86ModelCompare_outcomes_witness :
  x86ModelCompare (example_model "base") (example_model "base") = EQUAL /\
  x86ModelCompare (example_model "base") (example_model "core2") = SUBSET /\
  x86ModelCompare model_fpu_only model_sse2_only = UNRELATED.
Proof.
  assert (x86DataWF (model_data (example_model "base"))) as W1
    by by_decision.
  assert (x86DataWF (model_data (example_model "core2"))) as W2
    by by_decision.
  assert (x86DataWF (model_data model_fpu_only)) as W3 by by_decision.
  assert (x86DataWF (model_data model_sse2_only)) as W4 by by_decision.
  destruct (x86ModelCompare_outcomes (example_model "base")
              (example_model "core2") W1 W2) as (H1 & H2 & _).
  destruct (x86ModelCompare_outcomes model_fpu_only model_sse2_only W3 W4)
    as (_ & _ & H3).
  split; [exact H1|]. split.
  - apply H2; by_decision.
  - apply H3; [|by_decision|by_decision].
    exists (mk_ptr false 1). split; reflexivity.
Defined.

Lemma x86Data_operations_preserve_invariant_witness :
  let data := model_data (example_model "core2") in
  let data2 := model_data (example_model "x86_64") in
  let cpuid := mk_cpuid 0x80000001 0 0 0 0x20000000 in
  x86DataPreserved data (x86DataCopy data) /\
  x86DataPreserved data (x86DataExpand data 2 1) /\
  x86DataPreserved data (x86DataAdd data data2) /\
  x86DataPreserved data (x86DataAddCpuid data cpuid) /\
  x86DataPreserved data (x86DataSubtract data data2) /\
  x86DataPreserved data (x86DataIntersect data data2) /\
  x86DataPreserved data
    (snd (x86DataToVendor_list data (map_vendors example_map))).
Proof.
  apply (x86Data_operations_preserve_invariant
           (model_data (example_model "core2"))
           (model_data (example_model "x86_64"))
           (model_data (example_model "x86_64"))
           (mk_cpuid 0x80000001 0 0 0 0x20000000) 2 1
           (map_vendors example_map)).
  - by_decision.
  - by_decision.
  - by_decision.
  - simpl. lia.
  - by_decision.
  - lia.
  - lia.
  - by_decision.
Defined.

Lemma x86DataSubtract_x86DataIntersect_leaves_witness :
  let data1 := model_data (example_model "x86_64") in
  let data2 := model_data (example_model "base") in
  edx (load (x86DataSubtract data1 data2) (mk_ptr false 1)) = 0x4000000 /\
  edx (load (x86DataIntersect data1 data2) (mk_ptr false 1)) = 0x1 /\
  edx (load (x86DataIntersect data1 data2) (mk_ptr true 1)) = 0.
Proof.
  destruct (x86DataSubtract_x86DataIntersect_leaves
              (model_data (example_model "x86_64"))
              (model_data (example_model "base")) (mk_ptr false 1))
    as (Hs & Hi & _); [by_decision|by_decision|].
  destruct (x86DataSubtract_x86DataIntersect_leaves
              (model_data (example_model "x86_64"))
              (model_data (example_model "base")) (mk_ptr true 1))
    as (_ & Hi' & _); [by_decision|by_decision|].
  cbv zeta. rewrite Hs, Hi, Hi'. repeat split; reflexivity.
Defined.

(** A second vendor element with the name of a vendor that the catalog
    has. *)
Definition duplicate_vendor : cpuMapElement :=
  CPU_MAP_ELEMENT_VENDOR
    (mk_xml_vendor (Some "Intel"%string) (Some "GenuineIntel"%string)).

(** A feature whose second [cpuid] node has no [function]; the first one
    is for leaf 1. *)
Definition malformed_feature : cpuMapElement :=
  CPU_MAP_ELEMENT_FEATURE
    (mk_xml_feature (Some "avx"%string)
       (Some [example_cpuid 1 0x10000000;
              mk_xml_cpuid XPathMissing XPathMissing XPathMissing XPathMissing
                           (XPathValue 1)])).

Lemma x86MapLoadCallback_rejected_witness :
  (load_ret (x86MapLoadCallback duplicate_vendor example_map) = 0 /\
   load_map (x86MapLoadCallback duplicate_vendor example_map) = example_map /\
   is_Some (load_reported (x86MapLoadCallback duplicate_vendor example_map))) /\
  (load_ret (x86MapLoadCallback malformed_feature example_map) = 0 /\
   load_map (x86MapLoadCallback malformed_feature example_map) = example_map /\
   load_reported (x86MapLoadCallback malformed_feature example_map) =
     Some (Invalid_cpuid_in_feature 1 "avx")).
Proof.
  split.
  - apply (x86MapLoadCallback_rejected duplicate_vendor example_map).
    + right. left. exists "Intel"%string. split; [reflexivity|].
      vm_compute. eexists. reflexivity.
    + exact I.
  - destruct (x86MapLoadCallback_rejected malformed_feature example_map)
      as (H1 & H2 & _).
    + right. right. eexists _, _. split; [reflexivity|].
      split; [apply list_elem_of_further, list_elem_of_here|].
      left. simpl. lia.
    + by_decision.
    + split; [exact H1|]. split; [exact H2|]. reflexivity.
Defined.

(** C8 as the spec states it fails: the callback does not produce an
    error result for the duplicate vendor, its result is 0. *)
Lemma x86MapLoadCallback_duplicate_not_error :
  element_rejected duplicate_vendor example_map /\
  load_reported (x86MapLoadCallback duplicate_vendor example_map) =
    Some (CPU_vendor_already_defined "Intel") /\
  ~ load_ret (x86MapLoadCallback duplicate_vendor example_map) < 0.
Proof.
  split; [|split].
  - right. left. exists "Intel"%string. split; [reflexivity|].
    vm_compute. eexists. reflexivity.
  - reflexivity.
  - vm_compute. discriminate.
Qed.

(** C7 as the spec states it fails: for a name that the catalog does not
    have the result is [-1], not 0. *)
Lemma x86HasFeature_unknown_not_zero :
  x86LoadMap example_cpu_map = Some example_map /\
  x86FeatureFind example_map "avx" = None /\
  x86HasFeature example_cpu_map
                (mk_cpu_data VIR_ARCH_X86_64
                             (model_data (example_model "x86_64")))
                "avx" = -1 /\
  x86HasFeature example_cpu_map
                (mk_cpu_data VIR_ARCH_X86_64
                             (model_data (example_model "x86_64")))
                "avx" <> 0.
Proof.
  split; [reflexivity|]. split; [reflexivity|].
  split; [vm_compute; reflexivity|vm_compute; discriminate].
Qed.

(** A guest in custom mode whose second optional feature is unknown. *)
Definition guest_optional : virCPUDef :=
  example_cpu VIR_CPU_TYPE_GUEST VIR_CPU_MATCH_EXACT "base" None
    [ mk_feature_def "sse2" VIR_CPU_FEATURE_OPTIONAL;
      mk_feature_def "no-such-feature" VIR_CPU_FEATURE_OPTIONAL;
      mk_feature_def "lm" VIR_CPU_FEATURE_OPTIONAL ]%string.

Lemma x86Update_custom_not_atomic_witness :
  x86Update example_virCPUDefAddFeature (fun c => c) (fun c _ _ => (0, c))
            (fun c => Some c) (fun c _ _ => (0, c))
            example_cpu_map guest_optional host_core2 =
  (-1, set_features
         [ mk_feature_def "sse2" VIR_CPU_FEATURE_REQUIRE;
           mk_feature_def "no-such-feature" VIR_CPU_FEATURE_OPTIONAL;
           mk_feature_def "lm" VIR_CPU_FEATURE_OPTIONAL ]%string
         guest_optional).
Proof.
  pose proof (x86Update_custom_not_atomic
                example_virCPUDefAddFeature (fun c => c) (fun c _ _ => (0, c))
                (fun c => Some c) (fun c _ _ => (0, c))
                example_cpu_map guest_optional host_core2 example_map
                (example_model "core2")
                [mk_feature_def "sse2" VIR_CPU_FEATURE_OPTIONAL]
                [mk_feature_def "lm" VIR_CPU_FEATURE_OPTIONAL]
                (mk_feature_def "no-such-feature" VIR_CPU_FEATURE_OPTIONAL))
    as H.
  destruct H as (H1 & H2 & _).
  - reflexivity.
  - reflexivity.
  - vm_compute. reflexivity.
  - reflexivity.
  - reflexivity.
  - reflexivity.
  - by_decision.
  - apply injective_projections; [exact H1|]. rewrite H2. vm_compute.
    reflexivity.
Defined.

(** The decoder on the catalog of the scenarios. *)
Definition example_decode_loop (cpu : virCPUDef) (data : cpuX86Data)
           (models : list string) (preferred : option string)
  : option (option (virCPUDef * cpuX86Data)) :=
  x86Decode_loop example_virCPUDefAddFeature example_cpuModelIsAllowed
                 cpu data example_map models preferred
                 (map_models example_map) None.

Definition guest_any : virCPUDef :=
  example_cpu VIR_CPU_TYPE_GUEST VIR_CPU_MATCH_EXACT "" None [].
Definition host_any : virCPUDef :=
  example_cpu VIR_CPU_TYPE_HOST VIR_CPU_MATCH_EXACT "" None [].

(** The data of [base] with the bit of [lm]: decoded against [x86_64] it
    needs one feature (sse2 disabled), against [core2] two, against
    [base] one (lm required). *)
Definition data_base_lm : cpuX86Data :=
  x86DataAdd (x86DataCopy (model_data (example_model "base")))
             (x86DataAddCpuid x86DataNew (mk_cpuid 0x80000001 0 0 0 0x20000000)).

(** With [core2] preferred it is selected although [x86_64] decodes the
    data with fewer features; without a preferred model, of [x86_64] and
    [base], which tie with one feature each, [x86_64] is kept, the one met
    first and loaded last: the catalog was loaded in the order [base],
    [core2], [x86_64], and after its first six elements it held [base]
    alone. *)
Lemma x86Decode_selection_witness :
  (exists cc,
     example_decode_loop guest_any (model_data (example_model "x86_64")) []
                         (Some "core2"%string)
     = Some (Some (cc, model_data (example_model "core2"))) /\
     cpu_model cc = "core2"%string) /\
  (exists x,
     example_decode_loop guest_any data_base_lm [] None = Some (Some x) /\
     cpu_model (fst x) = "x86_64"%string /\
     first_fewest
       (survivors example_virCPUDefAddFeature example_cpuModelIsAllowed
                  guest_any data_base_lm example_map [] None
                  (map_models example_map)) x /\
     last_fewest
       (survivors example_virCPUDefAddFeature example_cpuModelIsAllowed
                  guest_any data_base_lm example_map [] None
                  (load_order example_map)) x) /\
  (exists map0,
     x86LoadMap (take 6 example_cpu_map) = Some map0 /\
     model_name <$> load_order map0 = [Some "base"%string] /\
     model_name <$> load_order example_map =
       [Some "base"; Some "core2"; Some "x86_64"]%string /\
     load_order map0 `prefix_of` load_order example_map).
Proof.
  split; [|split].
  - destruct (x86Decode_selection
                example_virCPUDefAddFeature example_cpuModelIsAllowed
                (fun _ _ _ => eq_refl) guest_any
                (model_data (example_model "x86_64")) example_map []
                (Some "core2"%string) example_cpu_map) as [HA _].
    + reflexivity.
    + by_decision.
    + eexists. split.
      * apply (HA [example_model "x86_64"] (example_model "core2")
                  [example_model "base"]).
        -- reflexivity.
        -- by eexists.
        -- reflexivity.
        -- vm_compute. reflexivity.
        -- by_decision.
      * reflexivity.
  - destruct (x86Decode_selection
                example_virCPUDefAddFeature example_cpuModelIsAllowed
                (fun _ _ _ => eq_refl) guest_any data_base_lm example_map []
                None example_cpu_map) as (_ & HB & _).
    + reflexivity.
    + by_decision.
    + specialize (HB ltac:(by_decision)).
      unfold example_decode_loop.
      destruct (x86Decode_loop example_virCPUDefAddFeature
                  example_cpuModelIsAllowed guest_any data_base_lm example_map
                  [] None (map_models example_map) None)
        as [[x|]|] eqn:Hl; [|discriminate HB|destruct HB].
      exists x. split; [reflexivity|]. split; [|exact HB].
      vm_compute in Hl. injection Hl as <-. reflexivity.
  - destruct (x86Decode_selection
                example_virCPUDefAddFeature example_cpuModelIsAllowed
                (fun _ _ _ => eq_refl) guest_any data_base_lm example_map []
                None example_cpu_map) as (_ & _ & HC).
    + reflexivity.
    + by_decision.
    + destruct (HC (take 6 example_cpu_map) (drop 6 example_cpu_map))
        as (map0 & H0 & Hp); [reflexivity|].
      exists map0. split; [exact H0|].
      vm_compute in H0. injection H0 as <-.
      split; [reflexivity|]. split; [reflexivity|]. exact Hp.
Defined.

(** C6 as the spec states it fails for a host CPU: [core2] has the
    preferred name, is allowed, decodes, and its vendor does not conflict
    (the data has no vendor), but its decoded definition disables [sse2],
    so it is passed over and [base] is selected. *)
Lemma x86Decode_preferred_host_not_selected :
  let data := model_data (example_model "base") in
  model_name (example_model "core2") = Some "core2"%string /\
  example_cpuModelIsAllowed "core2" [] = true /\
  (exists cc,
     x86DataToCPU example_virCPUDefAddFeature data (example_model "core2")
                  example_map = Some cc /\
     model_vendor (example_model "core2") <> None /\
     cpu_vendor cc = None) /\
  fst (x86Decode example_virCPUDefAddFeature example_cpuModelIsAllowed
                 example_virCheckFlags example_cpu_map host_any (Some data)
                 [] (Some "core2"%string) 0) = 0 /\
  cpu_model
    (snd (x86Decode example_virCPUDefAddFeature example_cpuModelIsAllowed
                    example_virCheckFlags example_cpu_map host_any (Some data)
                    [] (Some "core2"%string) 0)) = "base"%string.
Proof.
  cbv zeta. split; [reflexivity|]. split; [reflexivity|]. split.
  - eexists. split; [vm_compute; reflexivity|]. split; [discriminate|].
    reflexivity.
  - split; vm_compute; reflexivity.
Qed.

(** * Further properties

    Properties of the driver beyond those that its specification states:
    the algebra of the stores, the catalog, the models of CPU definitions
    and the results of the entry points. *)

(** ** The store operations, register by register *)

Definition reg_at (l : list cpuX86cpuid) (j : nat) (r : register) : Z :=
  reg r (default cpuidNull (l !! j)).

Lemma reg_load data p r :
  reg r (load data p) = reg_at (leaves_of data (in_extended p)) (index p) r.
Proof.
  unfold load, reg_at, leaves_of. rewrite list_lookup_total_alt.
  by destruct (in_extended p).
Qed.

Lemma reg_null r : reg r cpuidNull = 0.
Proof. by destruct r. Qed.

Lemma reg_SetBits r c m :
  reg r (x86cpuidSetBits c m) = Z.lor (reg r c) (reg r m).
Proof. by destruct r. Qed.

Lemma reg_AndBits r c m :
  reg r (x86cpuidAndBits c m) = Z.land (reg r c) (reg r m).
Proof. by destruct r. Qed.

Lemma reg_ClearBits r c m :
  reg r (x86cpuidClearBits c m) = Z.land (reg r c) (not32 (reg r m)).
Proof. by destruct r. Qed.

Lemma add_loop_reg base (l1 l2 : list cpuX86cpuid) j r :
  reg_at
    (for_loop (length l2) 0
       (fun i l => alter (fun c => x86cpuidSetBits c (l2 !!! i)) i l)
       (l1 ++ padding base (length l1) (length l2 - length l1))) j r =
  Z.lor (reg_at l1 j r) (reg_at l2 j r).
Proof.
  unfold reg_at.
  rewrite (for_loop_alter_lookup
             (fun i c => x86cpuidSetBits c (l2 !!! i))).
  destruct (decide (j < length l2)%nat) as [H2|H2].
  - rewrite bool_decide_eq_true_2 by lia.
    rewrite (list_lookup_total_alt l2 j).
    destruct (decide (j < length l1)%nat) as [H1|H1].
    + rewrite lookup_app_l by done.
      destruct (lookup_lt_is_Some_2 l1 j H1) as [c ->]. simpl.
      by rewrite reg_SetBits.
    + rewrite lookup_app_r by lia.
      rewrite lookup_padding by lia. simpl.
      rewrite (lookup_ge_None_2 l1 j) by lia. simpl.
      rewrite reg_SetBits. by destruct r.
  - rewrite bool_decide_eq_false_2 by lia.
    rewrite (lookup_ge_None_2 l2 j) by lia. simpl. rewrite reg_null, Z.lor_0_r.
    destruct (decide (j < length l1)%nat) as [H1|H1].
    + by rewrite lookup_app_l by done.
    + rewrite (lookup_ge_None_2 l1 j) by lia.
      rewrite lookup_ge_None_2; [done|].
      rewrite length_app, length_padding. lia.
Qed.

Lemma expand_by_add len1 len2 :
  (Z.of_nat len1 <= 2 ^ 31) -> (Z.of_nat len2 < 2 ^ 31) ->
  Z.to_nat (int_of_Z (Z.of_nat len2 - Z.of_nat len1)) = (len2 - len1)%nat.
Proof.
  intros H1 H2. rewrite int_of_Z_small by lia. lia.
Qed.

Lemma x86DataAdd_reg data1 data2 p r :
  x86DataSized data1 -> x86DataShort data2 ->
  reg r (load (x86DataAdd data1 data2) p) =
  Z.lor (reg r (load data1 p)) (reg r (load data2 p)).
Proof.
  intros [S1b S1e] [S2b S2e]. rewrite !reg_load.
  unfold x86DataAdd, leaves_of, basic_len, extended_len in *.
  rewrite x86DataExpand_basic, x86DataExpand_extended.
  rewrite !expand_by_add by lia.
  destruct (in_extended p); simpl; apply add_loop_reg.
Qed.

Lemma reg_at_padding base l n j r :
  reg_at (l ++ padding base (length l) n) j r = reg_at l j r.
Proof.
  unfold reg_at.
  destruct (decide (j < length l)%nat) as [H1|H1].
  - by rewrite lookup_app_l by done.
  - rewrite lookup_app_r by lia. rewrite (lookup_ge_None_2 l j) by lia.
    destruct (decide (j - length l < n)%nat) as [H2|H2].
    + rewrite lookup_padding by done. by destruct r.
    + rewrite lookup_ge_None_2; [done|]. rewrite length_padding. lia.
Qed.

Lemma x86DataExpand_reg data basic_by extended_by p r :
  reg r (load (x86DataExpand data basic_by extended_by) p) =
  reg r (load data p).
Proof.
  rewrite !reg_load. unfold leaves_of.
  rewrite x86DataExpand_basic, x86DataExpand_extended.
  destruct (in_extended p); apply reg_at_padding.
Qed.

Lemma is_null_reg data p :
  is_null data p = true <-> forall r, reg r (load data p) = 0.
Proof.
  unfold is_null. rewrite x86cpuidMatch_true. simpl. split.
  - intros (? & ? & ? & ?) []; done.
  - intros H. repeat split; [apply (H EAX)|apply (H EBX)|apply (H ECX)|
                             apply (H EDX)].
Qed.

Lemma bits_subset_reg data1 data2 :
  bits_subset data1 data2 <->
  forall p r, Z.land (reg r (load data2 p)) (reg r (load data1 p)) =
              reg r (load data1 p).
Proof.
  unfold bits_subset. split.
  - intros H p r. specialize (H p). rewrite x86cpuidMatchMasked_true in H.
    destruct H as (? & ? & ? & ?). by destruct r.
  - intros H p. rewrite x86cpuidMatchMasked_true.
    repeat split; [apply (H p EAX)|apply (H p EBX)|apply (H p ECX)|
                   apply (H p EDX)].
Qed.

Lemma x86DataIsSubset_bits data subset :
  x86DataWF subset ->
  x86DataIsSubset data subset = true <-> bits_subset subset data.
Proof.
  intros Hwf. rewrite x86DataIsSubset_spec. by apply x86DataContains_bits.
Qed.

Lemma x86DataIntersect_WF data1 data2 :
  x86DataWF data1 -> x86DataWF (x86DataIntersect data1 data2).
Proof.
  intros [Hi [Sb Se]].
  destruct (x86DataIntersect_shape data1 data2 Hi) as (Hi' & Lb & Le).
  split; [done|]. unfold x86DataSized, basic_len, extended_len in *.
  rewrite Lb, Le. done.
Qed.

Lemma x86DataIntersect_reg data1 data2 p r :
  x86DataWF data1 ->
  reg r (load (x86DataIntersect data1 data2) p) =
  Z.land (reg r (load data1 p)) (reg r (load data2 p)).
Proof.
  intros [Hi Hs]. rewrite x86DataIntersect_load.
  case_bool_decide as Hp.
  - apply elem_of_x86DataLeaves in Hp as [Hv Hn].
    unfold intersect_leaf. rewrite (x86DataCpuid_at data1 data2 p Hi Hs Hv).
    destruct (is_null data2 p) eqn:Hn2.
    + rewrite x86cpuidClearBits_self.
      rewrite (proj1 (is_null_reg data2 p) Hn2 r), Z.land_0_r. by destruct r.
    + apply reg_AndBits.
  - assert (is_null data1 p = true) as Hn.
    { destruct (is_null data1 p) eqn:Hn; [done|]. exfalso. apply Hp.
      apply elem_of_x86DataLeaves. split; [|done].
      by apply valid_of_not_null. }
    by rewrite (proj1 (is_null_reg data1 p) Hn r), Z.land_0_l.
Qed.

Lemma land_trans a b c : Z.land a b = b -> Z.land b c = c -> Z.land a c = c.
Proof. intros H1 H2. by rewrite <- H2, Z.land_assoc, H1. Qed.

Lemma land_lor_absorb a b : Z.land (Z.lor a b) b = b.
Proof.
  apply Z.bits_inj'. intros i _. rewrite Z.land_spec, Z.lor_spec.
  destruct (Z.testbit a i), (Z.testbit b i); done.
Qed.

Lemma land_lor_mono a b c : Z.land a c = c -> Z.land (Z.lor a b) c = c.
Proof.
  intros H. apply Z.bits_inj'. intros i _.
  apply (f_equal (fun z => Z.testbit z i)) in H.
  rewrite Z.land_spec in H. rewrite Z.land_spec, Z.lor_spec.
  destruct (Z.testbit a i), (Z.testbit b i), (Z.testbit c i); done.
Qed.

Lemma land_land_glb a b c :
  Z.land a c = c -> Z.land b c = c -> Z.land (Z.land a b) c = c.
Proof.
  intros H1 H2. by rewrite <- Z.land_assoc, H2, H1.
Qed.

Lemma bits_subset_refl data : bits_subset data data.
Proof. apply bits_subset_reg. intros p r. apply Z.land_diag. Qed.

Lemma bits_subset_trans data1 data2 data3 :
  bits_subset data1 data2 -> bits_subset data2 data3 ->
  bits_subset data1 data3.
Proof.
  rewrite !bits_subset_reg. intros H12 H23 p r.
  by apply (land_trans _ (reg r (load data2 p))).
Qed.

Lemma bits_subset_add data1 data2 :
  x86DataSized data1 -> x86DataShort data2 ->
  bits_subset data1 (x86DataAdd data1 data2) /\
  bits_subset data2 (x86DataAdd data1 data2).
Proof.
  intros H1 H2. rewrite !bits_subset_reg.
  split; intros p r; rewrite x86DataAdd_reg by done.
  - rewrite Z.lor_comm. apply land_lor_absorb.
  - apply land_lor_absorb.
Qed.

(** X1. The containment test is a preorder on stores that satisfy the
    structural invariant: every store contains itself, and a store that
    contains [data2], which contains [data3], contains [data3]. *)
Theorem x86DataIsSubset_preorder (data1 data2 data3 : cpuX86Data) :
  x86DataWF data1 -> x86DataWF data2 -> x86DataWF data3 ->
  x86DataIsSubset data1 data1 = true /\
  (x86DataIsSubset data1 data2 = true ->
   x86DataIsSubset data2 data3 = true ->
   x86DataIsSubset data1 data3 = true).
Proof.
  intros H1 H2 H3. rewrite !x86DataIsSubset_bits by done. split.
  - apply bits_subset_refl.
  - intros H12 H23. by apply (bits_subset_trans _ data2).
Qed.

(** X2. [x86DataAdd] is the union: every register of every leaf of the sum
    is the bitwise or of the registers of the two stores (a leaf that a
    store does not have counts as zero), so the sum contains both. *)
Theorem x86DataAdd_union (data1 data2 : cpuX86Data) :
  x86DataWF data1 -> x86DataWF data2 -> x86DataShort data2 ->
  (forall p r,
     reg r (load (x86DataAdd data1 data2) p) =
     Z.lor (reg r (load data1 p)) (reg r (load data2 p))) /\
  x86DataIsSubset (x86DataAdd data1 data2) data1 = true /\
  x86DataIsSubset (x86DataAdd data1 data2) data2 = true.
Proof.
  intros H1 H2 Hs. split; [|split].
  - intros p r. apply x86DataAdd_reg; [apply H1|done].
  - apply x86DataIsSubset_bits; [done|].
    apply bits_subset_add; [apply H1|done].
  - apply x86DataIsSubset_bits; [done|].
    apply bits_subset_add; [apply H1|done].
Qed.

(** X3. [x86DataIntersect] is the meet of the containment order: the
    intersection is contained in both stores, and it contains every store
    that both contain. *)
Theorem x86DataIntersect_meet (data1 data2 data : cpuX86Data) :
  x86DataWF data1 -> x86DataWF data ->
  x86DataIsSubset data1 (x86DataIntersect data1 data2) = true /\
  x86DataIsSubset data2 (x86DataIntersect data1 data2) = true /\
  (x86DataIsSubset data1 data = true ->
   x86DataIsSubset data2 data = true ->
   x86DataIsSubset (x86DataIntersect data1 data2) data = true).
Proof.
  intros H1 H.
  pose proof (x86DataIntersect_WF data1 data2 H1) as Hi.
  rewrite !x86DataIsSubset_bits by done. rewrite !bits_subset_reg.
  split; [|split].
  - intros p r. rewrite x86DataIntersect_reg by done.
    rewrite Z.land_assoc. by rewrite Z.land_diag.
  - intros p r. rewrite x86DataIntersect_reg by done.
    rewrite (Z.land_comm (reg r (load data1 p))).
    rewrite Z.land_assoc. by rewrite Z.land_diag.
  - intros Ha Hb p r. rewrite x86DataIntersect_reg by done.
    by apply land_land_glb.
Qed.

Lemma x86DataSubtract_reg data1 data2 p r :
  x86DataSized data1 ->
  Z.land (reg r (load (x86DataSubtract data1 data2) p)) (reg r (load data2 p))
  = 0.
Proof.
  intros Hs. destruct (decide (valid_ptr data1 p)) as [Hv|Hv].
  - rewrite x86DataSubtract_load by done. case_bool_decide as Hv2.
    + rewrite reg_ClearBits, <- Z.land_assoc.
      rewrite (Z.land_comm (not32 _)), land_not32_self. apply Z.land_0_r.
    + rewrite (load_invalid data2 p Hv2), reg_null. apply Z.land_0_r.
  - rewrite load_invalid; [by rewrite reg_null|].
    by rewrite x86DataSubtract_valid.
Qed.

Lemma x86DataIsSubset_subtract data subset :
  x86DataSized data -> x86DataWF subset ->
  x86DataIsSubset (x86DataSubtract data subset) subset =
  x86DataIsEmpty subset.
Proof.
  intros Hs Hwf. apply eq_true_iff_eq.
  rewrite x86DataIsSubset_bits by done.
  rewrite bits_subset_reg, x86DataIsEmpty_null. split.
  - intros H p. apply is_null_reg. intros r.
    rewrite <- (H p r). by apply x86DataSubtract_reg.
  - intros H p r. rewrite (proj1 (is_null_reg subset p) (H p) r).
    apply Z.land_0_r.
Qed.

(** X4. Once [subset] is subtracted from a store the store no longer
    contains it, unless [subset] is empty: an empty store is contained in
    every store. *)
Theorem x86DataIsSubset_after_subtract (data subset : cpuX86Data) :
  x86DataSized data -> x86DataWF subset ->
  x86DataIsSubset (x86DataSubtract data subset) subset =
  x86DataIsEmpty subset.
Proof. apply x86DataIsSubset_subtract. Qed.

(** The tuple that holds the leaf of [function]: [data->basic + function]
    or [data->extended + (function - CPUX86_EXTENDED)]. *)
Definition cpuid_ptr_of (function : Z) : cpuid_ptr :=
  if function <? CPUX86_EXTENDED
  then mk_ptr false (Z.to_nat function)
  else mk_ptr true (Z.to_nat (function - CPUX86_EXTENDED)).

Lemma expand_by_addcpuid len pos :
  0 <= len <= 2 ^ 31 -> 0 <= pos < 2 ^ 31 - 1 ->
  Z.to_nat (int_of_Z (wrap32 (wrap32 (pos + 1) - len))) =
  Z.to_nat (pos + 1 - len).
Proof.
  intros Hlen Hpos. rewrite (wrap32_small (pos + 1)) by lia.
  destruct (decide (pos + 1 - len < 0)) as [Hneg|Hnn].
  - rewrite (wrap32_neg (pos + 1 - len)) by lia.
    rewrite (int_of_Z_high (pos + 1 - len + 2 ^ 32)) by lia. lia.
  - rewrite (wrap32_small (pos + 1 - len)) by lia.
    rewrite (int_of_Z_small (pos + 1 - len)) by lia. done.
Qed.

Lemma valid_ptr_store data p f q :
  valid_ptr (store data p f) q <-> valid_ptr data q.
Proof.
  apply valid_ptr_same_length; apply store_length.
Qed.

Lemma x86DataAddCpuid_store data cpuid :
  x86DataSized data ->
  0 <= function cpuid < 2 ^ 32 ->
  function cpuid <> 0x7fffffff -> function cpuid <> 0xffffffff ->
  valid_ptr (x86DataAddCpuid data cpuid) (cpuid_ptr_of (function cpuid)) /\
  forall q r,
    reg r (load (x86DataAddCpuid data cpuid) q) =
    if decide (q = cpuid_ptr_of (function cpuid))
    then Z.lor (reg r (load data q)) (reg r cpuid)
    else reg r (load data q).
Proof.
  intros [Sb Se] Hfn Hb He. unfold x86DataAddCpuid, cpuid_ptr_of.
  unfold basic_len, extended_len, CPUX86_EXTENDED in *.
  destruct (Z.ltb_spec (function cpuid) 2147483648) as [Hlt|Hge].
  - match goal with
    | |- context [store ?d ?p ?f] => set (data' := d); set (g := f)
    end.
    assert (valid_ptr data' (mk_ptr false (Z.to_nat (function cpuid)))) as Hv.
    { subst data'. unfold valid_ptr, leaves_of. simpl.
      rewrite x86DataExpand_basic, length_app, length_padding.
      rewrite expand_by_addcpuid by lia. lia. }
    split; [by apply valid_ptr_store|].
    intros q r. destruct (decide (q = _)) as [->|Hq].
    + rewrite load_store_eq by done. subst g. cbv beta. rewrite reg_SetBits.
      subst data'. by rewrite x86DataExpand_reg.
    + rewrite load_store_ne by done. subst data'. apply x86DataExpand_reg.
  - rewrite (wrap32_small (function cpuid - 2147483648)) by lia.
    match goal with
    | |- context [store ?d ?p ?f] => set (data' := d); set (g := f)
    end.
    assert (valid_ptr data'
              (mk_ptr true (Z.to_nat (function cpuid - 2147483648)))) as Hv.
    { subst data'. unfold valid_ptr, leaves_of. simpl.
      rewrite x86DataExpand_extended, length_app, length_padding.
      rewrite expand_by_addcpuid by lia. lia. }
    split; [by apply valid_ptr_store|].
    intros q r. destruct (decide (q = _)) as [->|Hq].
    + rewrite load_store_eq by done. subst g. cbv beta. rewrite reg_SetBits.
      subst data'. by rewrite x86DataExpand_reg.
    + rewrite load_store_ne by done. subst data'. apply x86DataExpand_reg.
Qed.

Lemma x86DataCpuid_ptr data fn :
  0 <= fn < 2 ^ 32 ->
  x86DataCpuid data fn =
  if bool_decide (valid_ptr data (cpuid_ptr_of fn)) &&
     negb (is_null data (cpuid_ptr_of fn))
  then Some (cpuid_ptr_of fn) else None.
Proof.
  intros Hfn. unfold x86DataCpuid, cpuid_ptr_of, is_null, valid_ptr, leaves_of.
  unfold basic_len, extended_len, CPUX86_EXTENDED.
  destruct (Z.ltb_spec fn 2147483648) as [Hlt|Hge]; simpl.
  - destruct (Z.ltb_spec fn (Z.of_nat (length (basic data)))) as [H|H].
    + by rewrite bool_decide_eq_true_2 by lia.
    + by rewrite bool_decide_eq_false_2 by lia.
  - destruct (Z.ltb_spec (fn - 2147483648)
                         (Z.of_nat (length (extended data)))) as [H|H].
    + by rewrite bool_decide_eq_true_2 by lia.
    + by rewrite bool_decide_eq_false_2 by lia.
Qed.

(** X5. What [x86DataAddCpuid] stores can be looked up: the bits of [cpuid]
    are or-ed into the leaf of its function, every other leaf keeps its
    bits, and [x86DataCpuid] finds the leaf under that function when
    [cpuid] has a bit set.  The functions 0x7fffffff and 0xffffffff are left
    out: for them the number of tuples to add does not fit the [int]
    parameter of [x86DataExpand]. *)
Theorem x86DataAddCpuid_lookup (data : cpuX86Data) (cpuid : cpuX86cpuid) :
  x86DataSized data ->
  0 <= function cpuid < 2 ^ 32 ->
  function cpuid <> 0x7fffffff -> function cpuid <> 0xffffffff ->
  let data' := x86DataAddCpuid data cpuid in
  let p := cpuid_ptr_of (function cpuid) in
  (forall r, reg r (load data' p) = Z.lor (reg r (load data p)) (reg r cpuid)) /\
  (forall q r, q <> p -> reg r (load data' q) = reg r (load data q)) /\
  (x86cpuidMatch cpuid cpuidNull = false ->
   x86DataCpuid data' (function cpuid) = Some p).
Proof.
  intros Hs Hfn Hb He data' p.
  destruct (x86DataAddCpuid_store data cpuid Hs Hfn Hb He) as [Hv Hreg].
  fold data' p in Hv, Hreg. split; [|split].
  - intros r. rewrite Hreg. by rewrite decide_True.
  - intros q r Hq. rewrite Hreg. by rewrite decide_False.
  - intros Hnn. rewrite x86DataCpuid_ptr by done. fold p.
    rewrite bool_decide_eq_true_2 by done.
    destruct (is_null data' p) eqn:Hn; [|done]. exfalso.
    assert (forall r, reg r cpuid = 0) as Hz.
    { intros r. pose proof (proj1 (is_null_reg data' p) Hn r) as H0.
      rewrite Hreg, decide_True in H0 by done.
      by apply Z.lor_eq_0_iff in H0 as [_ ?]. }
    assert (x86cpuidMatch cpuid cpuidNull = true) as Ht.
    { apply x86cpuidMatch_true. simpl.
      repeat split; [apply (Hz EAX)|apply (Hz EBX)|apply (Hz ECX)|
                     apply (Hz EDX)]. }
    congruence.
Qed.

(** ** The comparator decides the bitwise order *)

Lemma bits_equal_subset data1 data2 :
  bits_equal data1 data2 <->
  bits_subset data1 data2 /\ bits_subset data2 data1.
Proof.
  unfold bits_equal, bits_subset. split.
  - intros H. split; intros p; apply x86cpuidMatchMasked_of_Match;
      [rewrite x86cpuidMatch_sym|]; apply H.
  - intros [H12 H21] p. by apply x86cpuidMatchMasked_antisym.
Qed.

Lemma x86ModelCompare_equal model1 model2 :
  x86DataWF (model_data model1) -> x86DataWF (model_data model2) ->
  bits_equal (model_data model1) (model_data model2) ->
  x86ModelCompare model1 model2 = EQUAL.
Proof.
  intros [I1 S1] [I2 S2] Heq. rewrite x86ModelCompare_run by done.
  set (data1 := model_data model1) in *. set (data2 := model_data model2) in *.
  assert (forall p, is_null data1 p = is_null data2 p) as Hnull.
  { intros p. unfold is_null. specialize (Heq p).
    destruct (x86cpuidMatch (load data2 p) cpuidNull) eqn:H2.
    - by apply (x86cpuidMatch_trans _ (load data2 p)).
    - destruct (x86cpuidMatch (load data1 p) cpuidNull) eqn:H1; [|done].
      rewrite x86cpuidMatch_sym in Heq.
      by rewrite (x86cpuidMatch_trans _ _ _ Heq H1) in H2. }
  rewrite compare_run_none; [done|].
  apply Forall_app. split; apply Forall_fmap, Forall_forall; intros p Hp;
    apply elem_of_x86DataLeaves in Hp as [_ Hn]; simpl; unfold compare_class.
  - rewrite <- Hnull, Hn. by rewrite (Heq p).
  - rewrite Hnull, Hn. by rewrite x86cpuidMatch_sym, (Heq p).
Qed.

Lemma x86ModelCompare_superset model1 model2 :
  x86DataWF (model_data model1) -> x86DataWF (model_data model2) ->
  bits_subset (model_data model2) (model_data model1) ->
  ~ bits_equal (model_data model1) (model_data model2) ->
  x86ModelCompare model1 model2 = SUPERSET.
Proof.
  intros [I1 S1] [I2 S2] Hsub Hne. rewrite x86ModelCompare_run by done.
  set (data1 := model_data model1) in *. set (data2 := model_data model2) in *.
  assert (forall p, is_null data2 p = false -> is_null data1 p = false) as Hnn.
  { intros p Hn. destruct (is_null data1 p) eqn:Hn1; [|done].
    unfold is_null in *.
    by rewrite (x86cpuidMatchMasked_null _ _ Hn1 (Hsub p)) in Hn. }
  rewrite (compare_run_only _ SUPERSET); [done|done| |].
  - apply Forall_app. split; apply Forall_fmap, Forall_forall; intros p Hp;
      apply elem_of_x86DataLeaves in Hp as [_ Hn]; simpl;
      unfold compare_class.
    + destruct (is_null data2 p); [by right|].
      destruct (x86cpuidMatch (load data1 p) (load data2 p)); [by left|].
      rewrite (Hsub p). by right.
    + rewrite (Hnn p Hn).
      destruct (x86cpuidMatch (load data2 p) (load data1 p)) eqn:Hm; [by left|].
      destruct (x86cpuidMatchMasked (load data2 p) (load data1 p)) eqn:Hmm;
        [|by right].
      by rewrite (x86cpuidMatchMasked_antisym _ _ Hmm (Hsub p)) in Hm.
  - destruct (not_bits_equal _ _ Hne) as (p & Hp).
    assert (is_null data1 p = false) as Hn1.
    { destruct (is_null data1 p) eqn:Hn1; [|done]. unfold is_null in Hn1.
      pose proof (x86cpuidMatchMasked_null _ _ Hn1 (Hsub p)) as Hn2.
      rewrite x86cpuidMatch_sym in Hn2.
      by rewrite (x86cpuidMatch_trans _ _ _ Hn1 Hn2) in Hp. }
    apply elem_of_app. left. apply list_elem_of_fmap. exists p.
    split; [|by apply elem_of_x86DataLeaves, conj;
                [apply valid_of_not_null|]].
    unfold compare_class. destruct (is_null data2 p); [done|].
    rewrite Hp, (Hsub p). done.
Qed.

(** X6. The result of [x86ModelCompare] tells how the bits of the two models
    are ordered, and nothing else: it is [EQUAL] exactly when the two have
    the same bits, [SUBSET] exactly when the bits of [model1] are among
    those of [model2] and the two differ, [SUPERSET] exactly in the
    opposite case, and [UNRELATED] exactly when each has a bit that the
    other lacks. *)
Theorem x86ModelCompare_decides (model1 model2 : x86_model) :
  x86DataWF (model_data model1) -> x86DataWF (model_data model2) ->
  let data1 := model_data model1 in
  let data2 := model_data model2 in
  (x86ModelCompare model1 model2 = EQUAL <-> bits_equal data1 data2) /\
  (x86ModelCompare model1 model2 = SUBSET <->
   bits_subset data1 data2 /\ ~ bits_equal data1 data2) /\
  (x86ModelCompare model1 model2 = SUPERSET <->
   bits_subset data2 data1 /\ ~ bits_equal data1 data2) /\
  (x86ModelCompare model1 model2 = UNRELATED <->
   ~ bits_subset data1 data2 /\ ~ bits_subset data2 data1).
Proof.
  intros W1 W2 data1 data2.
  pose proof (bits_equal_subset data1 data2) as Heq.
  destruct (decide (bits_subset data1 data2)) as [H12|H12];
    destruct (decide (bits_subset data2 data1)) as [H21|H21].
  - rewrite (x86ModelCompare_equal model1 model2) by tauto.
    repeat split; try done; tauto.
  - rewrite (x86ModelCompare_subset model1 model2) by tauto.
    repeat split; try done; tauto.
  - rewrite (x86ModelCompare_superset model1 model2) by tauto.
    repeat split; try done; tauto.
  - rewrite (x86ModelCompare_unrelated model1 model2) by tauto.
    repeat split; try done; tauto.
Qed.

(** The result for the two models in the other order. *)
Definition compare_result_flip (r : compare_result) : compare_result :=
  match r with
  | SUBSET => SUPERSET
  | SUPERSET => SUBSET
  | EQUAL => EQUAL
  | UNRELATED => UNRELATED
  end.

(** X7. Although the two loops of [x86ModelCompare] walk the models in a
    fixed order, the comparator treats them alike: with the models
    exchanged the result is the mirrored one. *)
Theorem x86ModelCompare_flip (model1 model2 : x86_model) :
  x86DataWF (model_data model1) -> x86DataWF (model_data model2) ->
  x86ModelCompare model2 model1 =
  compare_result_flip (x86ModelCompare model1 model2).
Proof.
  intros W1 W2.
  pose proof (bits_equal_subset (model_data model1) (model_data model2)) as E1.
  pose proof (bits_equal_subset (model_data model2) (model_data model1)) as E2.
  destruct (decide (bits_subset (model_data model1) (model_data model2)))
    as [H12|H12];
    destruct (decide (bits_subset (model_data model2) (model_data model1)))
    as [H21|H21].
  - rewrite (x86ModelCompare_equal model1 model2) by tauto.
    rewrite (x86ModelCompare_equal model2 model1) by tauto. done.
  - rewrite (x86ModelCompare_subset model1 model2) by tauto.
    rewrite (x86ModelCompare_superset model2 model1) by tauto. done.
  - rewrite (x86ModelCompare_superset model1 model2) by tauto.
    rewrite (x86ModelCompare_subset model2 model1) by tauto. done.
  - rewrite (x86ModelCompare_unrelated model1 model2) by tauto.
    rewrite (x86ModelCompare_unrelated model2 model1) by tauto. done.
Qed.

(** ** Lookups in a loaded catalog *)

Lemma STREQ_true a b : STREQ a b = true <-> a = b.
Proof. unfold STREQ. apply String.eqb_eq. Qed.

Lemma STREQ_false a b : STREQ a b = false <-> a <> b.
Proof. unfold STREQ. apply String.eqb_neq. Qed.

Lemma STRNEQ_false a b : STRNEQ a b = false <-> a = b.
Proof. unfold STRNEQ. rewrite negb_false_iff. apply String.eqb_eq. Qed.

Lemma x86VendorFind_list_None vs n :
  x86VendorFind_list vs n = None <-> n ∉ vendor_name <$> vs.
Proof.
  induction vs as [|v vs IH]; simpl.
  - split; [intros _; apply not_elem_of_nil|done].
  - rewrite not_elem_of_cons. destruct (STREQ (vendor_name v) n) eqn:E.
    + apply STREQ_true in E. split; [done|]. intros [H _]. by destruct H.
    + apply STREQ_false in E. rewrite IH. split; [|tauto].
      intros H. split; [congruence|done].
Qed.

Lemma x86FeatureFind_list_None fs n :
  x86FeatureFind_list fs n = None <-> n ∉ feature_name <$> fs.
Proof.
  induction fs as [|f fs IH]; simpl.
  - split; [intros _; apply not_elem_of_nil|done].
  - rewrite not_elem_of_cons. destruct (STREQ (feature_name f) n) eqn:E.
    + apply STREQ_true in E. split; [done|]. intros [H _]. by destruct H.
    + apply STREQ_false in E. rewrite IH. split; [|tauto].
      intros H. split; [congruence|done].
Qed.

Lemma x86VendorFind_list_NoDup vs v :
  NoDup (vendor_name <$> vs) -> v ∈ vs ->
  x86VendorFind_list vs (vendor_name v) = Some v.
Proof.
  induction vs as [|w vs IH]; simpl; [by intros _ ?%elem_of_nil|].
  intros [Hw Hnd]%NoDup_cons [->|Hin]%elem_of_cons.
  - by rewrite (proj2 (STREQ_true _ _) eq_refl).
  - destruct (STREQ (vendor_name w) (vendor_name v)) eqn:E.
    + apply STREQ_true in E. destruct Hw. rewrite E.
      apply list_elem_of_fmap. by exists v.
    + by apply IH.
Qed.

Lemma x86FeatureFind_list_NoDup fs f :
  NoDup (feature_name <$> fs) -> f ∈ fs ->
  x86FeatureFind_list fs (feature_name f) = Some f.
Proof.
  induction fs as [|w fs IH]; simpl; [by intros _ ?%elem_of_nil|].
  intros [Hw Hnd]%NoDup_cons [->|Hin]%elem_of_cons.
  - by rewrite (proj2 (STREQ_true _ _) eq_refl).
  - destruct (STREQ (feature_name w) (feature_name f)) eqn:E.
    + apply STREQ_true in E. destruct Hw. rewrite E.
      apply list_elem_of_fmap. by exists f.
    + by apply IH.
Qed.

(** No two vendors and no two features of the catalog have the same
    name. *)
Definition x86MapNoDup (map : x86_map) : Prop :=
  NoDup (vendor_name <$> map_vendors map) /\
  NoDup (feature_name <$> map_features map).

Lemma x86VendorLoad_NoDup ctxt map :
  x86MapNoDup map -> x86MapNoDup (load_map (x86VendorLoad ctxt map)).
Proof.
  intros [Hv Hf]. unfold x86VendorLoad.
  destruct (xml_vendor_name ctxt) as [n|]; [|done].
  destruct (x86VendorFind map n) eqn:Hfind; [done|].
  destruct (xml_vendor_string ctxt) as [s|]; [|done].
  destruct (negb _); [done|]. split; [|done]. simpl.
  apply NoDup_cons. split; [|done]. by apply x86VendorFind_list_None.
Qed.

Lemma x86FeatureLoad_NoDup ctxt map :
  x86MapNoDup map -> x86MapNoDup (load_map (x86FeatureLoad ctxt map)).
Proof.
  intros [Hv Hf]. unfold x86FeatureLoad.
  destruct (xml_feature_name ctxt) as [n|]; [|done].
  destruct (x86FeatureFind map n) eqn:Hfind; [done|].
  destruct (xml_feature_cpuid ctxt) as [nodes|]; [|done].
  destruct (x86FeatureLoad_cpuids _ _ _ _); [|done]. split; [done|]. simpl.
  apply NoDup_cons. split; [|done]. by apply x86FeatureFind_list_None.
Qed.

Lemma x86ModelLoad_vendors_features ctxt map :
  map_vendors (load_map (x86ModelLoad ctxt map)) = map_vendors map /\
  map_features (load_map (x86ModelLoad ctxt map)) = map_features map.
Proof.
  unfold x86ModelLoad.
  destruct (xml_model_name ctxt) as [n|]; [|done].
  destruct (xml_model_model ctxt) as [[a|]|]; [|done|];
    [destruct (x86ModelFind map a); [|done]|];
    (destruct (xml_model_vendor ctxt) as [[v|]|]; [|done|];
     [destruct (x86VendorFind map v); [|done]|];
     (destruct (xml_model_feature ctxt) as [nodes|]; [|done];
      cbn [model_data];
      match goal with
      | |- context [x86ModelLoad_features ?m ?n ?ns ?d] =>
          destruct (x86ModelLoad_features m n ns d); done
      end)).
Qed.

Lemma x86MapLoadCallback_NoDup element map :
  x86MapNoDup map -> x86MapNoDup (load_map (x86MapLoadCallback element map)).
Proof.
  destruct element as [ctxt|ctxt|ctxt|]; simpl; [| | |done].
  - apply x86VendorLoad_NoDup.
  - apply x86FeatureLoad_NoDup.
  - intros H. unfold x86MapNoDup.
    by destruct (x86ModelLoad_vendors_features ctxt map) as [-> ->].
Qed.

Lemma cpuMapLoad_NoDup elements map map' :
  x86MapNoDup map -> cpuMapLoad elements map = Some map' -> x86MapNoDup map'.
Proof.
  revert map. induction elements as [|e es IH]; simpl; intros map Hnd.
  - by intros [= <-].
  - destruct (load_ret _ <? 0); [done|]. apply IH.
    by apply x86MapLoadCallback_NoDup.
Qed.

Lemma x86LoadMap_NoDup cpu_map map :
  x86LoadMap cpu_map = Some map -> x86MapNoDup map.
Proof.
  apply cpuMapLoad_NoDup. split; simpl; apply NoDup_nil_2.
Qed.

(** X8. In a loaded catalog no vendor and no feature is hidden by another
    one of the same name: each is what the lookup of its name returns. *)
Theorem x86LoadMap_no_shadowing (cpu_map : list cpuMapElement) (map : x86_map) :
  x86LoadMap cpu_map = Some map ->
  (forall v, v ∈ map_vendors map -> x86VendorFind map (vendor_name v) = Some v)
  /\
  (forall f, f ∈ map_features map ->
             x86FeatureFind map (feature_name f) = Some f).
Proof.
  intros [Hv Hf]%x86LoadMap_NoDup. split.
  - intros v Hin. by apply x86VendorFind_list_NoDup.
  - intros f Hin. by apply x86FeatureFind_list_NoDup.
Qed.

Lemma x86ModelLoad_models ctxt map :
  map_models (load_map (x86ModelLoad ctxt map)) = map_models map \/
  exists m, map_models (load_map (x86ModelLoad ctxt map)) = m :: map_models map.
Proof.
  unfold x86ModelLoad.
  destruct (xml_model_name ctxt) as [n|]; [|by left].
  destruct (xml_model_model ctxt) as [[a|]|]; [|by left|];
    [destruct (x86ModelFind map a); [|by left]|];
    (destruct (xml_model_vendor ctxt) as [[v|]|]; [|by left|];
     [destruct (x86VendorFind map v); [|by left]|];
     (destruct (xml_model_feature ctxt) as [nodes|]; [|by left];
      cbn [model_data];
      match goal with
      | |- context [x86ModelLoad_features ?m ?n ?ns ?d] =>
          destruct (x86ModelLoad_features m n ns d); [right|by left]
      end; by eexists)).
Qed.

Lemma x86VendorLoad_features_models ctxt map :
  map_features (load_map (x86VendorLoad ctxt map)) = map_features map /\
  map_models (load_map (x86VendorLoad ctxt map)) = map_models map.
Proof.
  unfold x86VendorLoad.
  destruct (xml_vendor_name ctxt) as [n|]; [|done].
  destruct (x86VendorFind map n); [done|].
  destruct (xml_vendor_string ctxt) as [s|]; [|done].
  by destruct (negb _).
Qed.

Lemma x86FeatureLoad_vendors_models ctxt map :
  map_vendors (load_map (x86FeatureLoad ctxt map)) = map_vendors map /\
  map_models (load_map (x86FeatureLoad ctxt map)) = map_models map.
Proof.
  unfold x86FeatureLoad.
  destruct (xml_feature_name ctxt) as [n|]; [|done].
  destruct (x86FeatureFind map n); [done|].
  destruct (xml_feature_cpuid ctxt) as [nodes|]; [|done].
  by destruct (x86FeatureLoad_cpuids _ _ _ _).
Qed.

Lemma x86VendorLoad_find ctxt map n v :
  x86VendorFind map n = Some v ->
  x86VendorFind (load_map (x86VendorLoad ctxt map)) n = Some v.
Proof.
  intros Hfind. unfold x86VendorLoad.
  destruct (xml_vendor_name ctxt) as [vn|]; [|done].
  destruct (x86VendorFind map vn) eqn:Hvn; [done|].
  destruct (xml_vendor_string ctxt) as [s|]; [|done].
  destruct (negb _); [done|].
  unfold x86VendorFind. cbn [load_map map_vendors x86VendorFind_list vendor_name].
  destruct (STREQ vn n) eqn:E; [|done].
  apply STREQ_true in E. subst. congruence.
Qed.

Lemma x86FeatureLoad_find ctxt map n f :
  x86FeatureFind map n = Some f ->
  x86FeatureFind (load_map (x86FeatureLoad ctxt map)) n = Some f.
Proof.
  intros Hfind. unfold x86FeatureLoad.
  destruct (xml_feature_name ctxt) as [fn|]; [|done].
  destruct (x86FeatureFind map fn) eqn:Hfn; [done|].
  destruct (xml_feature_cpuid ctxt) as [nodes|]; [|done].
  destruct (x86FeatureLoad_cpuids _ _ _ _); [|done].
  unfold x86FeatureFind.
  cbn [load_map map_features x86FeatureFind_list feature_name].
  destruct (STREQ fn n) eqn:E; [|done].
  apply STREQ_true in E. subst. congruence.
Qed.

Lemma x86ModelFind_list_cons m ms n :
  is_Some (x86ModelFind_list ms n) -> is_Some (x86ModelFind_list (m :: ms) n).
Proof.
  intros H. simpl. destruct (model_name m) as [k|]; [|done].
  by destruct (STREQ k n).
Qed.

(** The arrays of the data of every feature are short enough for
    [x86DataAdd] to extend a store by their length. *)
Definition x86MapShort (map : x86_map) : Prop :=
  Forall (fun f => x86DataShort (feature_data f)) (map_features map).

#[global] Instance x86MapShort_dec map : Decision (x86MapShort map).
Proof. unfold x86MapShort. apply _. Defined.

Lemma x86DataNew_Short : x86DataShort x86DataNew.
Proof. unfold x86DataShort, basic_len, extended_len. simpl. lia. Qed.

Lemma x86DataAddCpuid_Short data cpuid :
  x86DataShort data -> 0 <= function cpuid < 2 ^ 32 ->
  function_in_reach cpuid ->
  x86DataShort (x86DataAddCpuid data cpuid).
Proof.
  intros [Sb Se] Hfn [Hb He]. unfold x86DataAddCpuid.
  unfold x86DataShort, basic_len, extended_len, CPUX86_EXTENDED in *.
  destruct (Z.ltb_spec (function cpuid) 2147483648) as [Hlt|Hge].
  - match goal with
    | |- context [store ?d ?p ?f] =>
        destruct (store_length d p f) as [-> ->]
    end.
    rewrite x86DataExpand_basic, x86DataExpand_extended.
    rewrite !length_app, !length_padding.
    rewrite expand_by_addcpuid by lia.
    rewrite (int_of_Z_small 0) by lia. simpl Z.to_nat. lia.
  - rewrite (wrap32_small (function cpuid - 2147483648)) by lia.
    match goal with
    | |- context [store ?d ?p ?f] =>
        destruct (store_length d p f) as [-> ->]
    end.
    rewrite x86DataExpand_basic, x86DataExpand_extended.
    rewrite !length_app, !length_padding.
    rewrite expand_by_addcpuid by lia.
    rewrite (int_of_Z_small 0) by lia. simpl Z.to_nat. lia.
Qed.

Lemma x86FeatureLoad_cpuids_Short fname i nodes data data' :
  x86DataShort data -> cpuids_in_reach nodes ->
  x86FeatureLoad_cpuids fname i nodes data = inl data' ->
  x86DataShort data'.
Proof.
  revert i data. induction nodes as [|node nodes IH]; intros i data Hs Hr;
    cbn [x86FeatureLoad_cpuids].
  - by intros [= <-].
  - destruct (_ || _) eqn:Hc; [done|].
    destruct Hr as [Hbad|[Hn Hr]].
    + exfalso. rewrite !orb_false_iff in Hc.
      destruct Hc as ((((H1 & H2) & H3) & H4) & H5).
      unfold cpuid_node_invalid in Hbad. lia.
    + apply IH; [|done]. fold (xml_cpuid_tuple node).
      apply x86DataAddCpuid_Short; [done|apply wrap32_range|done].
Qed.

Lemma x86MapLoadCallback_Short element map :
  element_in_reach element map -> x86MapShort map ->
  x86MapShort (load_map (x86MapLoadCallback element map)).
Proof.
  intros Hr Hs. destruct element as [ctxt|ctxt|ctxt|];
    cbn [x86MapLoadCallback]; [| | |done].
  - unfold x86MapShort.
    by rewrite (proj1 (x86VendorLoad_features_models ctxt map)).
  - unfold x86FeatureLoad. cbn [element_in_reach] in Hr.
    destruct (xml_feature_name ctxt) as [n|]; [|done].
    destruct (x86FeatureFind map n) eqn:Hn; [done|].
    destruct (xml_feature_cpuid ctxt) as [nodes|]; [|done].
    destruct (x86FeatureLoad_cpuids n 0 nodes x86DataNew) as [d|e] eqn:Hl;
      [|done].
    constructor; [|done]. simpl.
    eapply x86FeatureLoad_cpuids_Short; [apply x86DataNew_Short|by apply Hr|done].
  - unfold x86MapShort.
    by rewrite (proj2 (x86ModelLoad_vendors_features ctxt map)).
Qed.

(** X9. Loading an element that keeps the load function inside the arrays
    of the store it fills (see [element_in_reach]) takes nothing away and
    keeps the catalog within the bounds: a vendor or a feature that a name
    was found for before is found for that name afterwards, a model name
    that was known stays known (the model found for it may be a newly
    loaded one), and when the data of every feature had fewer than [2^31]
    tuples in each array before, it has afterwards. *)
Theorem x86MapLoadCallback_keeps
        (element : cpuMapElement) (map : x86_map) :
  element_in_reach element map ->
  let map' := load_map (x86MapLoadCallback element map) in
  (forall n v, x86VendorFind map n = Some v -> x86VendorFind map' n = Some v) /\
  (forall n f, x86FeatureFind map n = Some f ->
               x86FeatureFind map' n = Some f) /\
  (forall n, is_Some (x86ModelFind map n) -> is_Some (x86ModelFind map' n)) /\
  (x86MapShort map -> x86MapShort map').
Proof.
  intros Hr map'.
  assert (x86MapShort map -> x86MapShort map') as Hshort
    by by apply x86MapLoadCallback_Short.
  revert Hshort. subst map'. clear Hr.
  destruct element as [ctxt|ctxt|ctxt|]; cbn [x86MapLoadCallback];
    intros Hshort.
  - destruct (x86VendorLoad_features_models ctxt map) as [Hf Hm].
    split; [apply x86VendorLoad_find|].
    unfold x86FeatureFind, x86ModelFind. rewrite Hf, Hm. done.
  - destruct (x86FeatureLoad_vendors_models ctxt map) as [Hv Hm].
    unfold x86VendorFind, x86ModelFind. rewrite Hv, Hm.
    split; [done|]. split; [apply x86FeatureLoad_find|done].
  - destruct (x86ModelLoad_vendors_features ctxt map) as [Hv Hf].
    unfold x86VendorFind, x86FeatureFind, x86ModelFind. rewrite Hv, Hf.
    split; [done|]. split; [done|]. split; [|done]. intros n Hn.
    destruct (x86ModelLoad_models ctxt map) as [->|[m ->]]; [done|].
    by apply x86ModelFind_list_cons.
  - done.
Qed.

(** ** The data of a model is a union *)

(** The bitwise or of register [r] of the leaf at [p] over the stores
    [ds]. *)
Definition union_regs (ds : list cpuX86Data) (p : cpuid_ptr) (r : register)
  : Z :=
  foldr (fun d z => Z.lor (reg r (load d p)) z) 0 ds.

Lemma x86FeatureFind_Short map name f :
  x86MapShort map -> x86FeatureFind map name = Some f ->
  x86DataShort (feature_data f).
Proof.
  intros Hs Hf. apply x86FeatureFind_list_elem in Hf as [Hin _].
  by apply (proj1 (Forall_forall _ _) Hs).
Qed.




Ltac not_pushed H :=
  exfalso; apply (f_equal length) in H; cbn in H; lia.


(** ** The model of a CPU definition *)

(** The features of [cpu] that [x86ModelFromCPU] looks up for [policy]:
    none for a host CPU and a policy other than [REQUIRE]; otherwise all
    features but, for a guest CPU, those of another policy. *)
Definition x86ModelFromCPU_selected (cpu : virCPUDef)
           (policy : virCPUFeaturePolicy) : list virCPUFeatureDef :=
  if negb (bool_decide (policy = VIR_CPU_FEATURE_REQUIRE))
     && bool_decide (cpu_type cpu = VIR_CPU_TYPE_HOST)
  then []
  else
    List.filter
      (fun f => negb (bool_decide (cpu_type cpu = VIR_CPU_TYPE_GUEST)
                      && negb (bool_decide (fd_policy f = policy))))
      (cpu_features cpu).

(** The model that [x86ModelFromCPU] starts from. *)
Definition x86ModelFromCPU_base (cpu : virCPUDef) (map : x86_map)
           (policy : virCPUFeaturePolicy) : option x86_model :=
  if bool_decide (policy = VIR_CPU_FEATURE_REQUIRE)
  then x86ModelFind map (cpu_model cpu)
  else None.

Lemma x86ModelFromCPU_features_defined cpu map policy features model :
  is_Some (x86ModelFromCPU_features cpu map policy features model) <->
  Forall (fun f => is_Some (x86FeatureFind map (fd_name f)))
         (List.filter
            (fun f => negb (bool_decide (cpu_type cpu = VIR_CPU_TYPE_GUEST)
                            && negb (bool_decide (fd_policy f = policy))))
            features).
Proof.
  revert model. induction features as [|f fs IH]; intros model; simpl.
  - split; [intros _; apply Forall_nil_2|by eexists].
  - destruct (bool_decide (cpu_type cpu = VIR_CPU_TYPE_GUEST)
              && negb (bool_decide (fd_policy f = policy))); simpl.
    + apply IH.
    + rewrite Forall_cons.
      destruct (x86FeatureFind map (fd_name f)) as [feature|].
      * rewrite IH. split; [by split|by intros [_ ?]].
      * split; [by intros [? [=]]|by intros [[? [=]] _]].
Qed.

Lemma x86ModelFromCPU_features_reg cpu map policy features model model' :
  x86MapWF map -> x86MapShort map -> x86DataWF (model_data model) ->
  x86ModelFromCPU_features cpu map policy features model = Some model' ->
  model_name model' = model_name model /\
  model_vendor model' = model_vendor model /\
  forall p r,
    reg r (load (model_data model') p) =
    Z.lor (reg r (load (model_data model) p))
          (union_regs
             (feature_data <$>
                omap (fun f => x86FeatureFind map (fd_name f))
                  (List.filter
                     (fun f =>
                        negb (bool_decide (cpu_type cpu = VIR_CPU_TYPE_GUEST)
                              && negb (bool_decide (fd_policy f = policy))))
                     features)) p r).
Proof.
  intros Hmap Hshort. revert model.
  induction features as [|f fs IH]; intros model Hwf; simpl.
  - intros [= <-]. repeat split. intros p r. by rewrite Z.lor_0_r.
  - destruct (bool_decide (cpu_type cpu = VIR_CPU_TYPE_GUEST)
              && negb (bool_decide (fd_policy f = policy))); simpl.
    + by apply IH.
    + destruct (x86FeatureFind map (fd_name f)) as [feature|] eqn:Hf; [|done].
      intros Hl. apply IH in Hl as (Hn & Hv & Hr).
      * split; [done|]. split; [done|]. intros p r. simpl.
        rewrite Hr. cbn [model_data].
        rewrite x86DataAdd_reg;
          [|apply Hwf|by apply (x86FeatureFind_Short map (fd_name f))].
        by rewrite Z.lor_assoc.
      * cbn [model_data]. apply x86DataAdd_WF; [done|].
        by apply (x86FeatureFind_WF map (fd_name f)).
Qed.

(** X11. [x86ModelFromCPU] fails exactly when a name it has to look up is
    not in the catalog: the model of the CPU for the policy [REQUIRE], and
    the features it selects.  A feature of another policy of a guest CPU,
    and any feature of a host CPU for a policy other than [REQUIRE], may
    have an unknown name. *)
Theorem x86ModelFromCPU_defined
        (cpu : virCPUDef) (map : x86_map) (policy : virCPUFeaturePolicy) :
  is_Some (x86ModelFromCPU cpu map policy) <->
  (policy = VIR_CPU_FEATURE_REQUIRE ->
   is_Some (x86ModelFind map (cpu_model cpu))) /\
  Forall (fun f => is_Some (x86FeatureFind map (fd_name f)))
         (x86ModelFromCPU_selected cpu policy).
Proof.
  unfold x86ModelFromCPU, x86ModelFromCPU_selected.
  case_bool_decide as Hp; cbn [negb andb].
  - destruct (x86ModelFind map (cpu_model cpu)) as [model|].
    + rewrite x86ModelFromCPU_features_defined.
      split; [by split|by intros [_ ?]].
    + split; [by intros [? [=]]|]. intros [H _].
      by destruct (H Hp) as [? [=]].
  - case_bool_decide as Ht.
    + split; [|by eexists]. intros _. split; [done|apply Forall_nil_2].
    + rewrite x86ModelFromCPU_features_defined.
      split; [by split|by intros [_ ?]].
Qed.

(** X12. The data of the model that [x86ModelFromCPU] makes is the union of
    the data of the model it starts from (the model of the CPU for the
    policy [REQUIRE], nothing otherwise) and of the data of the features it
    selects; its name and vendor are those of the model it starts from. *)
Theorem x86ModelFromCPU_data
        (cpu : virCPUDef) (map : x86_map) (policy : virCPUFeaturePolicy)
        (model : x86_model) :
  x86MapWF map -> x86MapShort map ->
  x86ModelFromCPU cpu map policy = Some model ->
  let base := x86ModelFromCPU_base cpu map policy in
  model_name model = base ≫= model_name /\
  model_vendor model = base ≫= model_vendor /\
  forall p r,
    reg r (load (model_data model) p) =
    Z.lor (reg r (load (default x86DataNew (model_data <$> base)) p))
          (union_regs
             (feature_data <$>
                omap (fun f => x86FeatureFind map (fd_name f))
                     (x86ModelFromCPU_selected cpu policy)) p r).
Proof.
  intros Hmap Hshort.
  unfold x86ModelFromCPU, x86ModelFromCPU_selected, x86ModelFromCPU_base.
  case_bool_decide as Hp; cbn [negb andb].
  - destruct (x86ModelFind map (cpu_model cpu)) as [m0|] eqn:Hm; [|done].
    intros Hl.
    apply (x86ModelFromCPU_features_reg _ _ _ _ _ _ Hmap Hshort) in Hl;
      [|unfold x86ModelCopy; cbn [model_data]; rewrite x86DataCopy_eq;
        by apply (x86ModelFind_WF map (cpu_model cpu))].
    unfold x86ModelCopy in Hl. cbn [model_data model_name model_vendor] in Hl.
    rewrite x86DataCopy_eq in Hl. exact Hl.
  - case_bool_decide as Ht.
    + intros [= <-]. repeat split. intros p r. cbn. by rewrite Z.lor_0_r.
    + intros Hl.
      apply (x86ModelFromCPU_features_reg _ _ _ _ _ _ Hmap Hshort) in Hl;
        [exact Hl|apply x86DataNew_WF].
Qed.

(** ** The results of [x86Compute] *)

Lemma x86Compute_arch_check cpu :
  negb (bool_decide (cpu_arch cpu = VIR_ARCH_NONE)) &&
  negb (existsb (fun a => bool_decide (a = cpu_arch cpu)) archs) = false <->
  x86Compute_arch_ok cpu.
Proof.
  unfold x86Compute_arch_ok. rewrite andb_false_iff, !negb_false_iff.
  rewrite bool_decide_eq_true, existsb_exists. split.
  - intros [H|(a & Hin & Ha)]; [by left|right].
    apply bool_decide_eq_true in Ha. subst. by apply list_elem_of_In.
  - intros [H|H]; [by left|right]. exists (cpu_arch cpu).
    split; [by apply list_elem_of_In|by apply bool_decide_eq_true].
Qed.

Lemma x86Compute_vendor_check host cpu :
  match cpu_vendor cpu with
  | Some cv => match cpu_vendor host with
               | Some hv => STRNEQ cv hv
               | None => true
               end
  | None => false
  end = false <->
  x86Compute_vendor_ok host cpu.
Proof.
  unfold x86Compute_vendor_ok. destruct (cpu_vendor cpu) as [cv|]; [|done].
  destruct (cpu_vendor host) as [hv|]; [|done].
  rewrite STRNEQ_false. split; congruence.
Qed.

Lemma x86Compute_models_not_error cpu_map host cpu guest message map ms :
  x86Compute_arch_ok cpu -> x86Compute_vendor_ok host cpu ->
  x86LoadMap cpu_map = Some map ->
  x86Compute_models map host cpu ms ->
  compute_ret (x86Compute cpu_map host cpu guest message) <>
  VIR_CPU_COMPARE_ERROR.
Proof.
  intros Harch Hvendor Hmap Hms.
  destruct (x86DataIsEmpty (x86DataIntersect (model_data (cpu_forbid ms))
                                             (model_data (host_model ms))))
    eqn:Hforbid.
  - pose proof (x86Compute_after_forbid cpu_map host cpu guest message map ms
                  (conj Harch (conj Hvendor (conj Hmap (conj Hms Hforbid)))))
      as H.
    cbv zeta in H.
    destruct (bool_decide (require_compare ms = SUBSET)
              || bool_decide (require_compare ms = UNRELATED));
      [by rewrite H|].
    destruct (negb (x86DataIsEmpty (compute_diff ms))
              && bool_decide (cpu_type cpu = VIR_CPU_TYPE_GUEST)
              && bool_decide (cpu_match cpu = VIR_CPU_MATCH_STRICT));
      [by rewrite H|].
    destruct H as (-> & _). by destruct (x86DataIsEmpty (compute_diff ms)).
  - destruct Hms as (H1 & H2 & H3 & H4 & H5 & H6). unfold x86Compute.
    rewrite (proj2 (x86Compute_arch_check cpu) Harch).
    rewrite (proj2 (x86Compute_vendor_check host cpu) Hvendor).
    rewrite Hmap, H1, H2, H3, H4, H5, H6. cbn [set_data model_data].
    rewrite Hforbid. done.
Qed.

(** The five policies that [x86Compute] makes a model of [cpu] for. *)
Definition x86Compute_policies : list virCPUFeaturePolicy :=
  [VIR_CPU_FEATURE_FORCE; VIR_CPU_FEATURE_REQUIRE; VIR_CPU_FEATURE_OPTIONAL;
   VIR_CPU_FEATURE_DISABLE; VIR_CPU_FEATURE_FORBID].

(** X13. [x86Compute] returns [VIR_CPU_COMPARE_ERROR] exactly when the
    architecture and vendor checks pass and then the catalog cannot be
    loaded or one of the six models cannot be made (a model or feature name
    is unknown); no comparison of data ends in an error. *)
Theorem x86Compute_error_iff
        (cpu_map : list cpuMapElement) (host cpu : virCPUDef)
        (guest message : bool) :
  compute_ret (x86Compute cpu_map host cpu guest message) =
    VIR_CPU_COMPARE_ERROR <->
  x86Compute_arch_ok cpu /\ x86Compute_vendor_ok host cpu /\
  match x86LoadMap cpu_map with
  | None => True
  | Some map =>
      x86ModelFromCPU host map VIR_CPU_FEATURE_REQUIRE = None \/
      exists policy, policy ∈ x86Compute_policies /\
                     x86ModelFromCPU cpu map policy = None
  end.
Proof.
  destruct (decide (x86Compute_arch_ok cpu)) as [Harch|Harch].
  2:{ split; [|tauto]. unfold x86Compute.
      destruct (negb (bool_decide (cpu_arch cpu = VIR_ARCH_NONE)) &&
                negb (existsb (fun a => bool_decide (a = cpu_arch cpu)) archs))
        eqn:E; [done|].
      by apply x86Compute_arch_check in E. }
  destruct (decide (x86Compute_vendor_ok host cpu)) as [Hvendor|Hvendor].
  2:{ split; [|tauto]. unfold x86Compute.
      rewrite (proj2 (x86Compute_arch_check cpu) Harch).
      destruct (match cpu_vendor cpu with
                | Some cv => match cpu_vendor host with
                             | Some hv => STRNEQ cv hv
                             | None => true
                             end
                | None => false
                end) eqn:E; [done|].
      by apply x86Compute_vendor_check in E. }
  destruct (x86LoadMap cpu_map) as [map|] eqn:Hmap.
  2:{ split; [done|]. intros _. unfold x86Compute.
      rewrite (proj2 (x86Compute_arch_check cpu) Harch).
      rewrite (proj2 (x86Compute_vendor_check host cpu) Hvendor).
      by rewrite Hmap. }
  assert (forall r, r = compute_error -> compute_ret r = VIR_CPU_COMPARE_ERROR)
    as Herr by (by intros r ->).
  unfold x86Compute_policies.
  destruct (x86ModelFromCPU host map VIR_CPU_FEATURE_REQUIRE) as [m1|] eqn:H1.
  2:{ split; [by auto|]. intros _. apply Herr. unfold x86Compute.
      rewrite (proj2 (x86Compute_arch_check cpu) Harch).
      rewrite (proj2 (x86Compute_vendor_check host cpu) Hvendor).
      by rewrite Hmap, H1. }
  destruct (x86ModelFromCPU cpu map VIR_CPU_FEATURE_FORCE) as [m2|] eqn:H2.
  2:{ split; [intros _|intros _; apply Herr].
      - split; [done|]. split; [done|]. right. eexists.
        split; [|exact H2]. repeat constructor.
      - unfold x86Compute.
        rewrite (proj2 (x86Compute_arch_check cpu) Harch).
        rewrite (proj2 (x86Compute_vendor_check host cpu) Hvendor).
        by rewrite Hmap, H1, H2. }
  destruct (x86ModelFromCPU cpu map VIR_CPU_FEATURE_REQUIRE) as [m3|] eqn:H3.
  2:{ split; [intros _|intros _; apply Herr].
      - split; [done|]. split; [done|]. right. eexists.
        split; [|exact H3]. repeat constructor.
      - unfold x86Compute.
        rewrite (proj2 (x86Compute_arch_check cpu) Harch).
        rewrite (proj2 (x86Compute_vendor_check host cpu) Hvendor).
        by rewrite Hmap, H1, H2, H3. }
  destruct (x86ModelFromCPU cpu map VIR_CPU_FEATURE_OPTIONAL) as [m4|] eqn:H4.
  2:{ split; [intros _|intros _; apply Herr].
      - split; [done|]. split; [done|]. right. eexists.
        split; [|exact H4]. repeat constructor.
      - unfold x86Compute.
        rewrite (proj2 (x86Compute_arch_check cpu) Harch).
        rewrite (proj2 (x86Compute_vendor_check host cpu) Hvendor).
        by rewrite Hmap, H1, H2, H3, H4. }
  destruct (x86ModelFromCPU cpu map VIR_CPU_FEATURE_DISABLE) as [m5|] eqn:H5.
  2:{ split; [intros _|intros _; apply Herr].
      - split; [done|]. split; [done|]. right. eexists.
        split; [|exact H5]. repeat constructor.
      - unfold x86Compute.
        rewrite (proj2 (x86Compute_arch_check cpu) Harch).
        rewrite (proj2 (x86Compute_vendor_check host cpu) Hvendor).
        by rewrite Hmap, H1, H2, H3, H4, H5. }
  destruct (x86ModelFromCPU cpu map VIR_CPU_FEATURE_FORBID) as [m6|] eqn:H6.
  2:{ split; [intros _|intros _; apply Herr].
      - split; [done|]. split; [done|]. right. eexists.
        split; [|exact H6]. repeat constructor.
      - unfold x86Compute.
        rewrite (proj2 (x86Compute_arch_check cpu) Harch).
        rewrite (proj2 (x86Compute_vendor_check host cpu) Hvendor).
        by rewrite Hmap, H1, H2, H3, H4, H5, H6. }
  split.
  - intros Hret. exfalso.
    by apply (x86Compute_models_not_error cpu_map host cpu guest message map
                (mk_compute_models m1 m2 m3 m4 m5 m6)).
  - intros (_ & _ & [[=]|(policy & Hin & Hnone)]). exfalso.
    repeat (apply elem_of_cons in Hin as [->|Hin]; [congruence|]).
    by apply elem_of_nil in Hin.
Qed.

(** The data that [x86Compute] gives to the guest: a copy of the model of
    the host, for an exact match without [diff]; then with the forced
    features, and without the disabled ones. *)
Definition compute_guest_data (cpu : virCPUDef) (ms : compute_models)
  : cpuX86Data :=
  x86DataSubtract
    (x86DataAdd
       (if bool_decide (cpu_type cpu = VIR_CPU_TYPE_GUEST)
           && bool_decide (cpu_match cpu = VIR_CPU_MATCH_EXACT)
        then x86DataSubtract (model_data (host_model ms)) (compute_diff ms)
        else model_data (host_model ms))
       (model_data (cpu_force ms)))
    (model_data (cpu_disable ms)).

Definition compute_arch (host cpu : virCPUDef) : virArch :=
  if negb (bool_decide (cpu_arch cpu = VIR_ARCH_NONE))
  then cpu_arch cpu else cpu_arch host.

Lemma x86Compute_guest_result cpu_map host cpu message map ms :
  x86Compute_passes_forbid cpu_map host cpu map ms ->
  require_compare ms <> SUBSET -> require_compare ms <> UNRELATED ->
  ~ (x86DataIsEmpty (compute_diff ms) = false /\
     cpu_type cpu = VIR_CPU_TYPE_GUEST /\
     cpu_match cpu = VIR_CPU_MATCH_STRICT) ->
  compute_guest (x86Compute cpu_map host cpu true message) =
  Some (x86MakeCPUData (compute_arch host cpu) (compute_guest_data cpu ms)).
Proof.
  intros (Harch & Hvendor & Hmap & (H1 & H2 & H3 & H4 & H5 & H6) & Hforbid)
         Hsub Hunr Hstrict.
  unfold x86Compute.
  rewrite (proj2 (x86Compute_arch_check cpu) Harch).
  rewrite (proj2 (x86Compute_vendor_check host cpu) Hvendor).
  rewrite Hmap, H1, H2, H3, H4, H5, H6. cbn [set_data model_data].
  rewrite Hforbid. cbn [negb]. fold (require_normalized ms).
  change (x86ModelCompare (host_model ms) _) with (require_compare ms).
  rewrite (bool_decide_eq_false_2 (require_compare ms = SUBSET)) by done.
  rewrite (bool_decide_eq_false_2 (require_compare ms = UNRELATED)) by done.
  cbv beta iota zeta. cbn [orb].
  unfold x86ModelCopy. cbn [set_data model_data model_name model_vendor].
  rewrite !x86DataCopy_eq. fold (compute_diff ms).
  fold (compute_arch host cpu).
  assert (bool_decide
            ((if negb (x86DataIsEmpty (compute_diff ms))
              then VIR_CPU_COMPARE_SUPERSET
              else VIR_CPU_COMPARE_IDENTICAL) = VIR_CPU_COMPARE_SUPERSET) &&
          bool_decide (cpu_type cpu = VIR_CPU_TYPE_GUEST) &&
          bool_decide (cpu_match cpu = VIR_CPU_MATCH_STRICT) = false) as ->.
  { destruct (x86DataIsEmpty (compute_diff ms)) eqn:Hd; [done|].
    cbn [negb]. rewrite bool_decide_eq_true_2 by done. cbn [andb].
    apply andb_false_iff.
    destruct (decide (cpu_type cpu = VIR_CPU_TYPE_GUEST)) as [Ht|Ht];
      [right|left]; apply bool_decide_eq_false_2; [|done].
    intros Hm. by apply Hstrict. }
  cbn [compute_guest]. unfold compute_guest_data.
  by destruct (bool_decide (cpu_type cpu = VIR_CPU_TYPE_GUEST) &&
               bool_decide (cpu_match cpu = VIR_CPU_MATCH_EXACT)).
Qed.

Lemma bit_invalid data p r i : ~ valid_ptr data p -> bit data p r i = false.
Proof.
  intros Hv. unfold bit. rewrite (load_invalid data p Hv), reg_null.
  apply Z.testbit_0_l.
Qed.

Lemma x86DataSubtract_bit_all data1 data2 p r i :
  x86DataSized data1 -> 0 <= i < 32 ->
  bit (x86DataSubtract data1 data2) p r i =
  bit data1 p r i && negb (bit data2 p r i).
Proof.
  intros Hs Hi. destruct (decide (valid_ptr data1 p)) as [Hv|Hv].
  - by apply x86DataSubtract_bit.
  - rewrite (bit_invalid data1 p r i Hv).
    apply bit_invalid. by rewrite x86DataSubtract_valid.
Qed.

Lemma x86DataAdd_bit data1 data2 p r i :
  x86DataSized data1 -> x86DataShort data2 ->
  bit (x86DataAdd data1 data2) p r i = bit data1 p r i || bit data2 p r i.
Proof.
  intros H1 H2. unfold bit. rewrite x86DataAdd_reg by done.
  apply Z.lor_spec.
Qed.

Lemma require_normalized_bit_all ms p r i :
  x86DataSized (model_data (cpu_require ms)) -> 0 <= i < 32 ->
  bit (require_normalized ms) p r i =
  bit (model_data (cpu_require ms)) p r i &&
  negb (bit (model_data (cpu_force ms)) p r i ||
        bit (model_data (cpu_optional ms)) p r i ||
        bit (model_data (cpu_disable ms)) p r i).
Proof.
  intros Hs Hi. unfold require_normalized.
  rewrite !x86DataSubtract_bit_all by
    (done || by repeat apply x86DataSubtract_Sized).
  by destruct (bit (model_data (cpu_require ms)) p r i),
    (bit (model_data (cpu_force ms)) p r i),
    (bit (model_data (cpu_optional ms)) p r i),
    (bit (model_data (cpu_disable ms)) p r i).
Qed.

(** X14. The data that [x86Compute] hands out for the guest, when the host
    is compatible: bit by bit, it has the forced features, and of the
    host's features all of them or, for a guest CPU with an exact match,
    those that the CPU requires or has as optional; and it never has a bit
    of a disabled feature.  Its architecture is that of the CPU, or that of
    the host when the CPU names none. *)
Theorem x86Compute_guest_data
        (cpu_map : list cpuMapElement) (host cpu : virCPUDef) (message : bool)
        (map : x86_map) (ms : compute_models) :
  x86Compute_passes_forbid cpu_map host cpu map ms ->
  x86DataShort (model_data (cpu_force ms)) ->
  require_compare ms <> SUBSET -> require_compare ms <> UNRELATED ->
  ~ (x86DataIsEmpty (compute_diff ms) = false /\
     cpu_type cpu = VIR_CPU_TYPE_GUEST /\
     cpu_match cpu = VIR_CPU_MATCH_STRICT) ->
  exists data,
    compute_guest (x86Compute cpu_map host cpu true message) =
      Some (x86MakeCPUData
              (if negb (bool_decide (cpu_arch cpu = VIR_ARCH_NONE))
               then cpu_arch cpu else cpu_arch host)
              data) /\
    forall p r i, 0 <= i < 32 ->
      bit data p r i =
      (bit (model_data (host_model ms)) p r i &&
       (negb (bool_decide (cpu_type cpu = VIR_CPU_TYPE_GUEST)
              && bool_decide (cpu_match cpu = VIR_CPU_MATCH_EXACT))
        || bit (model_data (cpu_require ms)) p r i
        || bit (model_data (cpu_optional ms)) p r i)
       || bit (model_data (cpu_force ms)) p r i)
      && negb (bit (model_data (cpu_disable ms)) p r i).
Proof.
  intros Hpass Hshort Hsub Hunr Hstrict.
  exists (compute_guest_data cpu ms).
  split; [by apply (x86Compute_guest_result _ _ _ _ map)|].
  destruct Hpass as (_ & _ & Hmap & Hms & _).
  destruct (x86Compute_models_WF _ _ _ _ _ Hmap Hms)
    as ([Ih Sh] & _ & [_ Sr] & _).
  intros p r i Hi. unfold compute_guest_data.
  assert (x86DataWF
            (if bool_decide (cpu_type cpu = VIR_CPU_TYPE_GUEST)
                && bool_decide (cpu_match cpu = VIR_CPU_MATCH_EXACT)
             then x86DataSubtract (model_data (host_model ms)) (compute_diff ms)
             else model_data (host_model ms))) as [Ig Sg].
  { destruct (_ && _); [by apply x86DataSubtract_WF|done]. }
  rewrite x86DataSubtract_bit_all;
    [|by apply x86DataAdd_shape; [|
        |apply x86DataShort_Sized]|done].
  rewrite x86DataAdd_bit by done.
  destruct (bool_decide (cpu_type cpu = VIR_CPU_TYPE_GUEST)
            && bool_decide (cpu_match cpu = VIR_CPU_MATCH_EXACT));
    cbn [negb orb]; [|by rewrite andb_true_r].
  rewrite x86DataSubtract_bit_all by done.
  unfold compute_diff.
  rewrite !x86DataSubtract_bit_all by
    (done || by repeat apply x86DataSubtract_Sized).
  rewrite require_normalized_bit_all by done.
  by destruct (bit (model_data (host_model ms)) p r i),
    (bit (model_data (cpu_require ms)) p r i),
    (bit (model_data (cpu_force ms)) p r i),
    (bit (model_data (cpu_optional ms)) p r i),
    (bit (model_data (cpu_disable ms)) p r i).
Qed.

(** ** What the decoder selects *)

Lemma x86Decode_host_features_Some features features' :
  x86Decode_host_features features = Some features' ->
  fd_name <$> features' = fd_name <$> features /\
  Forall (fun f => fd_policy f = VIR_CPU_FEATURE_UNSET) features' /\
  Forall (fun f => fd_policy f <> VIR_CPU_FEATURE_DISABLE) features.
Proof.
  revert features'. induction features as [|f fs IH]; intros fs';
    cbn [x86Decode_host_features].
  - intros [= <-]. by repeat constructor.
  - destruct (fd_policy f) eqn:Hp;
      try (destruct (x86Decode_host_features fs) as [fs0|]; [|done];
           intros [= <-]; destruct (IH fs0 eq_refl) as (Hn & Hu & Hd);
           rewrite !fmap_cons, Hn;
           split; [done|]; split; constructor; try done; congruence).
    done.
Qed.

Lemma x86ModelFind_list_is_Some ms c n :
  c ∈ ms -> model_name c = Some n -> is_Some (x86ModelFind_list ms n).
Proof.
  induction ms as [|m ms IH]; [by intros ?%elem_of_nil|].
  intros [->|Hin]%elem_of_cons Hn; simpl.
  - rewrite Hn. by rewrite (proj2 (STREQ_true n n) eq_refl).
  - destruct (model_name m) as [k|]; [|by apply IH].
    destruct (STREQ k n); [done|by apply IH].
Qed.

Section DecodeLoop.

Variable virCPUDefAddFeature :
  virCPUDef -> string -> virCPUFeaturePolicy -> Z * virCPUDef.
Variable cpuModelIsAllowed : string -> list string -> bool.
Variable virCheckFlags : Z -> Z -> bool.

Variables (cpu : virCPUDef) (data : cpuX86Data) (map : x86_map)
          (models : list string) (preferred : option string).

(** What the loop selects is what it had kept before or a candidate that
    reached the selection. *)
Lemma x86Decode_loop_selected candidates kept cc cd :
  x86Decode_loop virCPUDefAddFeature cpuModelIsAllowed cpu data map models
                 preferred candidates kept = Some (Some (cc, cd)) ->
  kept = Some (cc, cd) \/
  exists c, c ∈ candidates /\
            candidate_fate_of virCPUDefAddFeature cpuModelIsAllowed cpu data
                              map models preferred c = fate_survive cc /\
            cd = model_data c.
Proof.
  revert kept. induction candidates as [|c cs IH]; intros kept;
    cbn [x86Decode_loop].
  - intros [= ->]. by left.
  - rewrite x86Decode_round_fate.
    destruct (candidate_fate_of _ _ _ _ _ _ _ c) as [| |cc0] eqn:Hf; [done| |].
    + intros [->|(c' & Hin & Hc' & ->)]%IH; [by left|right].
      exists c'. split; [by right|done].
    + destruct (is_preferred preferred (cpu_model cc0)).
      * intros [= -> <-]. right. exists c. split; [by left|done].
      * intros [Hk|(c' & Hin & Hc' & ->)]%IH.
        -- unfold fewer in Hk. destruct kept as [[m d]|].
           ++ simpl in Hk. destruct (_ <? _)%nat.
              ** injection Hk as -> <-. right. exists c.
                 split; [by left|done].
              ** by left.
           ++ injection Hk as -> <-. right. exists c. split; [by left|done].
        -- right. exists c'. split; [by right|done].
Qed.

Lemma candidate_fate_survive_allowed c cc :
  candidate_fate_of virCPUDefAddFeature cpuModelIsAllowed cpu data map models
                    preferred c = fate_survive cc ->
  cpuModelIsAllowed (default EmptyString (model_name c)) models = true.
Proof.
  unfold candidate_fate_of.
  destruct (cpuModelIsAllowed _ models); [done|]. simpl.
  by destruct (_ && _).
Qed.

Lemma candidate_fate_survive_host c cc :
  cpu_type cpu = VIR_CPU_TYPE_HOST ->
  candidate_fate_of virCPUDefAddFeature cpuModelIsAllowed cpu data map models
                    preferred c = fate_survive cc ->
  Forall (fun f => fd_policy f = VIR_CPU_FEATURE_UNSET) (cpu_features cc).
Proof.
  intros Hhost. unfold candidate_fate_of.
  destruct (negb _); [by destruct (_ && _)|].
  destruct (x86DataToCPU virCPUDefAddFeature data c map) as [cc0|]; [|done].
  destruct (match model_vendor c with Some _ => _ | None => _ end); [done|].
  rewrite bool_decide_eq_true_2 by done.
  destruct (x86Decode_host_features (cpu_features cc0)) as [fs|] eqn:Hfs;
    [|done].
  intros [= <-]. simpl. by apply x86Decode_host_features_Some in Hfs as (_ & ? & _).
Qed.

End DecodeLoop.

Section DecodeResults.

Variable virCPUDefAddFeature :
  virCPUDef -> string -> virCPUFeaturePolicy -> Z * virCPUDef.
Variable cpuModelIsAllowed : string -> list string -> bool.
Variable virCheckFlags : Z -> Z -> bool.

Variables (cpu : virCPUDef) (data : cpuX86Data)
          (models : list string) (preferred : option string).

Lemma x86Decode_cases
        (cpu_map : list cpuMapElement) (data' : option cpuX86Data) (flags : Z) :
  let r := x86Decode virCPUDefAddFeature cpuModelIsAllowed virCheckFlags
                     cpu_map cpu data' models preferred flags in
  (fst r = -1 /\ snd r = cpu) \/
  (fst r = 0 /\
   cpu_type (snd r) = cpu_type cpu /\ cpu_mode (snd r) = cpu_mode cpu /\
   cpu_arch (snd r) = cpu_arch cpu /\ cpu_match (snd r) = cpu_match cpu /\
   cpu_fallback (snd r) = cpu_fallback cpu).
Proof.
  unfold x86Decode.
  destruct (negb (virCheckFlags _ flags)); [by left|].
  destruct data' as [d|]; [|by left].
  destruct (x86LoadMap cpu_map) as [mp|]; [|by left].
  destruct (x86Decode_loop _ _ _ _ _ _ _ _ _) as [[[cc cd]|]|];
    [|by left|by left].
  destruct (negb (Z.land flags _ =? 0)).
  - destruct (x86DataFromCPUFeatures cc mp) as [features|]; [|by left].
    destruct (x86DataToCPUFeatures _ _ _ _ _) as [[r c] d'].
    destruct (r <? 0); [by left|by right].
  - by right.
Qed.

(** X15. [x86Decode] changes [cpu] only when it succeeds, and then only its
    model, vendor and features: its result is 0 or -1; with -1 the
    definition is as it was, with 0 its type, mode, architecture, match
    and fallback are. *)
Theorem x86Decode_atomic
        (cpu_map : list cpuMapElement) (data' : option cpuX86Data) (flags : Z) :
  let r := x86Decode virCPUDefAddFeature cpuModelIsAllowed virCheckFlags
                     cpu_map cpu data' models preferred flags in
  (fst r = -1 /\ snd r = cpu) \/
  (fst r = 0 /\
   cpu_type (snd r) = cpu_type cpu /\ cpu_mode (snd r) = cpu_mode cpu /\
   cpu_arch (snd r) = cpu_arch cpu /\ cpu_match (snd r) = cpu_match cpu /\
   cpu_fallback (snd r) = cpu_fallback cpu).
Proof. apply x86Decode_cases. Qed.

(** X16. Without the flag [VIR_CONNECT_BASELINE_CPU_EXPAND_FEATURES], a host
    CPU that [x86Decode] fills in has no feature with a policy: every
    feature has the policy -1. *)
Theorem x86Decode_host_policies
        (cpu_map : list cpuMapElement) (flags : Z) :
  cpu_type cpu = VIR_CPU_TYPE_HOST ->
  Z.land flags VIR_CONNECT_BASELINE_CPU_EXPAND_FEATURES = 0 ->
  let r := x86Decode virCPUDefAddFeature cpuModelIsAllowed virCheckFlags
                     cpu_map cpu (Some data) models preferred flags in
  fst r = 0 ->
  cpu_type (snd r) = VIR_CPU_TYPE_HOST /\
  Forall (fun f => fd_policy f = VIR_CPU_FEATURE_UNSET) (cpu_features (snd r)).
Proof.
  intros Hhost Hflags. unfold x86Decode.
  destruct (negb (virCheckFlags _ flags)); [done|].
  destruct (x86LoadMap cpu_map) as [mp|]; [|done].
  destruct (x86Decode_loop _ _ _ _ _ _ _ _ _) as [[[cc cd]|]|] eqn:Hloop;
    [|done|done].
  rewrite Hflags. cbn [Z.eqb negb]. cbv zeta. intros _. cbn [snd].
  split; [done|]. cbn [cpu_features set_features].
  apply x86Decode_loop_selected in Hloop as [[=]|(c & _ & Hc & _)].
  by apply candidate_fate_survive_host in Hc.
Qed.

(** X17. The model that [x86Decode] selects is allowed and is a model of the
    catalog: when it succeeds, [cpuModelIsAllowed] holds of the model name
    it leaves in [cpu], and the catalog has a model of that name. *)
Theorem x86Decode_model_allowed
        (virCPUDefAddFeature_model :
           forall cpu n p,
             cpu_model (snd (virCPUDefAddFeature cpu n p)) = cpu_model cpu)
        (cpu_map : list cpuMapElement) (map : x86_map) (flags : Z) :
  x86LoadMap cpu_map = Some map ->
  let r := x86Decode virCPUDefAddFeature cpuModelIsAllowed virCheckFlags
                     cpu_map cpu (Some data) models preferred flags in
  fst r = 0 ->
  cpuModelIsAllowed (cpu_model (snd r)) models = true /\
  is_Some (x86ModelFind map (cpu_model (snd r))).
Proof.
  intros Hmap r Hr. subst r.
  destruct (x86Decode_model _ _ virCPUDefAddFeature_model cpu data map models
              preferred virCheckFlags cpu_map flags Hmap Hr)
    as (cc & cd & Hloop & ->).
  apply x86Decode_loop_selected in Hloop as [[=]|(c & Hin & Hc & _)].
  rewrite (candidate_fate_survive_model _ _ virCPUDefAddFeature_model
             _ _ _ _ _ _ _ Hc).
  split; [by apply candidate_fate_survive_allowed in Hc|].
  pose proof (x86LoadMap_named _ _ Hmap) as Hnamed.
  destruct (proj1 (Forall_forall _ _) Hnamed c Hin) as [n Hn].
  rewrite Hn. simpl. by apply (x86ModelFind_list_is_Some _ c).
Qed.

Lemma x86Decode_loop_forbidden
      (virCPUDefAddFeature_model :
         forall cpu n p,
           cpu_model (snd (virCPUDefAddFeature cpu n p)) = cpu_model cpu)
      (map : x86_map) (p : string) candidates kept :
  cpuModelIsAllowed p models = false ->
  cpu_fallback cpu <> VIR_CPU_FALLBACK_ALLOW ->
  (exists c, c ∈ candidates /\ default EmptyString (model_name c) = p) ->
  x86Decode_loop virCPUDefAddFeature cpuModelIsAllowed cpu data map models
                 (Some p) candidates kept = None.
Proof.
  intros Hna Hfb. revert kept.
  induction candidates as [|c cs IH]; intros kept (c0 & Hin & Hc0);
    [by apply elem_of_nil in Hin|].
  cbn [x86Decode_loop]. rewrite x86Decode_round_fate.
  destruct (decide (default EmptyString (model_name c) = p)) as [Hc|Hc].
  - unfold candidate_fate_of. rewrite Hc, Hna. cbn [negb is_preferred].
    rewrite (proj2 (STREQ_true p p) eq_refl).
    by rewrite bool_decide_eq_false_2 by done.
  - assert (exists c1, c1 ∈ cs /\ default EmptyString (model_name c1) = p)
      as Hcs.
    { apply elem_of_cons in Hin as [->|Hin]; [done|by exists c0]. }
    destruct (candidate_fate_of _ _ _ _ _ _ _ c) as [| |cc] eqn:Hf; [done| |].
    + by apply IH.
    + rewrite (candidate_fate_survive_model _ _ virCPUDefAddFeature_model
                 _ _ _ _ _ _ _ Hf).
      cbn [is_preferred]. rewrite (proj2 (STREQ_false _ _) Hc). by apply IH.
Qed.

(** X18. When the preferred model is a model of the catalog that is not
    allowed and the CPU does not allow a fallback, [x86Decode] fails,
    whatever the other models are. *)
Theorem x86Decode_preferred_forbidden
        (virCPUDefAddFeature_model :
           forall cpu n p,
             cpu_model (snd (virCPUDefAddFeature cpu n p)) = cpu_model cpu)
        (cpu_map : list cpuMapElement) (map : x86_map)
        (p : string) (flags : Z) :
  x86LoadMap cpu_map = Some map ->
  is_Some (x86ModelFind map p) ->
  cpuModelIsAllowed p models = false ->
  cpu_fallback cpu <> VIR_CPU_FALLBACK_ALLOW ->
  x86Decode virCPUDefAddFeature cpuModelIsAllowed virCheckFlags
            cpu_map cpu (Some data) models (Some p) flags = (-1, cpu).
Proof.
  intros Hmap [m Hm] Hna Hfb. unfold x86Decode.
  destruct (negb (virCheckFlags _ flags)); [done|]. rewrite Hmap.
  rewrite (x86Decode_loop_forbidden virCPUDefAddFeature_model); try done.
  apply x86ModelFind_list_elem in Hm as [Hin Hn].
  exists m. split; [done|]. by rewrite Hn.
Qed.

End DecodeResults.

(** ** A custom guest CPU that is updated *)

Lemma x86UpdateCustom_features_complete map host_model features :
  Forall (fun g => fd_policy g = VIR_CPU_FEATURE_OPTIONAL ->
                   is_Some (x86FeatureFind map (fd_name g))) features ->
  x86UpdateCustom_features map host_model features =
  (true, update_optional map host_model <$> features).
Proof.
  induction 1 as [|g gs Hg _ IH]; [done|].
  cbn [x86UpdateCustom_features]. rewrite fmap_cons. unfold update_optional at 1.
  case_bool_decide as Hp.
  - destruct (Hg Hp) as [feature ->]. by rewrite IH.
  - by rewrite IH.
Qed.

Lemma update_optional_not_optional map host_model g :
  (fd_policy g = VIR_CPU_FEATURE_OPTIONAL ->
   is_Some (x86FeatureFind map (fd_name g))) ->
  fd_name (update_optional map host_model g) = fd_name g /\
  fd_policy (update_optional map host_model g) <> VIR_CPU_FEATURE_OPTIONAL /\
  (fd_policy g <> VIR_CPU_FEATURE_OPTIONAL ->
   update_optional map host_model g = g).
Proof.
  intros Hg. unfold update_optional. case_bool_decide as Hp; [|done].
  destruct (Hg Hp) as [feature ->].
  by destruct (x86DataIsSubset _ _).
Qed.

Section UpdateResults.

Variable virCPUDefAddFeature :
  virCPUDef -> string -> virCPUFeaturePolicy -> Z * virCPUDef.
Variable virCPUDefFreeModel : virCPUDef -> virCPUDef.
Variable virCPUDefCopyModel : virCPUDef -> virCPUDef -> bool -> Z * virCPUDef.
Variable virCPUDefCopy : virCPUDef -> option virCPUDef.
Variable virCPUDefUpdateFeature :
  virCPUDef -> string -> virCPUFeaturePolicy -> Z * virCPUDef.

(** X19. When [x86Update] succeeds on a custom guest CPU whose match is not
    [MINIMUM], no feature of the guest is optional any more: each optional
    feature has become [REQUIRE] if the model of the host contains its
    data and [DISABLE] if not, and nothing else of the guest has changed
    (names, order, the other policies). *)
Theorem x86Update_custom_resolves
        (cpu_map : list cpuMapElement) (guest host : virCPUDef)
        (map : x86_map) (host_model : x86_model) :
  cpu_mode guest = VIR_CPU_MODE_CUSTOM ->
  cpu_match guest <> VIR_CPU_MATCH_MINIMUM ->
  x86LoadMap cpu_map = Some map ->
  x86ModelFromCPU host map VIR_CPU_FEATURE_REQUIRE = Some host_model ->
  Forall (fun g => fd_policy g = VIR_CPU_FEATURE_OPTIONAL ->
                   is_Some (x86FeatureFind map (fd_name g)))
         (cpu_features guest) ->
  let r := x86Update virCPUDefAddFeature virCPUDefFreeModel
                     virCPUDefCopyModel virCPUDefCopy virCPUDefUpdateFeature
                     cpu_map guest host in
  r = (0, set_features
            (update_optional map host_model <$> cpu_features guest) guest) /\
  Forall (fun g => fd_policy g <> VIR_CPU_FEATURE_OPTIONAL)
         (cpu_features (snd r)) /\
  fd_name <$> cpu_features (snd r) = fd_name <$> cpu_features guest /\
  forall i g, cpu_features guest !! i = Some g ->
    fd_policy g <> VIR_CPU_FEATURE_OPTIONAL ->
    cpu_features (snd r) !! i = Some g.
Proof.
  intros Hmode Hmatch Hmap Hhost Hknown r.
  assert (r = (0, set_features
                    (update_optional map host_model <$> cpu_features guest)
                    guest)) as Hr.
  { subst r. unfold x86Update. rewrite Hmode. unfold x86UpdateCustom.
    rewrite Hmap, Hhost.
    rewrite x86UpdateCustom_features_complete by done. cbn [negb].
    by rewrite bool_decide_eq_false_2 by done. }
  clearbody r. subst r. cbn [fst snd set_features cpu_features].
  rewrite Forall_forall in Hknown.
  split; [done|]. split; [|split].
  - apply Forall_fmap, Forall_forall. intros g Hin. simpl.
    by apply update_optional_not_optional, Hknown.
  - rewrite <- list_fmap_compose. apply list_fmap_ext. intros i g Hi. simpl.
    apply update_optional_not_optional, Hknown.
    by eapply list_elem_of_lookup_2.
  - intros i g Hi Hp. rewrite list_lookup_fmap, Hi. simpl. f_equal.
    apply update_optional_not_optional; [|done]. apply Hknown.
    by eapply list_elem_of_lookup_2.
Qed.

End UpdateResults.

(** ** Features found in a store *)

Lemma bits_subset_subtract data1 data2 :
  x86DataSized data1 -> bits_subset (x86DataSubtract data1 data2) data1.
Proof.
  intros Hs. apply bits_subset_reg. intros p r.
  destruct (decide (valid_ptr data1 p)) as [Hv|Hv].
  - rewrite x86DataSubtract_load by done. case_bool_decide.
    + rewrite reg_ClearBits. by rewrite Z.land_assoc, Z.land_diag.
    + apply Z.land_diag.
  - rewrite (load_invalid (x86DataSubtract data1 data2) p)
      by (by rewrite x86DataSubtract_valid).
    rewrite reg_null. apply Z.land_0_r.
Qed.

Lemma x86DataIsSubset_mono data data' subset :
  x86DataWF subset -> bits_subset data' data ->
  x86DataIsSubset data subset = false ->
  x86DataIsSubset data' subset = false.
Proof.
  intros Hwf Hsub Hn. destruct (x86DataIsSubset data' subset) eqn:E; [|done].
  apply x86DataIsSubset_bits in E; [|done].
  assert (x86DataIsSubset data subset = true) as Ht; [|congruence].
  apply x86DataIsSubset_bits; [done|]. by apply (bits_subset_trans _ data').
Qed.

Section DataToCPUFeatures.

Variable virCPUDefAddFeature :
  virCPUDef -> string -> virCPUFeaturePolicy -> Z * virCPUDef.

Lemma x86DataToCPUFeatures_list_leftover cpu policy data features cpu' data' :
  Forall (fun f => x86DataWF (feature_data f)) features ->
  x86DataSized data ->
  x86DataToCPUFeatures_list virCPUDefAddFeature cpu policy data features =
    (0, cpu', data') ->
  bits_subset data' data /\
  forall f, f ∈ features -> x86DataIsEmpty (feature_data f) = false ->
            x86DataIsSubset data' (feature_data f) = false.
Proof.
  intros Hwf. revert cpu data.
  induction Hwf as [|f fs Hf _ IH]; intros cpu data Hs;
    cbn [x86DataToCPUFeatures_list].
  - intros [= <- <-]. split; [apply bits_subset_refl|].
    by intros f ?%elem_of_nil.
  - destruct (x86DataIsSubset data (feature_data f)) eqn:Hsub.
    + destruct (virCPUDefAddFeature cpu (feature_name f) policy) as [r cpu1].
      destruct (r <? 0); [done|]. intros Hl.
      apply IH in Hl as [Hd Hfs]; [|by apply x86DataSubtract_Sized].
      pose proof (bits_subset_subtract data (feature_data f) Hs) as Hd1.
      split; [by apply (bits_subset_trans _ (x86DataSubtract data
                                                (feature_data f)))|].
      intros g [->|Hin]%elem_of_cons Hne; [|by apply Hfs].
      apply (x86DataIsSubset_mono (x86DataSubtract data (feature_data f)));
        [done|done|].
      by rewrite x86DataIsSubset_subtract.
    + intros Hl. apply IH in Hl as [Hd Hfs]; [|done].
      split; [done|].
      intros g [->|Hin]%elem_of_cons Hne; [|by apply Hfs].
      by apply (x86DataIsSubset_mono data).
Qed.

(** X20. [x86DataToCPUFeatures] takes out of the data every feature it
    finds: when it succeeds, what is left has no bit that the data did not
    have, and it contains none of the features of the catalog whose data is
    not empty. *)
Theorem x86DataToCPUFeatures_leftover
        (cpu : virCPUDef) (policy : virCPUFeaturePolicy) (data : cpuX86Data)
        (map : x86_map) (cpu' : virCPUDef) (data' : cpuX86Data) :
  x86MapWF map -> x86DataSized data ->
  x86DataToCPUFeatures virCPUDefAddFeature cpu policy data map =
    (0, cpu', data') ->
  bits_subset data' data /\
  forall f, f ∈ map_features map ->
            x86DataIsEmpty (feature_data f) = false ->
            x86DataIsSubset data' (feature_data f) = false.
Proof.
  intros [Hwf _] Hs. by apply x86DataToCPUFeatures_list_leftover.
Qed.

End DataToCPUFeatures.

(** X21. [x86FeatureNames] joins, with the separator between them, the
    names of the features of the catalog that the data contains, in the
    order of the catalog (the feature loaded last comes first); there is
    no separator before the first name or after the last. *)
Theorem x86FeatureNames_joined
        (map : x86_map) (separator : string) (data : cpuX86Data) :
  x86FeatureNames map separator data =
  String.concat separator
    (feature_name <$>
       List.filter (fun f => x86DataIsSubset data (feature_data f))
                   (map_features map)).
Proof. apply x86FeatureNames_concat. Qed.

(** ** The baseline of several CPUs *)

Lemma x86VendorFind_list_name vs n v :
  x86VendorFind_list vs n = Some v -> v ∈ vs /\ vendor_name v = n.
Proof.
  induction vs as [|w vs IH]; simpl; [done|].
  destruct (STREQ (vendor_name w) n) eqn:E.
  - intros [= <-]. split; [by left|]. by apply STREQ_true.
  - intros [Hin Hn]%IH. split; [by right|done].
Qed.

(** In a state of the loop: the vendor that is set has the name that
    every CPU seen so far gave, if it named a vendor; and the vendor is
    put out only if every CPU seen so far named one. *)
Lemma x86Baseline_round_vendor map cpu_i st st' :
  x86Baseline_round map cpu_i st = Some st' ->
  (forall v, baseline_vendor st = Some v -> baseline_vendor st' = Some v) /\
  (forall b, cpu_vendor cpu_i = Some b ->
     exists v, baseline_vendor st' = Some v /\ vendor_name v = b) /\
  (baseline_outputVendor st' = true ->
   baseline_outputVendor st = true /\ is_Some (cpu_vendor cpu_i)).
Proof.
  unfold x86Baseline_round.
  destruct (x86ModelFromCPU cpu_i map VIR_CPU_FEATURE_REQUIRE) as [model|];
    [|done].
  destruct (match cpu_vendor cpu_i with Some _ => _ | None => _ end); [done|].
  destruct (cpu_vendor cpu_i) as [cv|].
  - destruct (baseline_vendor st) as [v|] eqn:Hv.
    + destruct (STRNEQ (vendor_name v) cv) eqn:E; [done|].
      apply STRNEQ_false in E. intros [= <-]. simpl.
      split; [done|]. split; [|done]. intros b [= <-]. by exists v.
    + destruct (x86VendorFind map cv) as [v|] eqn:Hf; [|done].
      intros [= <-]. simpl. split; [done|]. split; [|done].
      intros b [= <-]. exists v. split; [done|].
      by apply x86VendorFind_list_name in Hf as [_ ?].
  - destruct (model_vendor model) as [mv|]; simpl.
    + destruct (baseline_vendor st) as [v|] eqn:Hv.
      * destruct (STRNEQ (vendor_name v) (vendor_name mv)); [done|].
        intros [= <-]. simpl. split; [done|]. split; [done|done].
      * destruct (x86VendorFind map (vendor_name mv)) as [v|]; [|done].
        intros [= <-]. simpl. split; [done|]. split; [done|done].
    + intros [= <-]. simpl. split; [done|]. split; [done|done].
Qed.

Lemma x86Baseline_loop_vendor map cpus st st' :
  x86Baseline_loop map cpus st = Some st' ->
  (forall v, baseline_vendor st = Some v -> baseline_vendor st' = Some v) /\
  (forall c b, c ∈ cpus -> cpu_vendor c = Some b ->
     exists v, baseline_vendor st' = Some v /\ vendor_name v = b) /\
  (baseline_outputVendor st' = true ->
   baseline_outputVendor st = true /\
   Forall (fun c => is_Some (cpu_vendor c)) cpus).
Proof.
  revert st. induction cpus as [|c cs IH]; intros st; cbn [x86Baseline_loop].
  - intros [= <-]. split; [done|]. split; [by intros c b ?%elem_of_nil|done].
  - destruct (x86Baseline_round map c st) as [st1|] eqn:Hr; [|done].
    intros Hl. apply x86Baseline_round_vendor in Hr as (R1 & R2 & R3).
    apply IH in Hl as (L1 & L2 & L3). split; [|split].
    + intros v Hv. by apply L1, R1.
    + intros c' b [->|Hin]%elem_of_cons Hb; [|by apply (L2 c')].
      destruct (R2 b Hb) as (v & Hv & Hn). exists v. split; [by apply L1|done].
    + intros Ho. destruct (L3 Ho) as [Ho1 Hcs].
      destruct (R3 Ho1) as [Ho0 Hc]. split; [done|]. by constructor.
Qed.

Section BaselineResults.

Variable virCPUDefAddFeature :
  virCPUDef -> string -> virCPUFeaturePolicy -> Z * virCPUDef.
Variable cpuModelIsAllowed : string -> list string -> bool.
Variable virCheckFlags : Z -> Z -> bool.

(** What [x86Baseline] went through when it has a result. *)
Lemma x86Baseline_Some cpu_map cpus0 cpus_rest models flags r :
  x86Baseline virCPUDefAddFeature cpuModelIsAllowed virCheckFlags
              cpu_map cpus0 cpus_rest models flags = Some r ->
  exists map base_model st0 st data cpu,
    x86LoadMap cpu_map = Some map /\
    x86ModelFromCPU cpus0 map VIR_CPU_FEATURE_REQUIRE = Some base_model /\
    st0 = match cpu_vendor cpus0 with
          | None => Some (mk_baseline_state None false base_model)
          | Some name =>
              match x86VendorFind map name with
              | None => None
              | Some v => Some (mk_baseline_state (Some v) true base_model)
              end
          end /\
    (exists s, st0 = Some s /\ x86Baseline_loop map cpus_rest s = Some st) /\
    x86DataIsEmpty (model_data (baseline_base_model st)) = false /\
    x86Decode virCPUDefAddFeature cpuModelIsAllowed virCheckFlags cpu_map
      (set_match VIR_CPU_MATCH_EXACT
         (set_type VIR_CPU_TYPE_GUEST
            (set_arch (cpu_arch cpus0) virCPUDefNew)))
      (Some data) models None flags = (0, cpu) /\
    r = set_arch VIR_ARCH_NONE
          (if negb (baseline_outputVendor st)
           then set_vendor None cpu else cpu).
Proof.
  unfold x86Baseline.
  destruct (x86LoadMap cpu_map) as [map|] eqn:Hmap; [|done].
  destruct (x86ModelFromCPU cpus0 map VIR_CPU_FEATURE_REQUIRE)
    as [base_model|] eqn:Hbase; [|done].
  set (st0 := match cpu_vendor cpus0 with Some _ => _ | None => _ end).
  destruct st0 as [s|] eqn:Hst0; [|done].
  destruct (x86Baseline_loop map cpus_rest s) as [st|] eqn:Hloop; [|done].
  destruct (x86DataIsEmpty (model_data (baseline_base_model st))) eqn:He;
    [done|].
  match goal with
  | |- context [x86Decode _ _ _ _ ?c (Some ?d) _ _ _] =>
      pose proof (x86Decode_cases virCPUDefAddFeature cpuModelIsAllowed
                    virCheckFlags c models None cpu_map (Some d) flags) as Ha;
      destruct (x86Decode virCPUDefAddFeature cpuModelIsAllowed virCheckFlags
                          cpu_map c (Some d) models None flags)
        as [ret cpu] eqn:Hd
  end.
  cbv zeta in Ha. cbn [fst snd] in Ha.
  destruct Ha as [[-> _]|[-> _]];
    [change (-1 <? 0) with true; cbv iota; done
    |change (0 <? 0) with false; cbv iota].
  intros [= <-]. eexists map, base_model, _, st, _, cpu.
  split; [done|]. split; [done|]. split; [done|].
  split; [by exists s|]. split; [done|]. split; [exact Hd|done].
Qed.

(** X22. A baseline is a guest CPU with an exact match and without an
    architecture; and it names a vendor only if every one of the CPUs
    does. *)
Theorem x86Baseline_shape
        (cpu_map : list cpuMapElement) (cpus0 : virCPUDef)
        (cpus_rest : list virCPUDef) (models : list string) (flags : Z)
        (r : virCPUDef) :
  x86Baseline virCPUDefAddFeature cpuModelIsAllowed virCheckFlags
              cpu_map cpus0 cpus_rest models flags = Some r ->
  cpu_type r = VIR_CPU_TYPE_GUEST /\
  cpu_match r = VIR_CPU_MATCH_EXACT /\
  cpu_arch r = VIR_ARCH_NONE /\
  (is_Some (cpu_vendor r) ->
   Forall (fun c => is_Some (cpu_vendor c)) (cpus0 :: cpus_rest)).
Proof.
  intros (map & base_model & st0 & st & data & cpu & Hmap & Hbase & Hst0 &
          (s & Hs & Hloop) & He & Hd & ->)%x86Baseline_Some.
  match type of Hd with
  | x86Decode _ _ _ _ ?c (Some ?d) _ _ _ = _ =>
      pose proof (x86Decode_cases virCPUDefAddFeature cpuModelIsAllowed
                    virCheckFlags c models None cpu_map (Some d) flags) as Ha
  end.
  cbv zeta in Ha. rewrite Hd in Ha. cbn [fst snd] in Ha.
  destruct Ha as [[[=] _]|(_ & Ht & _ & _ & Hm & _)].
  destruct (baseline_outputVendor st) eqn:Ho; cbn [negb];
    (split; [exact Ht|]; split; [exact Hm|]; split; [done|]).
  - intros _. apply x86Baseline_loop_vendor in Hloop as (_ & _ & L3).
    destruct (L3 Ho) as [Ho0 Hrest]. constructor; [|done].
    subst st0. destruct (cpu_vendor cpus0) as [name|]; [by eexists|].
    injection Hs as <-. done.
  - by intros [? [=]].
Qed.

(** X23. CPUs that name different vendors have no baseline. *)
Theorem x86Baseline_vendor_conflict
        (cpu_map : list cpuMapElement) (cpus0 : virCPUDef)
        (cpus_rest : list virCPUDef) (models : list string) (flags : Z)
        (c1 c2 : virCPUDef) (a b : string) :
  c1 ∈ cpus0 :: cpus_rest -> c2 ∈ cpus0 :: cpus_rest ->
  cpu_vendor c1 = Some a -> cpu_vendor c2 = Some b -> a <> b ->
  x86Baseline virCPUDefAddFeature cpuModelIsAllowed virCheckFlags
              cpu_map cpus0 cpus_rest models flags = None.
Proof.
  intros H1 H2 Ha Hb Hab.
  destruct (x86Baseline _ _ _ _ _ _ _ _) as [r|] eqn:Hr; [|done]. exfalso.
  apply x86Baseline_Some in Hr
    as (map & base_model & st0 & st & data & cpu & Hmap & Hbase & Hst0 &
        (s & Hs & Hloop) & _).
  apply x86Baseline_loop_vendor in Hloop as (L1 & L2 & _).
  assert (forall c n, c ∈ cpus0 :: cpus_rest -> cpu_vendor c = Some n ->
            exists v, baseline_vendor st = Some v /\ vendor_name v = n) as Hv.
  { intros c n [->|Hin]%elem_of_cons Hn; [|by apply (L2 c)].
    subst st0. rewrite Hn in Hs.
    destruct (x86VendorFind map n) as [v|] eqn:Hf; [|done].
    injection Hs as <-. exists v. split; [by apply L1|].
    by apply x86VendorFind_list_name in Hf as [_ ?]. }
  destruct (Hv c1 a H1 Ha) as (v1 & Hv1 & Hn1).
  destruct (Hv c2 b H2 Hb) as (v2 & Hv2 & Hn2).
  congruence.
Qed.

End BaselineResults.

(** ** What [x86Encode] hands out *)

(** X24. [x86Encode] hands out all or nothing: when it fails (-1) every
    output is [NULL]; when it succeeds (0) every output that was asked for
    holds data for the given architecture, made from the model of the CPU
    for the policy of the output. *)
Theorem x86Encode_all_or_nothing
        (cpu_map : list cpuMapElement) (arch : virArch) (cpu : virCPUDef)
        (forced required optional disabled forbidden vendor : bool) :
  let r := x86Encode cpu_map arch cpu
                     forced required optional disabled forbidden vendor in
  r = encode_error \/
  (encode_ret r = 0 /\
   exists map,
     x86LoadMap cpu_map = Some map /\
     encode_forced r =
       (if forced
        then x86MakeCPUData arch <$>
               x86EncodePolicy cpu map VIR_CPU_FEATURE_FORCE
        else None) /\
     encode_required r =
       (if required
        then x86MakeCPUData arch <$>
               x86EncodePolicy cpu map VIR_CPU_FEATURE_REQUIRE
        else None) /\
     encode_optional r =
       (if optional
        then x86MakeCPUData arch <$>
               x86EncodePolicy cpu map VIR_CPU_FEATURE_OPTIONAL
        else None) /\
     encode_disabled r =
       (if disabled
        then x86MakeCPUData arch <$>
               x86EncodePolicy cpu map VIR_CPU_FEATURE_DISABLE
        else None) /\
     encode_forbidden r =
       (if forbidden
        then x86MakeCPUData arch <$>
               x86EncodePolicy cpu map VIR_CPU_FEATURE_FORBID
        else None) /\
     (forced = true -> is_Some (encode_forced r)) /\
     (required = true -> is_Some (encode_required r)) /\
     (optional = true -> is_Some (encode_optional r)) /\
     (disabled = true -> is_Some (encode_disabled r)) /\
     (forbidden = true -> is_Some (encode_forbidden r)) /\
     (vendor = true -> is_Some (encode_vendor r))).
Proof.
  unfold x86Encode.
  destruct (x86LoadMap cpu_map) as [map|]; [|by left].
  unfold x86Encode_policy.
  destruct forced;
    [destruct (x86EncodePolicy cpu map VIR_CPU_FEATURE_FORCE) eqn:Hf;
     [|by left]|];
    (destruct required;
     [destruct (x86EncodePolicy cpu map VIR_CPU_FEATURE_REQUIRE) eqn:Hr;
      [|by left]|]);
    (destruct optional;
     [destruct (x86EncodePolicy cpu map VIR_CPU_FEATURE_OPTIONAL) eqn:Ho;
      [|by left]|]);
    (destruct disabled;
     [destruct (x86EncodePolicy cpu map VIR_CPU_FEATURE_DISABLE) eqn:Hd;
      [|by left]|]);
    (destruct forbidden;
     [destruct (x86EncodePolicy cpu map VIR_CPU_FEATURE_FORBID) eqn:Hb;
      [|by left]|]);
    (destruct vendor;
     [destruct (cpu_vendor cpu) as [name|];
      [destruct (x86VendorFind map name); [|by left]|]|]);
    right; (split; [done|]); exists map; cbn;
    rewrite ?Hf, ?Hr, ?Ho, ?Hd, ?Hb;
    repeat split; try done; by intros; eexists.
Qed.

(** X25. For a host CPU the policies of the features are ignored:
    [x86Encode] puts the model of the CPU with all its features into
    [required] and leaves [forced], [optional], [disabled] and [forbidden]
    empty; the names of the features matter for [required] only. *)
Theorem x86Encode_host
        (cpu_map : list cpuMapElement) (arch : virArch) (cpu : virCPUDef) :
  cpu_type cpu = VIR_CPU_TYPE_HOST ->
  x86Encode cpu_map arch cpu true true true true true false =
  match x86LoadMap cpu_map with
  | None => encode_error
  | Some map =>
      match x86ModelFromCPU cpu map VIR_CPU_FEATURE_REQUIRE with
      | None => encode_error
      | Some model =>
          let empty := Some (x86MakeCPUData arch x86DataNew) in
          mk_encode_result 0 empty
            (Some (x86MakeCPUData arch (model_data model)))
            empty empty empty None
      end
  end.
Proof.
  intros Hhost. unfold x86Encode.
  destruct (x86LoadMap cpu_map) as [map|]; [|done].
  assert (forall policy, policy <> VIR_CPU_FEATURE_REQUIRE ->
            x86Encode_policy true cpu map policy = Some (Some x86DataNew))
    as Hempty.
  { intros policy Hp. unfold x86Encode_policy, x86EncodePolicy, x86ModelFromCPU.
    rewrite bool_decide_eq_false_2 by done.
    by rewrite bool_decide_eq_true_2 by done. }
  rewrite (Hempty VIR_CPU_FEATURE_FORCE), (Hempty VIR_CPU_FEATURE_OPTIONAL),
    (Hempty VIR_CPU_FEATURE_DISABLE), (Hempty VIR_CPU_FEATURE_FORBID) by done.
  unfold x86Encode_policy, x86EncodePolicy.
  by destruct (x86ModelFromCPU cpu map VIR_CPU_FEATURE_REQUIRE).
Qed.

(** ** The vendor, encoded and found again *)

(** The tuples of the vendors are tuples of function 0. *)
Definition x86MapVendors0 (map : x86_map) : Prop :=
  Forall (fun v => function (vendor_cpuid v) = 0) (map_vendors map).

Lemma x86MapLoadCallback_Vendors0 element map :
  x86MapVendors0 map ->
  x86MapVendors0 (load_map (x86MapLoadCallback element map)).
Proof.
  unfold x86MapVendors0. intros H.
  destruct element as [ctxt|ctxt|ctxt|]; cbn [x86MapLoadCallback]; [| | |done].
  - unfold x86VendorLoad.
    destruct (xml_vendor_name ctxt) as [n|]; [|done].
    destruct (x86VendorFind map n); [done|].
    destruct (xml_vendor_string ctxt) as [s|]; [|done].
    destruct (negb _); [done|]. by constructor.
  - by destruct (x86FeatureLoad_vendors_models ctxt map) as [-> _].
  - by destruct (x86ModelLoad_vendors_features ctxt map) as [-> _].
Qed.

Lemma x86LoadMap_Vendors0 cpu_map map :
  x86LoadMap cpu_map = Some map -> x86MapVendors0 map.
Proof.
  unfold x86LoadMap.
  assert (x86MapVendors0 (mk_map [] [] [])) as H0 by constructor.
  revert H0. generalize (mk_map [] [] []). revert map.
  induction cpu_map as [|e elements IH]; intros map m0 Hn; simpl.
  - by intros [= <-].
  - destruct (_ <? 0); [done|]. apply IH.
    by apply x86MapLoadCallback_Vendors0.
Qed.

Lemma x86DataAddCpuid_new cpuid :
  function cpuid = 0 ->
  x86DataAddCpuid x86DataNew cpuid =
  mk_data [mk_cpuid 0 (eax cpuid) (ebx cpuid) (ecx cpuid) (edx cpuid)] [].
Proof.
  destruct cpuid as [f a b c d]. simpl. intros ->. reflexivity.
Qed.

Lemma x86DataToVendor_list_single (c : cpuX86cpuid) (v : x86_vendor) vs :
  Forall (fun v' => function (vendor_cpuid v') = 0) vs ->
  x86cpuidMatch c cpuidNull = false ->
  v ∈ vs ->
  x86cpuidMatchMasked c (vendor_cpuid v) = true ->
  (forall v', v' ∈ vs ->
     x86cpuidMatchMasked c (vendor_cpuid v') = true -> v' = v) ->
  x86DataToVendor_list (mk_data [c] []) vs =
  (Some v, mk_data [x86cpuidClearBits c (vendor_cpuid v)] []).
Proof.
  intros H0 Hnn. induction H0 as [|w ws Hw _ IH]; intros Hin Hv Huniq;
    [by apply elem_of_nil in Hin|].
  cbn [x86DataToVendor_list]. rewrite Hw.
  assert (x86DataCpuid (mk_data [c] []) 0 = Some (mk_ptr false 0)) as ->.
  { unfold x86DataCpuid. change (0 <? CPUX86_EXTENDED) with true.
    cbv iota beta zeta.
    change (load (mk_data [c] []) (mk_ptr false (Z.to_nat 0))) with c.
    by rewrite Hnn. }
  change (load (mk_data [c] []) (mk_ptr false 0)) with c.
  destruct (x86cpuidMatchMasked c (vendor_cpuid w)) eqn:Hm.
  - rewrite (Huniq w (list_elem_of_here _ _) Hm). done.
  - apply IH.
    + apply elem_of_cons in Hin as [->|Hin]; [congruence|done].
    + done.
    + intros v' Hv'. apply Huniq. by right.
Qed.

Lemma x86cpuidMatchMasked_refl c : x86cpuidMatchMasked c c = true.
Proof. apply x86cpuidMatchMasked_true. by rewrite !Z.land_diag. Qed.

(** X26. The vendor that [x86Encode] encodes is the one that
    [x86DataToVendor] finds in the encoded data, and nothing is left of
    the data once its bits are taken out; this needs the vendor string to
    have a bit set, and that no other vendor of the catalog has all the
    bits of its string among those of this one. *)
Theorem x86Encode_vendor_found
        (cpu_map : list cpuMapElement) (map : x86_map) (arch : virArch)
        (cpu : virCPUDef) (name : string) (v : x86_vendor) :
  x86LoadMap cpu_map = Some map ->
  cpu_vendor cpu = Some name ->
  x86VendorFind map name = Some v ->
  x86cpuidMatch (vendor_cpuid v) cpuidNull = false ->
  (forall v', v' ∈ map_vendors map ->
     x86cpuidMatchMasked (vendor_cpuid v) (vendor_cpuid v') = true ->
     v' = v) ->
  exists data,
    x86Encode cpu_map arch cpu false false false false false true =
      mk_encode_result 0 None None None None None (Some (arch, Some data)) /\
    fst (x86DataToVendor data map) = Some v /\
    x86DataIsEmpty (snd (x86DataToVendor data map)) = true.
Proof.
  intros Hmap Hcpu Hfind Hnn Huniq. eexists. split.
  { unfold x86Encode. rewrite Hmap. cbn [x86Encode_policy].
    by rewrite Hcpu, Hfind. }
  pose proof (x86LoadMap_Vendors0 _ _ Hmap) as H0.
  apply x86VendorFind_list_name in Hfind as [Hin _].
  pose proof (proj1 (Forall_forall _ _) H0 v Hin) as Hf. cbv beta in Hf.
  rewrite (x86DataAddCpuid_new _ Hf). unfold x86DataToVendor.
  set (c := mk_cpuid 0 _ _ _ _).
  assert (forall c', x86cpuidMatchMasked c c' =
                     x86cpuidMatchMasked (vendor_cpuid v) c') as Hc by done.
  rewrite (x86DataToVendor_list_single c v); try done.
  - cbn [fst snd]. split; [done|]. apply x86DataIsEmpty_null. intros p.
    apply is_null_reg. intros r. rewrite reg_load. unfold reg_at, leaves_of.
    cbn [basic extended]. destruct (in_extended p); [by rewrite reg_null|].
    destruct (index p) as [|k]; [|by rewrite reg_null]. cbn.
    rewrite reg_ClearBits.
    replace (reg r c) with (reg r (vendor_cpuid v)) by (by destruct r).
    apply land_not32_self.
  - by rewrite Hc, x86cpuidMatchMasked_refl.
Qed.

(** ** The walk over a store *)

Lemma fold_leaves_collect (l acc : list cpuid_ptr) :
  fold_leaves (R := Empty_set) (fun p s => inl (s ++ [p])) l acc =
  inl (acc ++ l).
Proof.
  revert acc. induction l as [|p l IH]; intros acc; simpl.
  - by rewrite app_nil_r.
  - rewrite IH. by rewrite <- app_assoc.
Qed.

(** X27. Calling [x86DataCpuidNext] again and again, from a fresh iterator
    until it returns [NULL], gives the tuples of the store that are not
    null, each once: first those of [basic], then those of [extended], each
    array by increasing index. *)
Theorem x86DataCpuidNext_visits (data : cpuX86Data) :
  while_next (R := Empty_set) (iter_fuel data)
             (fun _ : list cpuid_ptr => data)
             (fun cpuid visited => inl (visited ++ [cpuid]))
             [] DATA_ITERATOR_INIT =
  inl (List.filter
         (fun p => negb (x86cpuidMatch (load data p) cpuidNull))
         ((mk_ptr false <$> seq 0 (length (basic data))) ++
          (mk_ptr true <$> seq 0 (length (extended data))))).
Proof.
  rewrite (while_next_leaves (fun _ : list cpuid_ptr => data)); [|done].
  rewrite fold_leaves_collect. simpl. f_equal.
  unfold x86DataLeaves, ptrs_after, ptrs_from, leaves_of, is_null. simpl.
  by rewrite !Nat.sub_0_r.
Qed.

(** ** The data of a loaded feature *)

(** The bitwise or of register [r] over the tuples of [cs] whose function
    is that of the leaf at [p]. *)
Definition cpuids_regs (cs : list cpuX86cpuid) (p : cpuid_ptr) (r : register)
  : Z :=
  foldr (fun c z => if decide (p = cpuid_ptr_of (function c))
                    then Z.lor (reg r c) z else z) 0 cs.

Lemma x86FeatureLoad_cpuids_reg fname i nodes data data' :
  x86DataWF data ->
  Forall (fun node => function_in_reach (xml_cpuid_tuple node)) nodes ->
  x86FeatureLoad_cpuids fname i nodes data = inl data' ->
  forall p r,
    reg r (load data' p) =
    Z.lor (reg r (load data p)) (cpuids_regs (xml_cpuid_tuple <$> nodes) p r).
Proof.
  intros Hwf Hok. revert i data Hwf.
  induction Hok as [|node nodes [Hb He] _ IH]; intros i data Hwf;
    cbn [x86FeatureLoad_cpuids].
  - intros [= <-] p r. simpl. by rewrite Z.lor_0_r.
  - destruct (_ || _); [done|].
    fold (xml_cpuid_tuple node). intros Hl p r.
    assert (0 <= function (xml_cpuid_tuple node) < 2 ^ 32) as Hfn
      by apply wrap32_range.
    rewrite (IH _ _ (x86DataAddCpuid_WF _ _ Hwf Hfn) Hl).
    destruct (x86DataAddCpuid_store data (xml_cpuid_tuple node)
                (proj2 Hwf) Hfn Hb He) as [_ ->].
    rewrite fmap_cons. cbn [cpuids_regs foldr].
    fold (cpuids_regs (xml_cpuid_tuple <$> nodes) p r).
    destruct (decide (p = _)); [by rewrite Z.lor_assoc|done].
Qed.

(** X28. A feature that [x86FeatureLoad] adds to the catalog has the name of
    its element, which no feature had before, and is what the lookup of
    that name returns; its data is the union of the tuples of its [cpuid]
    nodes, each in the leaf of its function. *)
Theorem x86FeatureLoad_feature
        (ctxt : xml_feature) (map : x86_map) (f : x86_feature)
        (nodes : list xml_cpuid) :
  map_features (load_map (x86FeatureLoad ctxt map)) = f :: map_features map ->
  xml_feature_cpuid ctxt = Some nodes ->
  Forall (fun node => function_in_reach (xml_cpuid_tuple node)) nodes ->
  xml_feature_name ctxt = Some (feature_name f) /\
  x86FeatureFind map (feature_name f) = None /\
  x86FeatureFind (load_map (x86FeatureLoad ctxt map)) (feature_name f)
    = Some f /\
  forall p r,
    reg r (load (feature_data f) p) =
    cpuids_regs (xml_cpuid_tuple <$> nodes) p r.
Proof.
  intros Hpush Hnodes Hok.
  assert (x86FeatureFind (load_map (x86FeatureLoad ctxt map)) (feature_name f)
          = Some f) as Hfind.
  { unfold x86FeatureFind. rewrite Hpush. simpl.
    by rewrite (proj2 (STREQ_true _ _) eq_refl). }
  enough (xml_feature_name ctxt = Some (feature_name f) /\
          x86FeatureFind map (feature_name f) = None /\
          forall p r,
            reg r (load (feature_data f) p) =
            cpuids_regs (xml_cpuid_tuple <$> nodes) p r)
    as (? & ? & ?) by done.
  clear Hfind. revert Hpush. unfold x86FeatureLoad. rewrite Hnodes.
  destruct (xml_feature_name ctxt) as [n|]; [|intros H; not_pushed H].
  destruct (x86FeatureFind map n) eqn:Hn; [intros H; not_pushed H|].
  destruct (x86FeatureLoad_cpuids n 0 nodes x86DataNew) as [data|e] eqn:Hl;
    [|intros H; not_pushed H].
  cbn [load_map map_features]. intros [= <-]. cbn [feature_name feature_data].
  split; [done|]. split; [done|]. intros p r.
  rewrite (x86FeatureLoad_cpuids_reg _ _ _ _ _ x86DataNew_WF Hok Hl p r).
  rewrite (load_invalid x86DataNew p), reg_null; [done|].
  unfold valid_ptr, leaves_of. simpl. destruct (in_extended p); simpl; lia.
Qed.

(** ** A model decoded from its own data *)

Lemma x86DataIsEmpty_subtract data1 data2 :
  x86DataSized data1 -> bits_subset data1 data2 ->
  x86DataIsEmpty (x86DataSubtract data1 data2) = true.
Proof.
  intros Hs Hsub. apply x86DataIsEmpty_null. intros p.
  apply is_null_reg. intros r.
  pose proof (proj1 (bits_subset_reg _ _) Hsub p r) as Hr.
  destruct (decide (valid_ptr data1 p)) as [Hv|Hv].
  - rewrite x86DataSubtract_load by done. case_bool_decide as Hv2.
    + rewrite reg_ClearBits, <- Hr, (Z.land_comm (reg r (load data2 p))).
      by rewrite <- Z.land_assoc, land_not32_self, Z.land_0_r.
    + rewrite (load_invalid data2 p Hv2), reg_null, Z.land_0_l in Hr.
      by rewrite <- Hr.
  - rewrite load_invalid; [by rewrite reg_null|].
    by rewrite x86DataSubtract_valid.
Qed.

Lemma x86DataToVendor_list_subset data vs :
  bits_subset (snd (x86DataToVendor_list data vs)) data.
Proof.
  induction vs as [|v vs IH]; cbn [x86DataToVendor_list];
    [apply bits_subset_refl|].
  destruct (x86DataCpuid data (function (vendor_cpuid v))) as [q|] eqn:Hq;
    [|done].
  destruct (x86cpuidMatchMasked (load data q) (vendor_cpuid v)); [|done].
  cbn [snd]. apply bits_subset_reg. intros p r.
  destruct (decide (p = q)) as [->|Hne].
  - destruct (decide (valid_ptr data q)) as [Hv|Hv].
    + rewrite load_store_eq by done. rewrite reg_ClearBits.
      by rewrite Z.land_assoc, Z.land_diag.
    + rewrite (load_invalid (store _ _ _) q) by (by rewrite valid_ptr_store).
      rewrite reg_null. apply Z.land_0_r.
  - rewrite load_store_ne by done. apply Z.land_diag.
Qed.

Section DecodeOwnData.

Variable virCPUDefAddFeature :
  virCPUDef -> string -> virCPUFeaturePolicy -> Z * virCPUDef.

Lemma x86DataToCPUFeatures_list_empty cpu policy data features :
  x86DataIsEmpty data = true ->
  Forall (fun f => x86DataWF (feature_data f) /\
                   x86DataIsEmpty (feature_data f) = false) features ->
  x86DataToCPUFeatures_list virCPUDefAddFeature cpu policy data features =
  (0, cpu, data).
Proof.
  intros He. induction 1 as [|f fs [Hwf Hne] _ IH];
    cbn [x86DataToCPUFeatures_list]; [done|].
  destruct (x86DataIsSubset data (feature_data f)) eqn:Hsub; [|done].
  exfalso. apply x86DataIsSubset_bits in Hsub; [|done].
  enough (x86DataIsEmpty (feature_data f) = true) by congruence.
  apply x86DataIsEmpty_null. intros p. apply is_null_reg. intros r.
  rewrite <- (proj1 (bits_subset_reg _ _) Hsub p r).
  pose proof (proj1 (x86DataIsEmpty_null data) He p) as Hn.
  by rewrite (proj1 (is_null_reg data p) Hn r), Z.land_0_l.
Qed.

(** X29. A model decodes from its own data without a feature: when every
    feature of the catalog has a bit, [x86DataToCPU] turns the data of a
    model, with this model as the candidate, into a guest CPU of that model
    with no feature at all, and with the vendor that is found in the
    data. *)
Theorem x86DataToCPU_own_data (model : x86_model) (map : x86_map) :
  x86MapWF map ->
  Forall (fun f => x86DataIsEmpty (feature_data f) = false)
         (map_features map) ->
  x86DataWF (model_data model) ->
  x86DataToCPU virCPUDefAddFeature (model_data model) model map =
  Some (set_type VIR_CPU_TYPE_GUEST
          (set_vendor
             (vendor_name <$> fst (x86DataToVendor (model_data model) map))
             (set_model (default EmptyString (model_name model))
                        virCPUDefNew))).
Proof.
  intros [Hwf _] Hne [Hi Hs].
  assert (Forall (fun f => x86DataWF (feature_data f) /\
                           x86DataIsEmpty (feature_data f) = false)
                 (map_features map)) as Hfs.
  { rewrite Forall_forall in Hwf, Hne. apply Forall_forall. intros f Hin.
    split; [by apply Hwf|by apply Hne]. }
  unfold x86DataToCPU. rewrite !x86DataCopy_eq.
  pose proof (x86DataToVendor_list_subset (model_data model)
                (map_vendors map)) as Hsub.
  destruct (x86DataToVendor_shape (model_data model) (map_vendors map) Hi)
    as (_ & Lb & Le).
  unfold x86DataToVendor.
  destruct (x86DataToVendor_list (model_data model) (map_vendors map))
    as [vendor copy].
  cbn [fst snd] in *. unfold x86DataToCPUFeatures.
  rewrite x86DataToCPUFeatures_list_empty; [| |done].
  - rewrite x86DataToCPUFeatures_list_empty; [done| |done].
    apply x86DataIsEmpty_subtract; [done|apply bits_subset_refl].
  - apply x86DataIsEmpty_subtract; [|done].
    unfold x86DataSized, basic_len, extended_len in *. by rewrite Lb, Le.
Qed.

End DecodeOwnData.

(** ** Forbidden features *)

(** X30. One bit is enough for the forbid check of [x86Compute]: when the
    architecture and vendor checks pass and the models can be made, and a
    forbidden feature of the CPU shares a bit with the model of the host,
    the result is [VIR_CPU_COMPARE_INCOMPATIBLE], with the names of the
    features contained in what the two share; the host need not have the
    whole feature. *)
Theorem x86Compute_forbidden_bit
        (cpu_map : list cpuMapElement) (host cpu : virCPUDef)
        (guest message : bool) (map : x86_map) (ms : compute_models)
        (p : cpuid_ptr) (r : register) (i : Z) :
  x86Compute_arch_ok cpu -> x86Compute_vendor_ok host cpu ->
  x86LoadMap cpu_map = Some map ->
  x86Compute_models map host cpu ms ->
  bit (model_data (cpu_forbid ms)) p r i = true ->
  bit (model_data (host_model ms)) p r i = true ->
  x86Compute cpu_map host cpu guest message =
  mk_compute_result VIR_CPU_COMPARE_INCOMPATIBLE
    (if message
     then Some (incompatible_features
                  "Host CPU provides forbidden features"
                  (x86FeatureNames map ", "
                     (x86DataIntersect (model_data (cpu_forbid ms))
                                       (model_data (host_model ms)))))
     else None)
    None.
Proof.
  intros Harch Hvendor Hmap Hms Hf Hh.
  destruct (x86Compute_models_WF _ _ _ _ _ Hmap Hms)
    as (_ & _ & _ & _ & _ & Wf).
  destruct Hms as (H1 & H2 & H3 & H4 & H5 & H6).
  assert (x86DataIsEmpty
            (x86DataIntersect (model_data (cpu_forbid ms))
                              (model_data (host_model ms))) = false) as He.
  { destruct (x86DataIsEmpty _) eqn:He; [|done]. exfalso.
    pose proof (proj1 (x86DataIsEmpty_null _) He p) as Hn.
    pose proof (proj1 (is_null_reg _ p) Hn r) as Hr.
    rewrite x86DataIntersect_reg in Hr by done.
    apply (f_equal (fun z => Z.testbit z i)) in Hr.
    rewrite Z.land_spec, Z.testbit_0_l in Hr. unfold bit in Hf, Hh.
    by rewrite Hf, Hh in Hr. }
  unfold x86Compute.
  rewrite (proj2 (x86Compute_arch_check cpu) Harch).
  rewrite (proj2 (x86Compute_vendor_check host cpu) Hvendor).
  rewrite Hmap, H1, H2, H3, H4, H5, H6. cbn [set_data model_data].
  rewrite He. done.
Qed.

(** ** Examples for the further properties *)

Lemma example_map_loaded : x86LoadMap example_cpu_map = Some example_map.
Proof. vm_compute. reflexivity. Defined.

Definition data_of (name : string) : cpuX86Data :=
  model_data (example_model name).

Definition feature_lm : cpuX86Data :=
  x86DataAddCpuid x86DataNew (mk_cpuid 0x80000001 0 0 0 0x20000000).

(** [x86_64] contains itself, and [base] through [core2]. *)
Lemma x86DataIsSubset_preorder_witness :
  x86DataIsSubset (data_of "x86_64") (data_of "x86_64") = true /\
  x86DataIsSubset (data_of "x86_64") (data_of "base") = true.
Proof.
  destruct (x86DataIsSubset_preorder (data_of "x86_64") (data_of "core2")
              (data_of "base")) as [H1 H2]; [by_decision..|].
  split; [exact H1|]. apply H2; vm_compute; reflexivity.
Defined.

(** [base] with [lm] added contains [lm]. *)
Lemma x86DataAdd_union_witness :
  x86DataIsSubset (x86DataAdd (data_of "base") feature_lm) feature_lm = true.
Proof.
  apply (x86DataAdd_union (data_of "base") feature_lm); by_decision.
Defined.

(** What [x86_64] and [core2] have in common contains [base]. *)
Lemma x86DataIntersect_meet_witness :
  x86DataIsSubset (x86DataIntersect (data_of "x86_64") (data_of "core2"))
                  (data_of "base") = true.
Proof.
  apply (x86DataIntersect_meet (data_of "x86_64") (data_of "core2")
           (data_of "base")); [by_decision|by_decision|..];
    vm_compute; reflexivity.
Defined.

(** [x86_64] without [lm] does not contain [lm]. *)
Lemma x86DataIsSubset_after_subtract_witness :
  x86DataIsSubset (x86DataSubtract (data_of "x86_64") feature_lm) feature_lm
  = false.
Proof.
  rewrite (x86DataIsSubset_after_subtract (data_of "x86_64") feature_lm);
    [reflexivity|by_decision|by_decision].
Defined.

(** The leaf of [lm], added to [base], is found under its function. *)
Lemma x86DataAddCpuid_lookup_witness :
  x86DataCpuid
    (x86DataAddCpuid (data_of "base")
                     (mk_cpuid 0x80000001 0 0 0 0x20000000))
    0x80000001 = Some (mk_ptr true 1).
Proof.
  apply (x86DataAddCpuid_lookup (data_of "base")
           (mk_cpuid 0x80000001 0 0 0 0x20000000));
    [by_decision|simpl; lia|discriminate|discriminate|reflexivity].
Defined.

(** [base] compares as [SUBSET] to [core2]: its bits are among those of
    [core2]. *)
Lemma x86ModelCompare_decides_witness :
  bits_subset (data_of "base") (data_of "core2") /\
  ~ bits_equal (data_of "base") (data_of "core2").
Proof.
  apply (x86ModelCompare_decides (example_model "base")
           (example_model "core2")); [by_decision|by_decision|].
  vm_compute. reflexivity.
Defined.

Lemma x86ModelCompare_flip_witness :
  x86ModelCompare (example_model "core2") (example_model "base") = SUPERSET.
Proof.
  rewrite (x86ModelCompare_flip (example_model "base")
             (example_model "core2")); [|by_decision|by_decision].
  vm_compute. reflexivity.
Defined.

(** The feature [sse2] of the catalog. *)
Definition feature_sse2 : x86_feature :=
  default (mk_feature EmptyString x86DataNew) (map_features example_map !! 1%nat).

Lemma x86LoadMap_no_shadowing_witness :
  x86FeatureFind example_map (feature_name feature_sse2) = Some feature_sse2.
Proof.
  apply (x86LoadMap_no_shadowing example_cpu_map example_map).
  - exact example_map_loaded.
  - apply list_elem_of_further, list_elem_of_here.
Defined.

(** A new feature [nx] (leaf 0x80000001, edx bit 20): with it in the
    catalog [sse2] is found as before. *)
Definition feature_nx : cpuMapElement :=
  CPU_MAP_ELEMENT_FEATURE
    (mk_xml_feature (Some "nx"%string)
                    (Some [example_cpuid 0x80000001 0x100000])).

Lemma x86MapLoadCallback_keeps_witness :
  x86FeatureFind (load_map (x86MapLoadCallback feature_nx example_map)) "sse2"
    = Some feature_sse2 /\
  is_Some (x86FeatureFind (load_map (x86MapLoadCallback feature_nx example_map))
                          "nx") /\
  x86MapShort (load_map (x86MapLoadCallback feature_nx example_map)).
Proof.
  destruct (x86MapLoadCallback_keeps feature_nx example_map)
    as (_ & Hf & _ & Hs); [by_decision|].
  split; [apply Hf; reflexivity|]. split; [by_decision|].
  apply Hs. by_decision.
Defined.



(** A guest [base] that requires [sse2] and disables [lm]. *)
Definition guest_base_sse2 : virCPUDef :=
  example_cpu VIR_CPU_TYPE_GUEST VIR_CPU_MATCH_EXACT "base" None
    [ mk_feature_def "sse2" VIR_CPU_FEATURE_REQUIRE;
      mk_feature_def "lm" VIR_CPU_FEATURE_DISABLE ]%string.

Lemma x86ModelFromCPU_data_witness :
  exists m,
    x86ModelFromCPU guest_base_sse2 example_map VIR_CPU_FEATURE_REQUIRE
      = Some m /\
    reg EDX (load (model_data m) (mk_ptr false 1)) = 0x4000001 /\
    reg EDX (load (model_data m) (mk_ptr true 1)) = 0.
Proof.
  set (m := default x86ModelNew
              (x86ModelFromCPU guest_base_sse2 example_map
                               VIR_CPU_FEATURE_REQUIRE)).
  assert (x86ModelFromCPU guest_base_sse2 example_map VIR_CPU_FEATURE_REQUIRE
          = Some m) as Hm by (vm_compute; reflexivity).
  destruct (x86ModelFromCPU_data guest_base_sse2 example_map
              VIR_CPU_FEATURE_REQUIRE m) as (_ & _ & Hr).
  - apply (x86LoadMap_WF example_cpu_map). exact example_map_loaded.
  - by_decision.
  - exact Hm.
  - exists m. split; [exact Hm|]. rewrite !Hr. split; vm_compute; reflexivity.
Defined.

(** A guest [core2] with [lm] optional on a host [x86_64]: the guest gets
    [lm]. *)
Definition guest_core2_lm : virCPUDef :=
  example_cpu VIR_CPU_TYPE_GUEST VIR_CPU_MATCH_EXACT "core2" None
    [ mk_feature_def "lm" VIR_CPU_FEATURE_OPTIONAL ]%string.

Lemma x86Compute_guest_data_witness :
  exists data,
    compute_guest (x86Compute example_cpu_map host_x86_64 guest_core2_lm
                              true true)
      = Some (x86MakeCPUData VIR_ARCH_NONE data) /\
    bit data (mk_ptr true 1) EDX 29 = true.
Proof.
  destruct (x86Compute_guest_data example_cpu_map host_x86_64 guest_core2_lm
              true example_map (example_models host_x86_64 guest_core2_lm))
    as (data & Hg & Hbit).
  - apply example_passes_forbid; vm_compute; try reflexivity; auto.
  - by_decision.
  - vm_compute. discriminate.
  - vm_compute. discriminate.
  - intros (_ & _ & [=]).
  - exists data. split; [exact Hg|]. rewrite Hbit by lia.
    vm_compute. reflexivity.
Defined.

Definition decode_x86_64 (cpu : virCPUDef) (models : list string)
           (preferred : option string) : Z * virCPUDef :=
  x86Decode example_virCPUDefAddFeature example_cpuModelIsAllowed
            example_virCheckFlags example_cpu_map cpu
            (Some (data_of "x86_64")) models preferred 0.

Lemma x86Decode_host_policies_witness :
  Forall (fun f => fd_policy f = VIR_CPU_FEATURE_UNSET)
         (cpu_features (snd (decode_x86_64 host_any ["core2"%string] None))).
Proof.
  apply (x86Decode_host_policies example_virCPUDefAddFeature
           example_cpuModelIsAllowed example_virCheckFlags host_any
           (data_of "x86_64") ["core2"%string] None example_cpu_map 0);
    reflexivity.
Defined.

Lemma x86Decode_model_allowed_witness :
  example_cpuModelIsAllowed
    (cpu_model (snd (decode_x86_64 guest_any ["core2"; "base"]%string None)))
    ["core2"; "base"]%string = true.
Proof.
  apply (x86Decode_model_allowed example_virCPUDefAddFeature
           example_cpuModelIsAllowed example_virCheckFlags guest_any
           (data_of "x86_64") ["core2"; "base"]%string None
           (fun _ _ _ => eq_refl) example_cpu_map example_map 0).
  - exact example_map_loaded.
  - vm_compute. reflexivity.
Defined.

(** A guest that does not allow a fallback and prefers [core2], which the
    hypervisor does not support. *)
Definition guest_no_fallback : virCPUDef :=
  mk_cpu_def VIR_CPU_TYPE_GUEST VIR_CPU_MODE_CUSTOM VIR_ARCH_NONE
             VIR_CPU_MATCH_EXACT VIR_CPU_FALLBACK_FORBID "" None [].

Lemma x86Decode_preferred_forbidden_witness :
  decode_x86_64 guest_no_fallback ["base"%string] (Some "core2"%string) =
  (-1, guest_no_fallback).
Proof.
  apply (x86Decode_preferred_forbidden example_virCPUDefAddFeature
           example_cpuModelIsAllowed example_virCheckFlags guest_no_fallback
           (data_of "x86_64") ["base"%string] (fun _ _ _ => eq_refl)
           example_cpu_map example_map "core2" 0).
  - exact example_map_loaded.
  - vm_compute. by eexists.
  - reflexivity.
  - discriminate.
Defined.

(** A guest with [sse2] and [lm] optional on a host [core2]: [sse2]
    becomes required, [lm] disabled. *)
Definition guest_two_optional : virCPUDef :=
  example_cpu VIR_CPU_TYPE_GUEST VIR_CPU_MATCH_EXACT "base" None
    [ mk_feature_def "sse2" VIR_CPU_FEATURE_OPTIONAL;
      mk_feature_def "lm" VIR_CPU_FEATURE_OPTIONAL;
      mk_feature_def "fpu" VIR_CPU_FEATURE_REQUIRE ]%string.

Lemma x86Update_custom_resolves_witness :
  x86Update example_virCPUDefAddFeature (fun c => c) (fun c _ _ => (0, c))
            (fun c => Some c) (fun c _ _ => (0, c))
            example_cpu_map guest_two_optional host_core2 =
  (0, set_features
        [ mk_feature_def "sse2" VIR_CPU_FEATURE_REQUIRE;
          mk_feature_def "lm" VIR_CPU_FEATURE_DISABLE;
          mk_feature_def "fpu" VIR_CPU_FEATURE_REQUIRE ]%string
        guest_two_optional).
Proof.
  destruct (x86Update_custom_resolves
              example_virCPUDefAddFeature (fun c => c) (fun c _ _ => (0, c))
              (fun c => Some c) (fun c _ _ => (0, c))
              example_cpu_map guest_two_optional host_core2 example_map
              (example_model "core2")) as (H & _).
  - reflexivity.
  - discriminate.
  - exact example_map_loaded.
  - vm_compute. reflexivity.
  - repeat constructor; intros _; vm_compute; by eexists.
  - rewrite H. vm_compute. reflexivity.
Defined.

Lemma x86DataToCPUFeatures_leftover_witness :
  x86DataIsSubset
    (snd (x86DataToCPUFeatures example_virCPUDefAddFeature virCPUDefNew
            VIR_CPU_FEATURE_REQUIRE (data_of "x86_64") example_map))
    (feature_data feature_sse2) = false.
Proof.
  apply (x86DataToCPUFeatures_leftover example_virCPUDefAddFeature
           virCPUDefNew VIR_CPU_FEATURE_REQUIRE (data_of "x86_64") example_map
           (snd (fst (x86DataToCPUFeatures example_virCPUDefAddFeature
                        virCPUDefNew VIR_CPU_FEATURE_REQUIRE
                        (data_of "x86_64") example_map)))).
  - apply (x86LoadMap_WF example_cpu_map). exact example_map_loaded.
  - by_decision.
  - vm_compute. reflexivity.
  - apply list_elem_of_further, list_elem_of_here.
  - vm_compute. reflexivity.
Defined.

Definition baseline_of (cpus0 : virCPUDef) (cpus_rest : list virCPUDef)
  : option virCPUDef :=
  x86Baseline example_virCPUDefAddFeature example_cpuModelIsAllowed
              example_virCheckFlags example_cpu_map cpus0 cpus_rest [] 0.

Lemma x86Baseline_shape_witness :
  exists r,
    baseline_of host_x86_64 [host_core2] = Some r /\
    cpu_model r = "core2"%string /\
    cpu_type r = VIR_CPU_TYPE_GUEST /\
    cpu_match r = VIR_CPU_MATCH_EXACT /\
    cpu_arch r = VIR_ARCH_NONE.
Proof.
  set (r := default virCPUDefNew (baseline_of host_x86_64 [host_core2])).
  assert (baseline_of host_x86_64 [host_core2] = Some r) as Hr
    by (vm_compute; reflexivity).
  exists r. split; [exact Hr|]. split; [vm_compute; reflexivity|].
  destruct (x86Baseline_shape example_virCPUDefAddFeature
              example_cpuModelIsAllowed example_virCheckFlags
              example_cpu_map host_x86_64 [host_core2] [] 0 r Hr)
    as (Ht & Hm & Ha & _).
  split; [exact Ht|]. split; [exact Hm|exact Ha].
Defined.

Definition host_amd : virCPUDef :=
  example_cpu VIR_CPU_TYPE_HOST VIR_CPU_MATCH_EXACT "base" (Some "AMD"%string)
              [].

Lemma x86Baseline_vendor_conflict_witness :
  baseline_of host_core2 [host_x86_64; host_amd] = None.
Proof.
  apply (x86Baseline_vendor_conflict example_virCPUDefAddFeature
           example_cpuModelIsAllowed example_virCheckFlags example_cpu_map
           host_core2 [host_x86_64; host_amd] [] 0 host_core2 host_amd
           "Intel" "AMD").
  - apply list_elem_of_here.
  - apply list_elem_of_further, list_elem_of_further, list_elem_of_here.
  - reflexivity.
  - reflexivity.
  - discriminate.
Defined.

Lemma x86Encode_host_witness :
  encode_forced
    (x86Encode example_cpu_map VIR_ARCH_X86_64 host_core2
               true true true true true false)
  = Some (x86MakeCPUData VIR_ARCH_X86_64 x86DataNew).
Proof.
  rewrite (x86Encode_host example_cpu_map VIR_ARCH_X86_64 host_core2);
    reflexivity.
Defined.

Definition vendor_Intel : x86_vendor :=
  default (mk_vendor "" cpuidNull) (x86VendorFind example_map "Intel").

Lemma x86Encode_vendor_found_witness :
  exists data,
    encode_vendor
      (x86Encode example_cpu_map VIR_ARCH_X86_64 host_core2
                 false false false false false true)
      = Some (VIR_ARCH_X86_64, Some data) /\
    fst (x86DataToVendor data example_map) = Some vendor_Intel.
Proof.
  destruct (x86Encode_vendor_found example_cpu_map example_map VIR_ARCH_X86_64
              host_core2 "Intel" vendor_Intel) as (data & He & Hv & _).
  - exact example_map_loaded.
  - reflexivity.
  - reflexivity.
  - vm_compute. reflexivity.
  - intros v' Hin Hm. apply list_elem_of_In in Hin. simpl in Hin.
    destruct Hin as [<-|[<-|[]]]; [vm_compute in Hm; discriminate|reflexivity].
  - exists data. split; [by rewrite He|exact Hv].
Defined.

(** A feature whose three [cpuid] nodes put two bits into leaf 1 and one
    into leaf 7. *)
Definition feature_three_nodes : xml_feature :=
  mk_xml_feature (Some "three"%string)
    (Some [example_cpuid 1 0x2; example_cpuid 7 0x8; example_cpuid 1 0x4]).

Lemma x86FeatureLoad_feature_witness :
  exists f,
    x86FeatureFind (load_map (x86FeatureLoad feature_three_nodes example_map))
                   "three" = Some f /\
    reg EDX (load (feature_data f) (mk_ptr false 1)) = 6 /\
    reg EDX (load (feature_data f) (mk_ptr false 7)) = 8.
Proof.
  set (f := hd (mk_feature "" x86DataNew)
               (map_features
                  (load_map (x86FeatureLoad feature_three_nodes example_map)))).
  destruct (x86FeatureLoad_feature feature_three_nodes example_map f
              [example_cpuid 1 0x2; example_cpuid 7 0x8; example_cpuid 1 0x4])
    as (_ & _ & Hf & Hr).
  - vm_compute. reflexivity.
  - reflexivity.
  - by_decision.
  - exists f. split; [exact Hf|]. rewrite !Hr. split; vm_compute; reflexivity.
Defined.

Lemma x86DataToCPU_own_data_witness :
  x86DataToCPU example_virCPUDefAddFeature (data_of "core2")
               (example_model "core2") example_map =
  Some (set_type VIR_CPU_TYPE_GUEST (set_model "core2" virCPUDefNew)).
Proof.
  unfold data_of.
  rewrite (x86DataToCPU_own_data example_virCPUDefAddFeature
             (example_model "core2") example_map).
  - reflexivity.
  - apply (x86LoadMap_WF example_cpu_map). exact example_map_loaded.
  - by_decision.
  - by_decision.
Defined.

(** A guest [base] that forbids [sse2], on a host [core2]. *)
Definition guest_forbids_sse2 : virCPUDef :=
  example_cpu VIR_CPU_TYPE_GUEST VIR_CPU_MATCH_EXACT "base" None
    [ mk_feature_def "sse2" VIR_CPU_FEATURE_FORBID ]%string.

Lemma x86Compute_forbidden_bit_witness :
  x86Compute example_cpu_map host_core2 guest_forbids_sse2 true true =
  mk_compute_result VIR_CPU_COMPARE_INCOMPATIBLE
    (Some (incompatible_features "Host CPU provides forbidden features"
                                 "sse2"))
    None.
Proof.
  rewrite (x86Compute_forbidden_bit example_cpu_map host_core2
             guest_forbids_sse2 true true example_map
             (example_models host_core2 guest_forbids_sse2)
             (mk_ptr false 1) EDX 26).
  - vm_compute. reflexivity.
  - by_decision.
  - by_decision.
  - exact example_map_loaded.
  - unfold x86Compute_models.
    repeat match goal with |- _ /\ _ => split end; vm_compute; reflexivity.
  - vm_compute. reflexivity.
  - vm_compute. reflexivity.
Defined.
